(* ===== verification/_CoqProject ===== *)
-Q . S2P
Prelude.v
PyNum.v
FloatExact.v
PyDict.v
PyStr.v
Session.v
LedgerSpec.v
Holdings.v
Account4o.v
Account4oProps.v
FloatRefine.v
AccountMini.v
AccountMiniProps.v
AccountNew.v
AccountNewProps.v
AccountNewTypes.v
Variants.v
Interleaving.v
LockedSchedules.v
FloatBehaviour.v
PyProcess.v
EquityAnalystCrew.v
EquityAnalystMain.v
DeepResearch.v
