(* ===== verification/Prelude.v ===== *)
(** * A verification development of the brokerage [Account] of EddieSandler/ai_agents

    ** The program

    The repository's only code with behaviour of its own is the trading
    account written by its CrewAI "engineering team" example, in three
    generated variants under [src/3_crew/engineering_team/]:
    - [example_output_4o/accounts.py]: [Account] with [deposit],
      [withdraw], [buy_shares], [sell_shares] returning [bool], a
      [_net_deposits] baseline, a [Transaction] dataclass log with balance
      snapshots, an injectable [price_lookup], and copying accessors;
    - [example_output_mini/accounts.py]: the same ledger raising
      [ValueError] on every failed precondition, a case-sensitive price
      table, an [initial_deposit] profit baseline, and two text reports;
    - [example_output_new/accounts.py]: boolean results, an
      [initial_deposit] baseline, a log of dict objects, and a
      [get_transactions] that hands those same objects to the caller.
    A caller (a Gradio UI or an agent) constructs one object and calls its
    methods in sequence; the only external input is the price.  The other
    sources drive third-party frameworks: [equity_analyst/crew.py]
    builds a crewai crew from YAML configuration, [equity_analyst/main.py]
    loads two [.env] files and kicks the crew off, and
    [deep_research/deep_research.py] puts a Gradio page in front of a
    research manager that is not in the sources.  Their own logic (which
    keys they index, in which order they load and raise, what they build)
    is modelled; what the frameworks and the LLM do is a parameter.

    ** The files

    - [Prelude.v] (this file): the [Py] state-and-exception monad (a
      method is a function from the object's state to an outcome,
      [Return v] or [Raise e], and the state reached, a raise keeping the
      assignments made before it), its notations in [py_scope], the hint
      and rewrite databases [py] and [zbool], the tactics [zbool],
      [py_simpl] and [guards], and sums over lists ([zsum]).
    - [PyNum.v]: the [PyNum] class of the float operations the accounts
      use, with the exact instance [pynum_Z] and the IEEE-754 instance
      [pynum_float] (CPython's [float]).
    - [FloatExact.v] ([Module FloatExact]): [pynum_float] is exact on
      integers below [2^53]: the canonical binary64 representation of such
      an integer, rounding of an exactly representable value, and
      [float(a) + float(b) = float(a + b)], likewise [-], [*], [<], [<=]
      and [==], from the [SpecFloat] specification of the primitive floats.
    - [PyDict.v]: CPython's insertion-ordered [dict] as an association
      list ([d[k]], [d.get], [d[k] = v], [del d[k]] raising [KeyError]),
      refined to stdpp's [gmap] by [to_map].
    - [PyStr.v]: ASCII [str.upper], [str(int)], [str.join].
    - [Session.v]: a caller's session, generic in the object: one step
      per method call, reachability from the constructor's states with
      its induction principle, scripts of calls and a counting law.
    - [LedgerSpec.v] ([Module LedgerSpec]): the spec's ledger contract
      over [Z] and [gmap], the abstract specification the variants refine.
    - [Holdings.v]: the holdings updates of [buy_shares]/[sell_shares]
      shared by the variants, and the holdings value as a sum.
    - [Account4o.v] ([Module Account4o]), [AccountMini.v] ([Module
      AccountMini]), [AccountNew.v] ([Module AccountNew]): each variant's
      price table, state ([Record Account]; for [new] a [World] with a
      heap of dict objects and the account whose [transactions] are
      references into it), and every method statement by statement over
      any [PyNum], with the source's names.  A dispatcher [call] gives a
      caller's view.
    - [Account4oProps.v], [AccountMiniProps.v], [AccountNewProps.v]: the
      properties, at exact integers.
    - [FloatRefine.v] ([Module FloatRefine]): the [4o] account at
      [pynum_float] against the account at [pynum_Z], through the image
      [to_float] of an integer state and scripts of mutator calls ([Mut],
      [run_script]).
    - [AccountNewTypes.v]: the schemas of [new]'s logged dicts (the
      keys and value types of a cash and of a trade entry) as a boolean
      check, [obj_typed].
    - [Variants.v] ([Module Variants]): the variants driven by one
      script of commands ([Cmd]): [4o] and [new] simulate each other, and
      so do [mini] and [new] on upper-case symbols, by the generic
      simulation lemma of [Session.v].
    - [Interleaving.v] ([Module Interleaving]): the [4o] mutators split
      at their statement boundaries ([Pc], [stmt]), threads sharing one
      object under a scheduler ([sched_step], [run_sched]).
    - [LockedSchedules.v] ([Module LockedSchedules]): the spec's lock
      ([locked_step]) over that model, with the history of the calls in
      the order they took it ([hstep], [seq_run]).
    - [FloatBehaviour.v] ([Module FloatBehaviour]): what changes at
      Python's floats.
    - [PyProcess.v]: the process the entry points run in ([Proc]:
      [os.environ], the [.env] files, stdout), [pathlib]'s [parents],
      [print], and [load_dotenv] with [override=True].
    - [EquityAnalystCrew.v] ([Module EquityAnalystCrew]): [crew.py]'s
      output schemas, and its [@agent], [@task] and [@crew] methods as
      [Py] computations over the two YAML config dicts.
    - [EquityAnalystMain.v] ([Module EquityAnalystMain]): [main.py]'s
      import ([module_init]) and [run], which composes [crew] with the
      framework's [kickoff].
    - [DeepResearch.v] ([Module DeepResearch]): [deep_research.py]'s
      import, in order, with its two error paths, its page and [run].

    ** The theorems

    - Invariants on every reachable object, by induction over sessions
      ([reachable_ledger_inv], [reachable_mini_inv], [reachable_new_inv]):
      non-negative balance, duplicate-free positive holdings, and balance,
      positions (and for [4o] net deposits and every balance snapshot)
      equal to what the log records; for [new] the log is read through the
      heap.  Every object the [new] log refers to is a well-typed
      transaction dict ([new_log_typed]).
    - Refinement of [LedgerSpec] by each variant's mutators
      ([mutators_refine_spec], [mini_mutators_refine_spec],
      [new_mutators_refine_spec]), and of its profit or loss by the [4o]
      [get_profit_or_loss].
    - Error behaviour: the [4o] and [new] methods never raise and change
      nothing when they return [False]; the [mini] ones raise only
      [ValueError] and only before any assignment.
    - Counting, round trip and neutrality laws of [4o]; the spec's
      scenarios A to E, evaluated.
    - Floats refine integers ([float_4o_script_refines]): from
      [Account(id, float(d))], any script of [4o] mutator calls on
      integral amounts and prices run at doubles returns what the integer
      run returns and reaches its image, while every value it computes
      stays below [2^52]; the integer theorems therefore describe CPython
      on such inputs.
    - Equivalences between variants ([variants_agree],
      [mini_new_agree]): the same answers (a [ValueError] of [mini] for a
      [False] of [new]) and the same balance and holdings after any
      script, and where they part (a lower-case symbol).
    - Concurrency (spec section 5): the statement-level model of each
      [4o] mutator, run alone, is the method and ends within
      [steps_left] statements ([run_alone_method]).  Interleaved without
      a lock, on every object in the window where one call but not two
      can succeed, two buys both succeed and overspend
      ([interleaved_buys_overspend]), two sales of a whole position both
      pass the check and the second raises [KeyError]
      ([interleaved_sells_raise]), and a withdrawal run inside a deposit
      is logged before it with snapshots that disagree with the log
      ([interleaved_deposit_snapshots]); each schedule is symbolic in the
      object, proved by running it one statement at a time.  With the
      spec's lock every idle configuration keeps the ledger invariant
      ([locked_schedules_keep_inv]); the lock also makes every schedule
      serializable and a round-robin scheduler finish within [7 * n]
      rounds, facts of the lock rather than of the code.
    - Entry points: importing [main.py] loads the root [.env] and then
      the project's, so the project file's values win
      ([main_env_project_wins]); [crew()] builds its crew exactly when
      the YAML dicts hold every key it indexes, and raises [KeyError]
      otherwise, and its entity memory shares the short-term memory's
      storage ([crew_outcome]).
    - Departures from the spec, each proved for every object: raw-symbol
      holdings keys in [4o] ([holdings_keyed_by_raw_symbol]) and the
      lower-case symbols [mini] rejects and [new] accepts
      ([mini_new_lowercase_diverge]), deposits counted as profit in
      [mini] (shared by [new]), the aliasing of [new]'s
      [get_transactions] (a caller's item assignment rewrites the
      account's log, [new_get_transactions_aliases]), NaN amounts accepted
      by [4o], and infinite amounts accepted by all three on every finite
      balance ([float_infinite_withdraw_nan]).  Two more are shown on
      one input each ([mini_negative_opening_balance],
      [float4o_round_trip_inexact]): the unclamped negative opening
      balance of [mini] and [new], and the conservation law failing at
      floats.

    ** Numbers, bounds and fuel

    Amounts and prices are Python floats.  The properties are proved at
    [pynum_Z], exact integers: that is CPython's behaviour whenever every
    amount, price and intermediate result is an integral value below
    [2^53] in magnitude, where double arithmetic is exact ([FloatExact.v]
    proves it from the specification axioms of Rocq's primitive floats,
    and [FloatRefine.v] carries it to whole [4o] sessions, with the bound
    [2^52] on balances, amounts, prices and trade totals so that each sum
    or difference of two of them stays below [2^53]).  [float_of_Z]
    (Python's [float(n)]) gives an infinity where CPython raises
    [OverflowError], above [2^1024]; so [price * quantity] with a quantity
    of magnitude [2^1024] or more raises [OverflowError] in CPython (in
    [new]'s [buy_shares] even for a negative quantity, as the product is
    computed before the quantity test) but not in the model, at either
    instance.  [FloatBehaviour.v] evaluates the
    same definitions at [pynum_float] to show what exactness hides.
    Share quantities are Python [int]s, unbounded, as [Z].  Every
    definition is structurally recursive.  The only fuel is that of
    [Interleaving.run_alone], which runs one call by itself: [steps_left]
    bounds the statements a call has left (at most seven, for
    [sell_shares]), every statement decreases it, and any fuel at least
    [steps_left] gives the same, finished, result.  Threads interleave at
    statement granularity: a finer granularity (CPython's bytecodes) only
    adds interleavings, so the races shown remain.  The liveness bound
    [7 * n] rounds for [n] threads comes from [pending_steps], the sum of
    [steps_left] over the threads (at most [7 * n]), which every round
    that is not already finished lowers by at least one.

    ** Not modelled

    - What crewai, Gradio and the LLM do with the objects the scripts
      build: [kickoff]'s result and [ResearchManager]'s stream are
      parameters, and the YAML configuration files, which are not in the
      repository, are dicts of an abstract entry type.  Which order
      crewai's [@crew] wrapper fills [self.agents] in depends on those
      files; the model takes declaration order.
    - [str.upper] beyond ASCII, and the [.2f] float formatting of the
      [mini] reports (a parameter [fmt2] the reports' structure does not
      depend on).
    - Interleavings of [mini] and [new]: their mutators have the same
      check-then-act shape as [4o]'s, so the races are those of [4o].
    - Exactness at floats for [mini] and [new], and for non-integral
      amounts: the [4o] refinement shows the method, and decimal amounts
      such as [10.5] are inexact in binary ([float4o_round_trip_inexact]). *)

From Stdlib Require Import ZArith Lia.
From stdpp Require Import base list strings gmap.

(** ** Python exceptions and the [Py] monad

    A Python method runs on the object's state and either returns a value
    or raises.  A raise does not roll back the attribute updates made
    before it, so an exception carries the state reached at the [raise]. *)

Inductive PyExc :=
| ValueError (msg : string)
| KeyError (key : string)
| IndexError (msg : string)
| RuntimeError (msg : string)
| ImportError (name : string).

Inductive outcome (A : Type) :=
| Return (v : A)
| Raise (e : PyExc).
Arguments Return {A} v.
Arguments Raise {A} e.

Record Py (S A : Type) := MkPy { py_run : S -> outcome A * S }.
Arguments MkPy {S A} _.
Arguments py_run {S A} _ _.

#[export] Instance py_ret {S} : MRet (Py S) :=
  fun A v => MkPy (fun s => (Return v, s)).

#[export] Instance py_bind {S} : MBind (Py S) :=
  fun A B k m => MkPy (fun s =>
    match py_run m s with
    | (Return v, s') => py_run (k v) s'
    | (Raise e, s') => (Raise e, s')
    end).

#[export] Instance py_fmap {S} : FMap (Py S) :=
  fun A B f m => MkPy (fun s =>
    match py_run m s with
    | (Return v, s') => (Return (f v), s')
    | (Raise e, s') => (Raise e, s')
    end).

Definition py_raise {S A} (e : PyExc) : Py S A := MkPy (fun s => (Raise e, s)).
Definition py_get {S} : Py S S := MkPy (fun s => (Return s, s)).
Definition py_put {S} (s : S) : Py S unit := MkPy (fun _ => (Return tt, s)).
Definition py_modify {S} (f : S -> S) : Py S unit := MkPy (fun s => (Return tt, f s)).

(** The value a method returns, or [None] when it raises. *)
Definition returned {A} (o : outcome A) : option A :=
  match o with Return v => Some v | Raise _ => None end.

Declare Scope py_scope.
Delimit Scope py_scope with py.
Notation "'self'" := py_get (only parsing) : py_scope.
Notation "'raise' e" := (py_raise e) (at level 10, only parsing) : py_scope.

(** ** Running the monad *)

Create HintDb py discriminated.
Create Rewrite HintDb py.
Create Rewrite HintDb zbool.

Section PyLaws.
Context {S A B : Type}.

Lemma py_run_ret (v : A) (s : S) : py_run (mret v) s = (Return v, s).
Proof. reflexivity. Qed.

Lemma py_run_bind (m : Py S A) (k : A -> Py S B) (s : S) :
  py_run (m ≫= k) s =
  match py_run m s with
  | (Return v, s') => py_run (k v) s'
  | (Raise e, s') => (Raise e, s')
  end.
Proof. reflexivity. Qed.

Lemma py_run_fmap (f : A -> B) (m : Py S A) (s : S) :
  py_run (f <$> m) s =
  match py_run m s with
  | (Return v, s') => (Return (f v), s')
  | (Raise e, s') => (Raise e, s')
  end.
Proof. reflexivity. Qed.

Lemma py_run_get (s : S) : py_run py_get s = (Return s, s).
Proof. reflexivity. Qed.

Lemma py_run_put (s s' : S) : py_run (py_put s') s = (Return tt, s').
Proof. reflexivity. Qed.

Lemma py_run_modify (f : S -> S) (s : S) : py_run (py_modify f) s = (Return tt, f s).
Proof. reflexivity. Qed.

Lemma py_run_raise (e : PyExc) (s : S) : py_run (py_raise (A:=A) e) s = (Raise e, s).
Proof. reflexivity. Qed.

(** Monad laws, so that method bodies can be regrouped. *)
Lemma py_bind_ret_l (v : A) (k : A -> Py S B) (s : S) :
  py_run (mret v ≫= k) s = py_run (k v) s.
Proof. reflexivity. Qed.

Lemma py_bind_ret_r (m : Py S A) (s : S) : py_run (m ≫= mret) s = py_run m s.
Proof. unfold mbind, py_bind; cbn. destruct (py_run m s) as [[] ?]; reflexivity. Qed.
End PyLaws.

#[export] Hint Rewrite @py_run_ret @py_run_bind @py_run_fmap @py_run_get @py_run_put
  @py_run_modify @py_run_raise : py.

(** [py_simpl] unfolds one step of a method body. *)
Ltac py_simpl := autorewrite with py in *; cbn [fst snd] in *.

(** ** Generic lemmas on booleans, integers and lists shared by the components *)

Lemma Z_ltb_ge_false (x y : Z) : (x <? y)%Z = false <-> (y <= x)%Z.
Proof. exact (Z.ltb_ge x y). Qed.

Lemma Z_leb_gt_false (x y : Z) : (x <=? y)%Z = false <-> (y < x)%Z.
Proof. exact (Z.leb_gt x y). Qed.

Lemma length_app_singleton {A} (l : list A) (x : A) : length (l ++ [x]) = S (length l).
Proof. rewrite length_app. simpl. lia. Qed.

#[export] Hint Rewrite Z.ltb_lt Z.leb_le Z_ltb_ge_false Z_leb_gt_false Z.eqb_eq : zbool.
#[export] Hint Rewrite @length_app_singleton : py.

(** Turn the boolean comparisons on [Z] in the hypotheses into propositions. *)
Ltac zbool := autorewrite with zbool in *.

(** ** Sums of integers over a list *)

Definition zsum {X} (f : X -> Z) (l : list X) : Z := foldr (fun x acc => (f x + acc)%Z) 0%Z l.

Lemma zsum_app {X} (f : X -> Z) l1 l2 : zsum f (l1 ++ l2) = (zsum f l1 + zsum f l2)%Z.
Proof. induction l1 as [|x l1 IH]; simpl; [done|]. unfold zsum in *. simpl. lia. Qed.

Lemma zsum_snoc {X} (f : X -> Z) l x : zsum f (l ++ [x]) = (zsum f l + f x)%Z.
Proof. rewrite zsum_app. unfold zsum. simpl. lia. Qed.

Lemma zsum_ext {X} (f g : X -> Z) l : (forall x, x ∈ l -> f x = g x) -> zsum f l = zsum g l.
Proof.
  induction l as [|x l IH]; intros Hfg; [done|]. unfold zsum in *. simpl.
  rewrite (Hfg x), IH by set_solver. done.
Qed.

#[export] Hint Rewrite @zsum_snoc : py.

(** Split on every [decide] and boolean [if] of the goal (a method's
    guards and a specification's preconditions), turn the comparisons into
    propositions and close the contradictory cases. *)
Ltac guards :=
  repeat match goal with
  | |- context [decide ?P] => destruct (decide P)
  | |- context [if ?b then _ else _] =>
      lazymatch type of b with bool => destruct b eqn:? end
  end; zbool;
  repeat match goal with H : (_ || _) = false |- _ => apply orb_false_iff in H as [? ?] end;
  zbool; try lia.
