(* ===== verification/PyNum.v ===== *)
(** * Python numbers: the [float] arithmetic the accounts use

    The three [accounts.py] files keep cash amounts and prices in Python
    [float]s and share quantities in Python [int]s.  The operations they
    use on floats are few: [+], [-], [*] by a float or an int, the
    comparisons [<], [<=], [==], the literals [0.0], [150.0], ... and
    [float(x)].  [PyNum] is that interface.  Two instances implement it:

    - [pynum_Z]: exact integer arithmetic (amounts in a smallest unit),
      under which the accounting laws hold exactly; the theorems of the
      account files are proved at this instance;
    - [pynum_float]: the kernel's primitive IEEE-754 binary64 numbers,
      which are Python's [float] on CPython, used to evaluate the same
      method definitions on concrete inputs where rounding and NaN matter
      (file [FloatBehaviour.v]).

    Quantities stay [Z], as Python [int]s are unbounded. *)

From Stdlib Require Import ZArith Lia Floats.
From S2P Require Import Prelude.

Class PyNum (A : Type) := {
  py_zero : A;
  py_add : A -> A -> A;
  py_sub : A -> A -> A;
  py_mul : A -> A -> A;
  (** [float(n)] for an [int] [n], also the implicit conversion of
      [price * quantity] *)
  py_of_int : Z -> A;
  py_lt : A -> A -> bool;
  py_le : A -> A -> bool;
  py_eq : A -> A -> bool;
}.

Declare Scope pynum_scope.
Delimit Scope pynum_scope with pynum.
Infix "⊕" := py_add (at level 50, left associativity) : pynum_scope.
Infix "⊖" := py_sub (at level 50, left associativity) : pynum_scope.
Infix "⊗" := py_mul (at level 40, left associativity) : pynum_scope.
Infix "<ₚ" := py_lt (at level 70, no associativity) : pynum_scope.
Infix "≤ₚ" := py_le (at level 70, no associativity) : pynum_scope.
Infix "=ₚ" := py_eq (at level 70, no associativity) : pynum_scope.

(** [max(0.0, x)]: CPython's [max] keeps its first argument unless a later
    one compares greater, so a NaN argument yields [0.0]. *)
Definition py_max0 {A} `{PyNum A} (x : A) : A :=
  if py_lt py_zero x then x else py_zero.

(** Truth value of a number, as in [if self.balance:]. *)
Definition py_truthy {A} `{PyNum A} (x : A) : bool := negb (py_eq x py_zero).

(** ** Exact arithmetic *)

#[export] Instance pynum_Z : PyNum Z := {
  py_zero := 0%Z;
  py_add := Z.add;
  py_sub := Z.sub;
  py_mul := Z.mul;
  py_of_int := fun n => n;
  py_lt := Z.ltb;
  py_le := Z.leb;
  py_eq := Z.eqb;
}.

Create Rewrite HintDb pynum.

Section ZInstance.
Lemma pyZ_zero : @py_zero Z _ = 0%Z. Proof. reflexivity. Qed.
Lemma pyZ_add (x y : Z) : py_add x y = (x + y)%Z. Proof. reflexivity. Qed.
Lemma pyZ_sub (x y : Z) : py_sub x y = (x - y)%Z. Proof. reflexivity. Qed.
Lemma pyZ_mul (x y : Z) : py_mul x y = (x * y)%Z. Proof. reflexivity. Qed.
Lemma pyZ_of_int (n : Z) : @py_of_int Z _ n = n. Proof. reflexivity. Qed.
Lemma pyZ_lt (x y : Z) : py_lt x y = (x <? y)%Z. Proof. reflexivity. Qed.
Lemma pyZ_le (x y : Z) : py_le x y = (x <=? y)%Z. Proof. reflexivity. Qed.
Lemma pyZ_eq (x y : Z) : py_eq x y = (x =? y)%Z. Proof. reflexivity. Qed.

Lemma py_max0_Z (x : Z) : py_max0 x = Z.max 0 x.
Proof. unfold py_max0. cbn. destruct (Z.ltb_spec 0 x); lia. Qed.

Lemma py_max0_Z_nonneg (x : Z) : (0 <= py_max0 x)%Z.
Proof. rewrite py_max0_Z. lia. Qed.
End ZInstance.

#[export] Hint Rewrite pyZ_zero pyZ_add pyZ_sub pyZ_mul pyZ_of_int pyZ_lt pyZ_le pyZ_eq
  py_max0_Z : pynum.

(** Rewrite the [PyNum] operations at [Z] into [Z]'s own and the boolean
    comparisons into propositions. *)
Ltac pynumZ := autorewrite with pynum in *; zbool.

(** ** IEEE-754 binary64: Python's [float] *)

(** [float(n)]: the integer rounded to the nearest double, ties to even
    (CPython's [PyLong_AsDouble]).  Where CPython raises [OverflowError]
    ([|n| >= 2^1024] after rounding) this gives an infinity. *)
Definition float_of_Z (n : Z) : float :=
  SF2Prim (SpecFloat.binary_normalize prec emax n 0 false).

#[export] Instance pynum_float : PyNum float := {
  py_zero := PrimFloat.zero;
  py_add := PrimFloat.add;
  py_sub := PrimFloat.sub;
  py_mul := PrimFloat.mul;
  py_of_int := float_of_Z;
  py_lt := PrimFloat.ltb;
  py_le := PrimFloat.leb;
  py_eq := PrimFloat.eqb;
}.
