(* ===== verification/FloatExact.v ===== *)
(** * Python's floats are exact on integral values below [2^53]

    The properties of the accounts are proved at [pynum_Z], exact
    integers.  This file shows that the IEEE-754 instance [pynum_float]
    (CPython's [float]) computes the same thing on integral values: for
    integers whose magnitudes, and those of the results, are below
    [2^53], [float(a) + float(b) = float(a + b)], likewise for [-] and
    [*], and [<], [<=] and [==] compare as the integers do.

    The proof is by integer reasoning on [SpecFloat], the specification
    of Rocq's primitive floats: such a value has one finite
    representation, mantissa [q * 2^(53 - d)] and exponent [d - 53] for
    [d] the binary digits of [q]; every rounding of an exactly
    representable value returns it.  The primitive operations are related
    to [SpecFloat] by the specification axioms of [Corelib.Floats]. *)

From Stdlib Require Import ZArith Lia Floats.
From stdpp Require Import base tactics.
From S2P Require Import Prelude PyNum.

Module FloatExact.
Open Scope Z_scope.

(** ** Binary digits *)

Definition dig (p : positive) : Z := Zpos (digits2_pos p).

Lemma digits2_pos_size p : digits2_pos p = Pos.size p.
Proof. induction p; cbn; congruence. Qed.

Lemma dig_log2 p : dig p = Z.log2 (Zpos p) + 1.
Proof. unfold dig. rewrite digits2_pos_size. destruct p; cbn [Pos.size Z.log2]; lia. Qed.

Lemma dig_bounds p : 2 ^ (dig p - 1) <= Zpos p < 2 ^ dig p.
Proof.
  rewrite dig_log2. replace (Z.log2 (Zpos p) + 1 - 1) with (Z.log2 (Zpos p)) by lia.
  rewrite Z.add_1_r. apply Z.log2_spec. lia.
Qed.

Lemma dig_unique p d : 2 ^ (d - 1) <= Zpos p < 2 ^ d -> dig p = d.
Proof.
  intros [Hl Hh]. assert (1 <= d).
  { destruct (Z.le_gt_cases 1 d) as [|Hd]; [done|].
    destruct (Z.eq_dec d 0) as [->|]; [cbn in Hh; lia|].
    rewrite Z.pow_neg_r in Hh by lia. lia. }
  rewrite dig_log2. rewrite (Z.log2_unique (Zpos p) (d - 1)); [lia|lia|].
  split; [done|]. by replace (Z.succ (d - 1)) with d by lia.
Qed.

Lemma dig_pos p : 1 <= dig p.
Proof. unfold dig. lia. Qed.

(** Shifting left adds digits. *)
Lemma dig_shift p q k : 0 <= k -> Zpos q = Zpos p * 2 ^ k -> dig q = dig p + k.
Proof.
  intros Hk Hq. apply dig_unique. rewrite Hq.
  pose proof (dig_bounds p) as [Hl Hh]. pose proof (dig_pos p).
  replace (dig p + k - 1) with ((dig p - 1) + k) by lia.
  rewrite !Z.pow_add_r by lia. pose proof (Z.pow_pos_nonneg 2 k). nia.
Qed.

Lemma pos_iter_xO m d : Zpos (Pos.iter xO m d) = Zpos m * 2 ^ Zpos d.
Proof.
  induction d as [|d IH] using Pos.peano_ind; [cbn; lia|].
  rewrite Pos.iter_succ, Pos2Z.inj_succ, Z.pow_succ_r by lia.
  change (Zpos (xO (Pos.iter xO m d))) with (2 * Zpos (Pos.iter xO m d)). rewrite IH. lia.
Qed.

(** ** Exact right shifts *)

Lemma iter_pos_nat {A} (f : A -> A) p x : iter_pos f p x = Nat.iter (Pos.to_nat p) f x.
Proof.
  revert x. induction p as [p IH|p IH|]; intros x; cbn [iter_pos].
  - rewrite IH, IH, Pos2Nat.inj_xI, <- Nat.iter_add, Nat.iter_succ_r. f_equal. lia.
  - rewrite IH, IH, Pos2Nat.inj_xO, <- Nat.iter_add. f_equal. lia.
  - reflexivity.
Qed.

Lemma shr_1_double q : shr_1 (Build_shr_record (2 * Zpos q) false false) = Build_shr_record (Zpos q) false false.
Proof. reflexivity. Qed.

Lemma iter_shr_1 n r j :
  0 <= j ->
  Nat.iter n shr_1 (Build_shr_record (Zpos r * 2 ^ (j + Z.of_nat n)) false false) =
  Build_shr_record (Zpos r * 2 ^ j) false false.
Proof.
  revert j. induction n as [|n IH]; intros j Hj.
  - cbn. by rewrite Z.add_0_r.
  - rewrite Nat.iter_succ. replace (j + Z.of_nat (S n)) with ((j + 1) + Z.of_nat n) by lia.
    rewrite IH by lia.
    assert (Hq : 0 < Zpos r * 2 ^ j) by (pose proof (Z.pow_pos_nonneg 2 j); lia).
    destruct (Zpos r * 2 ^ j) as [|q|q] eqn:E; try lia.
    replace (Zpos r * 2 ^ (j + 1)) with (2 * Zpos q) by (rewrite Z.pow_add_r by lia; lia).
    apply shr_1_double.
Qed.

(** ** Exact rounding *)

Definition canon_m (q : positive) : positive := Z.to_pos (Zpos q * 2 ^ (53 - dig q)).

Lemma canon_m_spec q : dig q <= 53 -> Zpos (canon_m q) = Zpos q * 2 ^ (53 - dig q).
Proof.
  intros Hq. unfold canon_m. rewrite Z2Pos.id; [done|].
  pose proof (Z.pow_pos_nonneg 2 (53 - dig q)). lia.
Qed.

Lemma canon_m_dig q : dig q <= 53 -> dig (canon_m q) = 53.
Proof. intros Hq. rewrite (dig_shift q (canon_m q) (53 - dig q)); [lia|lia|by apply canon_m_spec]. Qed.

Lemma fexp_canon E : -1021 <= E -> fexp prec emax (53 + E) = E.
Proof. intros HE. unfold fexp, emin, prec, emax. lia. Qed.

Lemma shr_exact r m e k :
  0 <= k -> Zpos r * 2 ^ k = Zpos m ->
  shr (Build_shr_record (Zpos m) false false) e k = (Build_shr_record (Zpos r) false false, e + k).
Proof.
  intros Hk Em. destruct k as [|kp|kp]; try lia.
  - rewrite Z.mul_1_r in Em. injection Em as ->. cbn. by rewrite Z.add_0_r.
  - cbn [shr]. rewrite iter_pos_nat.
    pose proof (iter_shr_1 (Pos.to_nat kp) r 0 ltac:(lia)) as H.
    rewrite positive_nat_Z, Z.add_0_l, Em, Z.pow_0_r, Z.mul_1_r in H. by rewrite H.
Qed.

Lemma round_aux_shift s r k E :
  dig r = 53 -> 0 <= k -> -1021 <= E <= 971 ->
  binary_round_aux prec emax s (Zpos r * 2 ^ k) (E - k) loc_Exact = S754_finite s r E.
Proof.
  intros Hr Hk HE. unfold binary_round_aux.
  assert (Hpos : 0 < Zpos r * 2 ^ k) by (pose proof (Z.pow_pos_nonneg 2 k); lia).
  destruct (Zpos r * 2 ^ k) as [|m|m] eqn:Em; try lia.
  assert (Hm : dig m = 53 + k) by (rewrite (dig_shift r m k); lia).
  unfold shr_fexp. cbn [Zdigits2 shr_record_of_loc]. fold (dig m). rewrite Hm.
  replace (53 + k + (E - k)) with (53 + E) by lia. rewrite fexp_canon by lia.
  replace (E - (E - k)) with k by lia.
  rewrite (shr_exact r m) by done. cbn [loc_of_shr_record round_nearest_even shr_m Zdigits2].
  fold (dig r). rewrite Hr. replace (E - k + k) with E by lia.
  rewrite fexp_canon, Z.sub_diag by lia. cbn [shr shr_m].
  replace (E <=? emax - prec) with true; [done|]. symmetry. apply Z.leb_le. unfold emax, prec. lia.
Qed.

Lemma canon_aux s q k E :
  dig q <= 53 -> 0 <= k -> E = dig q - 53 ->
  binary_round_aux prec emax s (Zpos (canon_m q) * 2 ^ k) (E - k) loc_Exact =
  S754_finite s (canon_m q) (dig q - 53).
Proof.
  intros Hq Hk ->. pose proof (dig_pos q). apply round_aux_shift; [by apply canon_m_dig|lia|lia].
Qed.

(** Rounding the exact representation [m * 2^e] of an integer [q] of at
    most 53 digits gives its canonical representation. *)
Lemma round_exact s m e q :
  e <= 0 -> Zpos m = Zpos q * 2 ^ (- e) -> dig q <= 53 ->
  binary_round prec emax s m e = S754_finite s (canon_m q) (dig q - 53).
Proof.
  intros He Hm Hq. pose proof (dig_pos q) as Hq1.
  assert (Hdm : dig m = dig q - e) by (rewrite (dig_shift q m (- e)); lia).
  pose proof (canon_m_spec q Hq) as Hc.
  unfold binary_round. fold (dig m). rewrite Hdm.
  replace (dig q - e + e) with (53 + (dig q - 53)) by lia. rewrite fexp_canon by lia.
  unfold shl_align. destruct (dig q - 53 - e) as [|d|d] eqn:Ed.
  - replace (Zpos m) with (Zpos (canon_m q) * 2 ^ 0)
      by (rewrite Hm, Hc, <- Z.mul_assoc, <- Z.pow_add_r by lia; f_equal; f_equal; lia).
    replace e with (dig q - 53 - 0) by lia. by apply canon_aux.
  - replace (Zpos m) with (Zpos (canon_m q) * 2 ^ (Zpos d))
      by (rewrite Hm, Hc, <- Z.mul_assoc, <- Z.pow_add_r by lia; f_equal; f_equal; lia).
    replace e with (dig q - 53 - Zpos d) by lia. by apply canon_aux.
  - replace (Zpos (Pos.iter xO m d)) with (Zpos (canon_m q) * 2 ^ 0).
    + pose proof (canon_aux s q 0 (dig q - 53) Hq ltac:(lia) eq_refl) as H.
      by rewrite Z.sub_0_r in H.
    + rewrite pos_iter_xO, Hm, Hc, <- !Z.mul_assoc, <- !Z.pow_add_r by lia. f_equal. f_equal. lia.
Qed.

(** ** Integers below [2^53] *)

Definition small (n : Z) : Prop := Z.abs n < 2 ^ 53.

(** [float(n)] as a [SpecFloat]. *)
Definition bn (n : Z) : spec_float := binary_normalize prec emax n 0 false.

Lemma small_dig q : small (Zpos q) -> dig q <= 53.
Proof.
  unfold small. intros Hq. pose proof (dig_bounds q) as [Hl _]. pose proof (dig_pos q).
  destruct (Z.le_gt_cases (dig q) 53) as [|Hd]; [done|].
  assert (2 ^ 53 <= 2 ^ (dig q - 1)) by (apply Z.pow_le_mono_r; lia). lia.
Qed.

Lemma small_abs n : small n -> small (Z.abs n).
Proof. unfold small. intros H. lia. Qed.

(** The canonical representation of a non-zero integer. *)
Lemma bn_finite n :
  n <> 0 -> small n ->
  bn n = S754_finite (n <? 0) (canon_m (Z.to_pos (Z.abs n))) (dig (Z.to_pos (Z.abs n)) - 53).
Proof.
  intros Hn Hs. unfold bn, binary_normalize.
  destruct n as [|p|p]; [done| |]; cbn [Z.abs Z.to_pos Z.ltb Z.compare];
    apply round_exact; [lia|cbn; lia|apply small_dig, Hs|lia|cbn; lia|apply small_dig, Hs].
Qed.

(** Renormalising an exact multiple gives the same float. *)
Lemma normalize_exact z e :
  e <= 0 -> small z -> binary_normalize prec emax (z * 2 ^ (- e)) e false = bn z.
Proof.
  intros He Hs. unfold bn, binary_normalize.
  assert (Hp : 0 < 2 ^ (- e)) by (apply Z.pow_pos_nonneg; lia).
  destruct z as [|p|p]; [done| |].
  - destruct (Zpos p * 2 ^ (- e)) as [|m|m] eqn:Em; try nia.
    rewrite (round_exact false m e p), (round_exact false p 0 p); try done; try lia;
      try apply small_dig, Hs; cbn; lia.
  - destruct (Zneg p * 2 ^ (- e)) as [|m|m] eqn:Em; try nia.
    rewrite (round_exact true m e p), (round_exact true p 0 p); try done; try lia;
      try apply small_dig, Hs; cbn; lia.
Qed.

Lemma bn_zero : bn 0 = S754_zero false.
Proof. reflexivity. Qed.

Lemma canon_value n :
  n <> 0 -> small n ->
  cond_Zopp (n <? 0) (Zpos (canon_m (Z.to_pos (Z.abs n)))) =
  n * 2 ^ (- (dig (Z.to_pos (Z.abs n)) - 53)).
Proof.
  intros Hn Hs. assert (Hd : dig (Z.to_pos (Z.abs n)) <= 53).
  { apply small_dig. rewrite Z2Pos.id by lia. by apply small_abs. }
  rewrite canon_m_spec, Z2Pos.id by lia.
  replace (- (dig (Z.to_pos (Z.abs n)) - 53)) with (53 - dig (Z.to_pos (Z.abs n))) by lia.
  destruct (Z.ltb_spec n 0); cbn [cond_Zopp]; lia.
Qed.

Lemma canon_exp_le n : n <> 0 -> small n -> dig (Z.to_pos (Z.abs n)) - 53 <= 0.
Proof.
  intros Hn Hs. enough (dig (Z.to_pos (Z.abs n)) <= 53) by lia.
  apply small_dig. rewrite Z2Pos.id by lia. by apply small_abs.
Qed.

Lemma shl_align_value mx ex ez :
  ez <= ex -> Zpos (fst (shl_align mx ex ez)) = Zpos mx * 2 ^ (ex - ez).
Proof.
  intros He. unfold shl_align. destruct (ez - ex) as [|d|d] eqn:Ed; cbn [fst].
  - replace (ex - ez) with 0 by lia. lia.
  - lia.
  - rewrite pos_iter_xO. do 2 f_equal. lia.
Qed.

Lemma cond_Zopp_mul s x k : cond_Zopp s (x * k) = cond_Zopp s x * k.
Proof. destruct s; cbn; lia. Qed.

(** The sum of two canonical representations, aligned. *)
Lemma aligned_sum (f : Z -> Z -> Z) a b ea eb :
  (forall x y k, f (x * k) (y * k) = f x y * k) ->
  ea <= 0 -> eb <= 0 ->
  f (a * 2 ^ (- ea) * 2 ^ (ea - Z.min ea eb)) (b * 2 ^ (- eb) * 2 ^ (eb - Z.min ea eb)) =
  f a b * 2 ^ (- Z.min ea eb).
Proof.
  intros Hf Ha Hb. rewrite <- !Z.mul_assoc, <- !Z.pow_add_r by lia.
  replace (- ea + (ea - Z.min ea eb)) with (- Z.min ea eb) by lia.
  replace (- eb + (eb - Z.min ea eb)) with (- Z.min ea eb) by lia. apply Hf.
Qed.

Ltac canon_facts x :=
  let H1 := fresh in let H2 := fresh in
  pose proof (canon_value x ltac:(assumption) ltac:(assumption)) as H1;
  pose proof (canon_exp_le x ltac:(assumption) ltac:(assumption)) as H2.

Lemma SFadd_exact a b :
  small a -> small b -> small (a + b) -> SFadd prec emax (bn a) (bn b) = bn (a + b).
Proof.
  intros Ha Hb Hab.
  destruct (Z.eq_dec a 0) as [->|Ha0]; destruct (Z.eq_dec b 0) as [->|Hb0];
    [reflexivity| rewrite bn_zero, (bn_finite b), Z.add_0_l, (bn_finite b) by done; reflexivity
    | rewrite bn_zero, (bn_finite a), Z.add_0_r, (bn_finite a) by done; reflexivity |].
  rewrite (bn_finite a), (bn_finite b) by done. unfold SFadd. cbv beta iota zeta.
  canon_facts a. canon_facts b.
  rewrite !shl_align_value by lia. rewrite !cond_Zopp_mul.
  match goal with H : cond_Zopp (a <? 0) _ = _ |- _ => rewrite H end.
  match goal with H : cond_Zopp (b <? 0) _ = _ |- _ => rewrite H end.
  rewrite (aligned_sum Z.add) by (intros; lia || ring).
  apply normalize_exact; [lia|done].
Qed.

Lemma SFsub_exact a b :
  small a -> small b -> small (a - b) -> SFsub prec emax (bn a) (bn b) = bn (a - b).
Proof.
  intros Ha Hb Hab.
  destruct (Z.eq_dec a 0) as [->|Ha0]; destruct (Z.eq_dec b 0) as [->|Hb0];
    [reflexivity| |rewrite bn_zero, (bn_finite a), Z.sub_0_r, (bn_finite a) by done; reflexivity|].
  - rewrite bn_zero, (bn_finite b), (bn_finite (0 - b)) by (done || lia || (unfold small in *; lia)).
    cbn [SFsub]. replace (0 - b) with (- b) by lia. rewrite Z.abs_opp. f_equal.
    destruct (Z.ltb_spec b 0), (Z.ltb_spec (- b) 0); cbn; lia.
  - rewrite (bn_finite a), (bn_finite b) by done. unfold SFsub. cbv beta iota zeta.
    canon_facts a. canon_facts b.
    rewrite !shl_align_value by lia. rewrite !cond_Zopp_mul.
    match goal with H : cond_Zopp (a <? 0) _ = _ |- _ => rewrite H end.
    match goal with H : cond_Zopp (b <? 0) _ = _ |- _ => rewrite H end.
    rewrite (aligned_sum Z.sub) by (intros; lia || ring).
    apply normalize_exact; [lia|done].
Qed.

(** A product has at least [dig p + dig q - 1] digits. *)
Lemma dig_mul p q : dig p + dig q - 1 <= dig (p * q).
Proof.
  pose proof (dig_bounds p) as [Hp _]. pose proof (dig_bounds q) as [Hq _].
  pose proof (dig_bounds (p * q)) as [_ Hpq]. pose proof (dig_pos p). pose proof (dig_pos q).
  destruct (Z.le_gt_cases (dig p + dig q - 1) (dig (p * q))) as [|Hlt]; [done|].
  assert (2 ^ dig (p * q) <= 2 ^ (dig p - 1) * 2 ^ (dig q - 1)).
  { rewrite <- Z.pow_add_r by lia. apply Z.pow_le_mono_r; lia. }
  rewrite Pos2Z.inj_mul in Hpq. nia.
Qed.

Lemma sign_mul a b : a <> 0 -> b <> 0 -> xorb (a <? 0) (b <? 0) = (a * b <? 0).
Proof.
  intros Ha Hb. destruct (Z.ltb_spec a 0), (Z.ltb_spec b 0), (Z.ltb_spec (a * b) 0); cbn;
    try reflexivity; nia.
Qed.

Lemma SFmul_exact a b :
  small a -> small b -> small (a * b) -> (0 <= a /\ 0 <= b) \/ a * b <> 0 ->
  SFmul prec emax (bn a) (bn b) = bn (a * b).
Proof.
  intros Ha Hb Hab Hz.
  destruct (Z.eq_dec a 0) as [->|Ha0].
  { destruct (Z.eq_dec b 0) as [->|Hb0]; [reflexivity|].
    rewrite bn_zero, (bn_finite b) by done. cbn [SFmul xorb]. destruct (Z.ltb_spec b 0); [lia|done]. }
  destruct (Z.eq_dec b 0) as [->|Hb0].
  { rewrite bn_zero, (bn_finite a) by done. cbn [SFmul]. rewrite Z.mul_0_r.
    destruct (Z.ltb_spec a 0); [lia|done]. }
  assert (Hab0 : a * b <> 0) by (apply Z.neq_mul_0; done).
  rewrite (bn_finite a), (bn_finite b), (bn_finite (a * b)) by done. unfold SFmul.
  rewrite sign_mul by done.
  set (pa := Z.to_pos (Z.abs a)). set (pb := Z.to_pos (Z.abs b)). set (pq := Z.to_pos (Z.abs (a * b))).
  assert (Epa : Zpos pa = Z.abs a) by (apply Z2Pos.id; lia).
  assert (Epb : Zpos pb = Z.abs b) by (apply Z2Pos.id; lia).
  assert (Epq : Zpos pq = Z.abs a * Z.abs b) by (rewrite <- Z.abs_mul; apply Z2Pos.id; lia).
  assert (Da : dig pa <= 53) by (apply small_dig; rewrite Epa; by apply small_abs).
  assert (Db : dig pb <= 53) by (apply small_dig; rewrite Epb; by apply small_abs).
  assert (Dq : dig pq <= 53) by (apply small_dig; rewrite Epq, <- Z.abs_mul; by apply small_abs).
  assert (Dm : dig pa + dig pb - 1 <= dig pq).
  { replace pq with (pa * pb)%positive; [apply dig_mul|]. apply Pos2Z.inj. rewrite Pos2Z.inj_mul. lia. }
  set (k := 53 + dig pq - dig pa - dig pb).
  replace (Zpos (canon_m pa * canon_m pb)) with (Zpos (canon_m pq) * 2 ^ k).
  - replace (dig pa - 53 + (dig pb - 53)) with (dig pq - 53 - k) by lia.
    apply canon_aux; [done|lia|done].
  - rewrite Pos2Z.inj_mul, !canon_m_spec, Epa, Epb, Epq by done.
    assert (Hk : 2 ^ (53 - dig pq) * 2 ^ k = 2 ^ (53 - dig pa) * 2 ^ (53 - dig pb)).
    { rewrite <- !Z.pow_add_r by lia. f_equal. lia. }
    transitivity (Z.abs a * Z.abs b * (2 ^ (53 - dig pq) * 2 ^ k)); [ring|]. rewrite Hk. ring.
Qed.

(** ** Comparisons *)

Lemma bn_pos p : small (Zpos p) -> bn (Zpos p) = S754_finite false (canon_m p) (dig p - 53).
Proof. intros H. by rewrite bn_finite by done. Qed.

Lemma bn_neg p : small (Zneg p) -> bn (Zneg p) = S754_finite true (canon_m p) (dig p - 53).
Proof. intros H. by rewrite bn_finite by done. Qed.

Lemma canon_compare p q :
  dig p <= 53 -> dig q <= 53 ->
  match Z.compare (dig p - 53) (dig q - 53) with
  | Lt => Lt | Gt => Gt | Eq => Pos.compare_cont Eq (canon_m p) (canon_m q)
  end = Pos.compare p q.
Proof.
  intros Hp Hq. pose proof (dig_bounds p). pose proof (dig_bounds q).
  destruct (Z.compare_spec (dig p - 53) (dig q - 53)) as [E|E|E].
  - change (Pos.compare_cont Eq (canon_m p) (canon_m q)) with (Pos.compare (canon_m p) (canon_m q)).
    rewrite !Pos2Z.inj_compare, !canon_m_spec by done.
    replace (dig q) with (dig p) by lia.
    pose proof (Z.pow_pos_nonneg 2 (53 - dig p) ltac:(lia) ltac:(lia)).
    destruct (Z.compare_spec (Zpos p) (Zpos q));
      [apply Z.compare_eq_iff | apply Z.compare_lt_iff | apply Z.compare_gt_iff]; nia.
  - symmetry. apply Pos.compare_lt_iff.
    assert (2 ^ dig p <= 2 ^ (dig q - 1)) by (apply Z.pow_le_mono_r; lia). lia.
  - symmetry. apply Pos.compare_gt_iff.
    assert (2 ^ dig q <= 2 ^ (dig p - 1)) by (apply Z.pow_le_mono_r; lia). lia.
Qed.

Lemma compare_opp_match (c d : comparison) :
  match c with Lt => Gt | Gt => Lt | Eq => CompOpp d end =
  CompOpp (match c with Lt => Lt | Gt => Gt | Eq => d end).
Proof. by destruct c. Qed.

Lemma SFcompare_exact a b :
  small a -> small b -> SFcompare (bn a) (bn b) = Some (Z.compare a b).
Proof.
  intros Ha Hb.
  destruct a as [|p|p], b as [|q|q];
    rewrite ?bn_zero, ?bn_pos, ?bn_neg by done; try reflexivity; cbn [SFcompare];
    f_equal; rewrite ?compare_opp_match, canon_compare by (apply small_dig; unfold small in *; cbn in *; lia);
    reflexivity.
Qed.

(** ** Canonical representations are valid *)

Lemma valid_bn n : small n -> valid_binary (bn n) = true.
Proof.
  intros Hs. destruct (Z.eq_dec n 0) as [->|Hn]; [reflexivity|].
  rewrite bn_finite by done. pose proof (canon_exp_le n Hn Hs).
  pose proof (dig_pos (Z.to_pos (Z.abs n))).
  unfold SpecFloat.valid_binary, bounded, canonical_mantissa.
  change (Zpos (digits2_pos ?m)) with (dig m).
  rewrite canon_m_dig by lia. rewrite fexp_canon by lia.
  rewrite Z.eqb_refl. cbn [andb]. apply Z.leb_le. unfold emax, prec. lia.
Qed.

Lemma Prim2SF_float_of_Z n : small n -> Prim2SF (float_of_Z n) = bn n.
Proof. intros Hs. apply Prim2SF_SF2Prim, valid_bn, Hs. Qed.

(** ** [pynum_float] on small integers *)

Lemma float_zero : @py_zero float _ = float_of_Z 0.
Proof. reflexivity. Qed.

Lemma float_of_int n : @py_of_int float _ n = float_of_Z n.
Proof. reflexivity. Qed.

Ltac to_spec :=
  cbn [py_add py_sub py_mul py_lt py_le py_eq pynum_float];
  rewrite ?FloatAxioms.ltb_spec, ?FloatAxioms.leb_spec, ?FloatAxioms.eqb_spec,
    ?Prim2SF_float_of_Z by done.

Lemma float_add a b :
  small a -> small b -> small (a + b) ->
  py_add (float_of_Z a) (float_of_Z b) = float_of_Z (a + b).
Proof.
  intros Ha Hb Hab. cbn [py_add pynum_float].
  rewrite <- (SF2Prim_Prim2SF (float_of_Z a + float_of_Z b)%float), FloatAxioms.add_spec.
  to_spec. unfold SF64add. by rewrite SFadd_exact.
Qed.

Lemma float_sub a b :
  small a -> small b -> small (a - b) ->
  py_sub (float_of_Z a) (float_of_Z b) = float_of_Z (a - b).
Proof.
  intros Ha Hb Hab. cbn [py_sub pynum_float].
  rewrite <- (SF2Prim_Prim2SF (float_of_Z a - float_of_Z b)%float), FloatAxioms.sub_spec.
  to_spec. unfold SF64sub. by rewrite SFsub_exact.
Qed.

Lemma float_mul a b :
  small a -> small b -> small (a * b) -> (0 <= a /\ 0 <= b) \/ a * b <> 0 ->
  py_mul (float_of_Z a) (float_of_Z b) = float_of_Z (a * b).
Proof.
  intros Ha Hb Hab Hz. cbn [py_mul pynum_float].
  rewrite <- (SF2Prim_Prim2SF (float_of_Z a * float_of_Z b)%float), FloatAxioms.mul_spec.
  to_spec. unfold SF64mul. by rewrite SFmul_exact.
Qed.

Lemma float_lt a b : small a -> small b -> py_lt (float_of_Z a) (float_of_Z b) = (a <? b).
Proof. intros Ha Hb. to_spec. unfold SFltb. rewrite SFcompare_exact by done. by unfold Z.ltb. Qed.

Lemma float_le a b : small a -> small b -> py_le (float_of_Z a) (float_of_Z b) = (a <=? b).
Proof. intros Ha Hb. to_spec. unfold SFleb. rewrite SFcompare_exact by done. by unfold Z.leb. Qed.

Lemma float_eq a b : small a -> small b -> py_eq (float_of_Z a) (float_of_Z b) = (a =? b).
Proof.
  intros Ha Hb. to_spec. unfold SFeqb. rewrite SFcompare_exact by done.
  rewrite Z.eqb_compare. by destruct (a ?= b).
Qed.

(** [float_of_Z] is injective on small integers. *)
Lemma float_of_Z_inj a b : small a -> small b -> float_of_Z a = float_of_Z b -> a = b.
Proof.
  intros Ha Hb E. apply Z.eqb_eq. rewrite <- float_eq by done. rewrite E.
  rewrite float_eq by done. apply Z.eqb_refl.
Qed.
End FloatExact.
