(* ===== verification/PyDict.v ===== *)
(** * Python [dict]: insertion-ordered maps, refined to [gmap]

    The accounts keep [holdings] (and CPython's price tables) in Python
    dicts.  A CPython dict iterates in insertion order: assigning to a
    present key keeps its position, a new key goes last, [del] removes the
    entry.  Order is visible in the code ([for symbol, qty in
    self.holdings.items()] builds the holdings report and sums the
    portfolio value, and float addition is not associative), so the dict
    is an association list with the operations CPython performs:

    - [dict_lookup d k]  is [d[k]], [None] when CPython raises [KeyError];
    - [dict_get d k x]   is [d.get(k, x)];
    - [dict_setitem]     is [d[k] = v];
    - [dict_delitem]     is [del d[k]], [None] on [KeyError].

    The abstract view is stdpp's [gmap]: [to_map] is the abstraction
    function, and the operations refine [lookup], [insert] and [delete]. *)

From Stdlib Require Import ZArith Lia.
From stdpp Require Import base list strings gmap.
From S2P Require Import Prelude.

Section PyDict.
Context {K V : Type} `{EqDecision K}.

Definition dict := list (K * V).

Fixpoint dict_lookup (d : dict) (k : K) : option V :=
  match d with
  | [] => None
  | (k', v) :: d' => if decide (k = k') then Some v else dict_lookup d' k
  end.

Definition dict_get (d : dict) (k : K) (dflt : V) : V :=
  match dict_lookup d k with Some v => v | None => dflt end.

Fixpoint dict_setitem (d : dict) (k : K) (v : V) : dict :=
  match d with
  | [] => [(k, v)]
  | (k', v') :: d' =>
      if decide (k = k') then (k, v) :: d' else (k', v') :: dict_setitem d' k v
  end.

Fixpoint dict_delitem (d : dict) (k : K) : option dict :=
  match d with
  | [] => None
  | (k', v') :: d' =>
      if decide (k = k') then Some d' else (fun r => (k', v') :: r) <$> dict_delitem d' k
  end.

Definition dict_keys (d : dict) : list K := map fst d.

(** A dict never holds a key twice. *)
Definition dict_wf (d : dict) : Prop := NoDup (dict_keys d).

Lemma dict_wf_nil : dict_wf [].
Proof. constructor. Qed.

(** ** Lookups after updates *)

Lemma dict_lookup_setitem_eq d k v : dict_lookup (dict_setitem d k v) k = Some v.
Proof.
  induction d as [|[k' v'] d IH]; simpl; [by rewrite decide_True|].
  case_decide; simpl; [by rewrite decide_True|]. by rewrite decide_False.
Qed.

Lemma dict_get_setitem_eq d k v x : dict_get (dict_setitem d k v) k x = v.
Proof. unfold dict_get. by rewrite dict_lookup_setitem_eq. Qed.

Lemma dict_lookup_setitem_ne d k k2 v :
  k <> k2 -> dict_lookup (dict_setitem d k v) k2 = dict_lookup d k2.
Proof.
  intros Hne. induction d as [|[k' v'] d IH]; simpl.
  - by rewrite decide_False.
  - case_decide; subst; simpl.
    + rewrite !decide_False; auto.
    + case_decide; auto.
Qed.

Lemma dict_keys_setitem d k v :
  dict_keys (dict_setitem d k v) =
  if decide (k ∈ dict_keys d) then dict_keys d else dict_keys d ++ [k].
Proof.
  induction d as [|[k' v'] d IH]; simpl; [done|].
  unfold dict_keys in *. simpl.
  destruct (decide (k = k')) as [->|Hne]; simpl.
  - rewrite decide_True; [done|]. set_solver.
  - rewrite IH. destruct (decide (k ∈ map fst d)).
    + rewrite decide_True; [done|]. set_solver.
    + rewrite decide_False; [done|]. set_solver.
Qed.

Lemma dict_in_keys_lookup d k : k ∈ dict_keys d <-> is_Some (dict_lookup d k).
Proof.
  induction d as [|[k' v'] d IH]; simpl.
  - split; [intros Hin; by apply elem_of_nil in Hin | by intros []].
  - rewrite elem_of_cons, IH. case_decide; naive_solver.
Qed.

Lemma dict_setitem_wf d k v : dict_wf d -> dict_wf (dict_setitem d k v).
Proof.
  unfold dict_wf. intros Hwf. rewrite dict_keys_setitem.
  case_decide as Hk; [done|].
  apply NoDup_app. split_and!; [done| |apply NoDup_singleton].
  intros x Hx Hx'. apply list_elem_of_singleton in Hx'. subst. done.
Qed.

Lemma dict_delitem_Some d k d' :
  dict_delitem d k = Some d' ->
  exists pre post v, d = pre ++ (k, v) :: post /\ d' = pre ++ post /\
    k ∉ dict_keys pre.
Proof.
  revert d'. induction d as [|[k' v'] d IH]; intros d'; simpl; [done|].
  case_decide; subst.
  - intros [= <-]. exists [], d, v'. split_and!; [done|done|set_solver].
  - destruct (dict_delitem d k) as [r|] eqn:E; [|done]. intros [= <-].
    destruct (IH r eq_refl) as (pre & post & v & -> & -> & Hpre).
    exists ((k', v') :: pre), post, v. split_and!; [done|done|].
    unfold dict_keys in *. simpl. set_solver.
Qed.

Lemma dict_delitem_None d k : dict_delitem d k = None <-> dict_lookup d k = None.
Proof.
  induction d as [|[k' v'] d IH]; simpl; [done|].
  case_decide; [done|]. rewrite <- IH.
  destruct (dict_delitem d k); simpl; done.
Qed.

Lemma dict_delitem_wf d k d' : dict_wf d -> dict_delitem d k = Some d' -> dict_wf d'.
Proof.
  unfold dict_wf, dict_keys. intros Hwf Hdel.
  destruct (dict_delitem_Some _ _ _ Hdel) as (pre & post & v & -> & -> & _).
  rewrite map_app in *. simpl in Hwf.
  apply NoDup_app in Hwf as (Hpre & Hdisj & Hpost). apply NoDup_cons in Hpost as [_ Hpost].
  apply NoDup_app. split_and!; [done| |done].
  intros x Hx Hx'. apply (Hdisj x Hx). set_solver.
Qed.

Lemma dict_lookup_app l1 l2 k :
  dict_lookup (l1 ++ l2) k =
  match dict_lookup l1 k with Some v => Some v | None => dict_lookup l2 k end.
Proof.
  induction l1 as [|[k' v'] l1 IH]; simpl; [done|]. case_decide; auto.
Qed.

Lemma dict_lookup_notin d k : k ∉ dict_keys d -> dict_lookup d k = None.
Proof.
  rewrite dict_in_keys_lookup. destruct (dict_lookup d k); [|done].
  intros []. eauto.
Qed.
(** Removing a key that may be absent (not a dict method; the accounts
    only [del] a key they have just assigned). *)
Definition dict_remove (d : dict) (k : K) : dict :=
  match dict_delitem d k with Some d' => d' | None => d end.

Lemma dict_remove_wf d k : dict_wf d -> dict_wf (dict_remove d k).
Proof.
  intros Hwf. unfold dict_remove. destruct (dict_delitem d k) eqn:E; [|done].
  by eapply dict_delitem_wf.
Qed.

(** ** Assigning twice, assigning the present value, a fresh key *)

Lemma dict_setitem_setitem d k v1 v2 :
  dict_setitem (dict_setitem d k v1) k v2 = dict_setitem d k v2.
Proof.
  induction d as [|[k' v'] d IH]; simpl; [by rewrite decide_True|].
  case_decide; simpl; [by rewrite decide_True|]. rewrite decide_False by done. by rewrite IH.
Qed.

Lemma dict_setitem_id d k v : dict_lookup d k = Some v -> dict_setitem d k v = d.
Proof.
  induction d as [|[k' v'] d IH]; simpl; [done|].
  case_decide; subst; [by intros [= ->]|]. intros Hk. by rewrite IH.
Qed.

(** A new key goes last: CPython's insertion order. *)
Lemma dict_setitem_absent d k v : dict_lookup d k = None -> dict_setitem d k v = d ++ [(k, v)].
Proof.
  induction d as [|[k' v'] d IH]; simpl; [done|].
  case_decide; [done|]. intros Hk. by rewrite IH.
Qed.

Lemma dict_remove_snoc d k v : dict_lookup d k = None -> dict_remove (d ++ [(k, v)]) k = d.
Proof.
  unfold dict_remove. induction d as [|[k' v'] d IH]; simpl.
  - by rewrite decide_True.
  - case_decide; [done|]. intros Hk. specialize (IH Hk).
    destruct (dict_delitem (d ++ [(k, v)]) k); simpl in *; by rewrite IH.
Qed.
End PyDict.

Arguments dict : clear implicits.

(** ** Refinement: a dict is a finite map *)

Section Refinement.
Context {K V : Type} `{Countable K}.

(** The abstraction function. *)
Definition to_map (d : dict K V) : gmap K V := list_to_map d.
#[global] Arguments to_map : simpl never.

Lemma to_map_lookup d k : to_map d !! k = dict_lookup d k.
Proof.
  unfold to_map. induction d as [|[k' v'] d IH]; simpl; [done|].
  destruct (decide (k = k')) as [->|Hne].
  - by rewrite lookup_insert_eq.
  - by rewrite lookup_insert_ne by congruence.
Qed.

Lemma to_map_get d k x : dict_get d k x = default x (to_map d !! k).
Proof. unfold dict_get. by rewrite to_map_lookup. Qed.

(** [d[k] = v] is [insert]. *)
Lemma to_map_setitem d k v : to_map (dict_setitem d k v) = <[k:=v]> (to_map d).
Proof.
  apply map_eq. intros k2. rewrite to_map_lookup.
  destruct (decide (k = k2)) as [<-|Hne].
  - by rewrite dict_lookup_setitem_eq, lookup_insert_eq.
  - by rewrite dict_lookup_setitem_ne, lookup_insert_ne, to_map_lookup.
Qed.

(** [del d[k]] is [delete] on a well-formed dict, and raises exactly
    when the key is absent. *)
Lemma to_map_delitem_None' d k : dict_delitem d k = None -> to_map d !! k = None.
Proof. rewrite to_map_lookup. apply dict_delitem_None. Qed.

Lemma to_map_delitem d k d' :
  dict_wf d -> dict_delitem d k = Some d' -> to_map d' = delete k (to_map d).
Proof.
  intros Hwf Hdel. pose proof (dict_delitem_Some _ _ _ Hdel) as (pre & post & v & -> & -> & Hpre).
  apply map_eq. intros k2. rewrite !to_map_lookup, !dict_lookup_app.
  unfold dict_wf, dict_keys in Hwf. rewrite map_app in Hwf. simpl in Hwf.
  apply NoDup_app in Hwf as (_ & Hdisj & Hpost). apply NoDup_cons in Hpost as [Hk _].
  destruct (decide (k = k2)) as [<-|Hne].
  - rewrite lookup_delete_eq, (dict_lookup_notin pre k Hpre). by apply dict_lookup_notin.
  - rewrite lookup_delete_ne, to_map_lookup, dict_lookup_app by done. simpl.
    by rewrite decide_False by congruence.
Qed.

Lemma to_map_remove d k : dict_wf d -> to_map (dict_remove d k) = delete k (to_map d).
Proof.
  intros Hwf. unfold dict_remove. destruct (dict_delitem d k) as [d'|] eqn:E.
  - by apply to_map_delitem.
  - apply to_map_delitem_None' in E. by rewrite delete_id.
Qed.

Lemma to_map_delitem_None d k : dict_delitem d k = None <-> to_map d !! k = None.
Proof. rewrite to_map_lookup. apply dict_delitem_None. Qed.
End Refinement.

#[export] Hint Resolve dict_wf_nil dict_setitem_wf dict_delitem_wf dict_remove_wf : py.
