(* ===== verification/PyStr.v ===== *)
(** * Python [str.upper] on ASCII strings

    [get_share_price] of [example_output_4o] and [example_output_new]
    looks its symbol up as [symbol.upper()].  Symbols are modelled as
    ASCII strings ([String.string]); on ASCII, CPython's [str.upper] maps
    [a..z] to [A..Z] and leaves every other character alone.  (Unicode
    case mappings of non-ASCII characters, e.g. ['ſ'.upper() == 'S'], are
    outside the model.) *)

From Stdlib Require Import Ascii String Lia ZArith DecimalString.
From stdpp Require Import base strings.
From S2P Require Import Prelude.

Definition ascii_upper (c : ascii) : ascii :=
  let n := nat_of_ascii c in
  if (97 <=? n)%nat && (n <=? 122)%nat then ascii_of_nat (n - 32) else c.

Fixpoint str_upper (s : string) : string :=
  match s with
  | EmptyString => EmptyString
  | String c s' => String (ascii_upper c) (str_upper s')
  end.

(** A character [ascii_upper] leaves alone is not a lower-case letter. *)
Definition is_lower (c : ascii) : bool :=
  let n := nat_of_ascii c in (97 <=? n)%nat && (n <=? 122)%nat.

Lemma ascii_upper_not_lower (c : ascii) : is_lower (ascii_upper c) = false.
Proof.
  unfold ascii_upper, is_lower.
  destruct c as [[] [] [] [] [] [] [] []]; reflexivity.
Qed.

Lemma ascii_upper_idem (c : ascii) : ascii_upper (ascii_upper c) = ascii_upper c.
Proof. destruct c as [[] [] [] [] [] [] [] []]; reflexivity. Qed.

Lemma ascii_upper_fixed (c : ascii) : is_lower c = false -> ascii_upper c = c.
Proof. unfold ascii_upper, is_lower. intros ->. reflexivity. Qed.

Lemma str_upper_idem (s : string) : str_upper (str_upper s) = str_upper s.
Proof. induction s as [|c s IH]; simpl; [done|]. by rewrite ascii_upper_idem, IH. Qed.

Lemma str_upper_length (s : string) : String.length (str_upper s) = String.length s.
Proof. induction s as [|c s IH]; simpl; lia. Qed.

(** ** [str(n)] for an [int], and [sep.join(items)] *)

Definition py_str_int (n : Z) : string := NilZero.string_of_int (Z.to_int n).

Fixpoint py_join (sep : string) (items : list string) : string :=
  match items with
  | [] => ""
  | [x] => x
  | x :: rest => x ++ sep ++ py_join sep rest
  end.

(** An f-string of an integral amount with format [.2f]: the digits of the
    integer followed by [.00]. *)
Definition fmt2_int (n : Z) : string := py_str_int n ++ ".00".
