(* ===== verification/Session.v ===== *)
(** * Sessions: a Python object driven by a sequence of method calls

    Each account class is used by a caller (a Gradio UI, an agent) that
    constructs one object and then calls its methods one after another.
    A session is modelled by a dispatcher [call : C -> Py S R] from a
    command type [C] (the method and its arguments) to the method body.
    A call that raises leaves the object in whatever state it reached and
    usable again, so every call, returning or raising, is a step.

    This file gives the generic theory each account file instantiates:
    reachability from the constructor's states and its induction
    principle, running a script of calls, and a counting law. *)

From Stdlib Require Import Lia.
From stdpp Require Import base list.
From S2P Require Import Prelude.

Section Session.
Context {S C R : Type} (call : C -> Py S R).

(** One method call, whatever its outcome. *)
Definition call_step (s s' : S) : Prop := exists c o, py_run (call c) s = (o, s').

(** The states a caller can observe, starting from the states the
    constructor builds. *)
Inductive reachable (Init : S -> Prop) : S -> Prop :=
| reach_init s : Init s -> reachable Init s
| reach_call s s' : reachable Init s -> call_step s s' -> reachable Init s'.

(** Running a script of calls: the outcome of each call, and the state
    after the last one. *)
Fixpoint run_calls (cs : list C) (s : S) : list (outcome R) * S :=
  match cs with
  | [] => ([], s)
  | c :: cs' =>
      let '(o, s1) := py_run (call c) s in
      let '(os, s2) := run_calls cs' s1 in
      (o :: os, s2)
  end.

(** An invariant established by the constructor and kept by every call
    holds in every reachable state. *)
Lemma reachable_ind_inv (Init P : S -> Prop) :
  (forall s, Init s -> P s) ->
  (forall s s', P s -> call_step s s' -> P s') ->
  forall s, reachable Init s -> P s.
Proof. intros Hinit Hstep s Hr. induction Hr; eauto. Qed.

Lemma run_calls_reachable (Init : S -> Prop) cs s :
  reachable Init s -> reachable Init (run_calls cs s).2.
Proof.
  revert s. induction cs as [|c cs IH]; intros s Hr; simpl; [done|].
  destruct (py_run (call c) s) as [o s1] eqn:E.
  destruct (run_calls cs s1) as [os s2] eqn:E2. simpl.
  specialize (IH s1). rewrite E2 in IH. apply IH.
  eapply reach_call; [done|]. by exists c, o.
Qed.

Lemma run_calls_length cs s : length (run_calls cs s).1 = length cs.
Proof.
  revert s. induction cs as [|c cs IH]; intros s; simpl; [done|].
  destruct (py_run (call c) s) as [o s1].
  specialize (IH s1). destruct (run_calls cs s1) as [os s2]. simpl in *. lia.
Qed.

(** A counting law: when every call moves a measure by one exactly on
    the outcomes [counted] accepts, a script moves it by the number of
    such outcomes. *)
Lemma run_calls_count (measure : S -> nat) (counted : outcome R -> bool) cs s :
  (forall c s o s', py_run (call c) s = (o, s') ->
     measure s' = measure s + (if counted o then 1 else 0)) ->
  measure (run_calls cs s).2 = measure s + length (filter counted (run_calls cs s).1).
Proof.
  intros Hstep. revert s. induction cs as [|c cs IH]; intros s; simpl; [lia|].
  destruct (py_run (call c) s) as [o s1] eqn:E.
  specialize (IH s1). destruct (run_calls cs s1) as [os s2]. simpl in *.
  rewrite IH, (Hstep _ _ _ _ E). rewrite filter_cons.
  destruct (counted o); simpl; lia.
Qed.
End Session.

(** ** Two objects driven by one script

    Two classes that answer the same commands, each through its own
    dispatcher, simulate each other when a relation between their states,
    kept by every command, relates the answers of each call. *)

Section Simulation.
Context {S1 S2 C1 C2 R1 R2 Cmd : Type} (call1 : C1 -> Py S1 R1) (call2 : C2 -> Py S2 R2).
Context (f1 : Cmd -> C1) (f2 : Cmd -> C2) (ok : Cmd -> Prop).
Context (agree : Cmd -> outcome R1 -> outcome R2 -> Prop) (rel : S1 -> S2 -> Prop).
Hypothesis step : forall c s1 s2, ok c -> rel s1 s2 ->
  agree c (py_run (call1 (f1 c)) s1).1 (py_run (call2 (f2 c)) s2).1 /\
  rel (py_run (call1 (f1 c)) s1).2 (py_run (call2 (f2 c)) s2).2.

Lemma run_calls_simulation cs s1 s2 :
  Forall ok cs -> rel s1 s2 ->
  Forall3 agree cs (run_calls call1 (map f1 cs) s1).1 (run_calls call2 (map f2 cs) s2).1 /\
  rel (run_calls call1 (map f1 cs) s1).2 (run_calls call2 (map f2 cs) s2).2.
Proof.
  intros Hok. revert s1 s2. induction Hok as [|c cs Hc Hcs IH]; intros s1 s2 Hr; cbn;
    [split; [constructor|done]|].
  pose proof (step c s1 s2 Hc Hr) as [Hag Hr'].
  destruct (py_run (call1 (f1 c)) s1) as [o1 t1]. destruct (py_run (call2 (f2 c)) s2) as [o2 t2].
  cbn in Hag, Hr'. destruct (IH t1 t2 Hr') as [Hall Hend].
  destruct (run_calls call1 (map f1 cs) t1), (run_calls call2 (map f2 cs) t2). cbn in *.
  split; [by constructor|done].
Qed.
End Simulation.
