(* ===== verification/LedgerSpec.v ===== *)
(** * The ledger contract: an abstract specification

    The spec (spec.md, sections 3 and 4) describes one ledger with a cash
    balance, a net-deposit baseline, holdings as a map from symbol to a
    positive quantity, and an append-only log; four mutating operations
    that either apply completely or report failure; and two derived views,
    portfolio value and profit or loss, read through a price oracle.  This
    file states that contract over exact integers and finite maps, with no
    reference to any of the three implementations.  The implementation
    files prove their methods refine it (or show where they do not).

    Symbols are kept as given: the spec's upper-case normalization is an
    open question in the spec itself, and no variant of the code applies
    it to holdings keys (see the findings of the manifest). *)

From Stdlib Require Import ZArith Lia.
From stdpp Require Import base list strings gmap.
From S2P Require Import Prelude.

Module LedgerSpec.

Local Open Scope Z_scope.

Inductive Kind := KDeposit | KWithdraw | KBuy | KSell.

#[export] Instance Kind_eq_dec : EqDecision Kind.
Proof. solve_decision. Defined.

(** A log entry: kind, cash moved, balance after, and for trades the
    symbol, quantity and price. *)
Record Entry := mkEntry {
  e_kind : Kind;
  e_amount : Z;
  e_balance_after : Z;
  e_trade : option (string * Z * Z);
}.

Record Ledger := mkLedger {
  l_balance : Z;
  l_net : Z;
  l_holdings : gmap string Z;
  l_log : list Entry;
}.

(** The price oracle: [0] or less means no price. *)
Definition Oracle := string -> Z.

Definition logged (l : Ledger) (b n : Z) (h : gmap string Z) (e : Entry) : Ledger :=
  mkLedger b n h (l_log l ++ [e]).

(** 4.2 deposit *)
Definition deposit (amount : Z) (l : Ledger) : option Ledger :=
  if decide (0 < amount) then
    let b := l_balance l + amount in
    Some (logged l b (l_net l + amount) (l_holdings l) (mkEntry KDeposit amount b None))
  else None.

(** 4.3 withdraw *)
Definition withdraw (amount : Z) (l : Ledger) : option Ledger :=
  if decide (0 < amount /\ amount <= l_balance l) then
    let b := l_balance l - amount in
    Some (logged l b (l_net l - amount) (l_holdings l) (mkEntry KWithdraw amount b None))
  else None.

(** Quantity held, [holdings.get(symbol, 0)]. *)
Definition held (l : Ledger) (symbol : string) : Z := default 0 (l_holdings l !! symbol).

(** 4.4 buyShares: one quote, used for the check and the record. *)
Definition buy (quote : Oracle) (symbol : string) (n : Z) (l : Ledger) : option Ledger :=
  let price := quote symbol in
  if decide (0 < n /\ 0 < price /\ price * n <= l_balance l) then
    let b := l_balance l - price * n in
    Some (logged l b (l_net l) (<[symbol := held l symbol + n]> (l_holdings l))
            (mkEntry KBuy (price * n) b (Some (symbol, n, price))))
  else None.

(** 4.5 sellShares: a position reaching 0 is removed. *)
Definition sell (quote : Oracle) (symbol : string) (n : Z) (l : Ledger) : option Ledger :=
  let price := quote symbol in
  if decide (0 < n /\ n <= held l symbol /\ 0 < price) then
    let b := l_balance l + price * n in
    let r := held l symbol - n in
    let h := if decide (r = 0) then delete symbol (l_holdings l)
             else <[symbol := r]> (l_holdings l) in
    Some (logged l b (l_net l) h (mkEntry KSell (price * n) b (Some (symbol, n, price))))
  else None.

(** 4.6 derived views *)
Definition portfolio_value (quote : Oracle) (l : Ledger) : Z :=
  l_balance l + map_fold (fun symbol n acc => quote symbol * n + acc) 0 (l_holdings l).

Definition profit_or_loss (quote : Oracle) (l : Ledger) : Z :=
  portfolio_value quote l - l_net l.

(** Section 3's invariant. *)
Definition ledger_ok (l : Ledger) : Prop :=
  0 <= l_balance l /\ map_Forall (fun _ n => 0 < n) (l_holdings l).

Lemma held_nonneg l symbol : ledger_ok l -> 0 <= held l symbol.
Proof.
  intros [_ Hpos]. unfold held. destruct (l_holdings l !! symbol) eqn:E; simpl; [|lia].
  specialize (Hpos _ _ E). simpl in Hpos. lia.
Qed.

(** The contract keeps its own invariant. *)
Lemma ops_keep_ok l l' :
  ledger_ok l ->
  (exists a, deposit a l = Some l') \/ (exists a, withdraw a l = Some l') \/
  (exists q s n, buy q s n l = Some l') \/ (exists q s n, sell q s n l = Some l') ->
  ledger_ok l'.
Proof.
  intros Hok Hop. pose proof Hok as [Hb Hpos].
  destruct Hop as [(a & E)|[(a & E)|[(q & sy & n & E)|(q & sy & n & E)]]];
    unfold deposit, withdraw, buy, sell in E; case_decide; simplify_eq;
    split; cbn; try lia; try done.
  - pose proof (held_nonneg l sy Hok). apply map_Forall_insert_2; [cbn; lia|done].
  - pose proof (held_nonneg l sy Hok).
    case_decide; [by apply map_Forall_delete|apply map_Forall_insert_2; [cbn; lia|done]].
Qed.

End LedgerSpec.
