(* ===== verification/Holdings.v ===== *)
(** * The holdings dict shared by the three account variants

    All three [Account] classes keep [holdings] as a dict from symbol to
    an [int] quantity and update it the same way: a buy assigns
    [holdings.get(symbol, 0) + quantity], a sell assigns the decreased
    quantity and deletes the entry at [0].  This file gives those two
    updates as functions of the dict ([buy_holdings], [sell_holdings]),
    their effect on each symbol's quantity, on positivity of the entries
    and on the finite-map view, the fact that a sale undoes a purchase,
    and the value of a dict under a price function ([hv]) with its
    equivalence to the specification's sum over the finite map. *)

From Stdlib Require Import ZArith Lia String.
From stdpp Require Import base list strings gmap.
From S2P Require Import Prelude PyNum PyDict.

Open Scope Z_scope.

Section Holdings.
Implicit Types (h : dict string Z) (p : string -> Z).

(** The holdings dict after a successful [sell_shares] (all three
    variants): [holdings[symbol] -= quantity], then the entry deleted when
    it reaches [0]. *)
Definition sell_holdings (h : dict string Z) (symbol : string) (quantity : Z) :=
  let r := dict_get h symbol 0 - quantity in
  let h1 := dict_setitem h symbol r in
  if r =? 0 then dict_remove h1 symbol else h1.

(** After a successful [buy_shares]:
    [holdings[symbol] = holdings.get(symbol, 0) + quantity]. *)
Definition buy_holdings (h : dict string Z) (symbol : string) (quantity : Z) :=
  dict_setitem h symbol (dict_get h symbol 0 + quantity).

(** Every entry of the dict holds a positive quantity. *)
Definition positive_holdings h : Prop :=
  forall k q, dict_lookup h k = Some q -> 0 < q.

(** The value of a holdings dict as an integer sum over its entries. *)
(** The value of a holdings dict under a price function. *)
Definition hv p h : Z := zsum (fun kv => p kv.1 * kv.2) h.
#[global] Arguments hv : simpl never.

(** Every key of the dict satisfies [P]. *)
Definition keys_satisfy (P : string -> Prop) h : Prop :=
  forall k q, dict_lookup h k = Some q -> P k.

(** [self._holdings[symbol]] does not raise once the quantity guard of
    [sell_shares] has passed. *)
Lemma dict_get_pos_lookup (h : dict string Z) k q :
  0 < q -> q <= dict_get h k 0 -> dict_lookup h k = Some (dict_get h k 0).
Proof. unfold dict_get. destruct (dict_lookup h k); [done|lia]. Qed.

Lemma dict_delitem_setitem (h : dict string Z) k v :
  dict_delitem (dict_setitem h k v) k = Some (dict_remove (dict_setitem h k v) k).
Proof.
  unfold dict_remove. destruct (dict_delitem (dict_setitem h k v) k) eqn:E; [done|].
  apply dict_delitem_None in E. by rewrite dict_lookup_setitem_eq in E.
Qed.

Lemma positive_holdings_nil : positive_holdings [].
Proof. done. Qed.

(** Quantities read with [dict.get(symbol, 0)] are never negative. *)
Lemma positive_get h k : positive_holdings h -> 0 <= dict_get h k 0.
Proof.
  intros Hpos. unfold dict_get. destruct (dict_lookup h k) eqn:E; [|lia].
  specialize (Hpos _ _ E). lia.
Qed.

Lemma buy_holdings_get h symbol q k :
  dict_get (buy_holdings h symbol q) k 0 =
  dict_get h k 0 + (if decide (k = symbol) then q else 0).
Proof.
  unfold buy_holdings, dict_get. case_decide; subst.
  - rewrite dict_lookup_setitem_eq. lia.
  - rewrite dict_lookup_setitem_ne by congruence. lia.
Qed.

Lemma buy_holdings_pos h symbol q :
  positive_holdings h -> 0 < q -> positive_holdings (buy_holdings h symbol q).
Proof.
  intros Hpos Hq k v. unfold buy_holdings.
  destruct (decide (k = symbol)) as [->|Hne].
  - rewrite dict_lookup_setitem_eq. intros [= <-]. pose proof (positive_get h symbol Hpos). lia.
  - rewrite dict_lookup_setitem_ne by congruence. apply Hpos.
Qed.

(** The holdings after a sale, as a finite map. *)
Lemma sell_holdings_map h symbol q :
  dict_wf h ->
  to_map (sell_holdings h symbol q) =
  if (dict_get h symbol 0 - q =? 0) then delete symbol (to_map h)
  else <[symbol := dict_get h symbol 0 - q]> (to_map h).
Proof.
  intros Hwf. unfold sell_holdings. destruct (_ =? 0).
  - rewrite to_map_remove by auto with py. by rewrite to_map_setitem, delete_insert_eq.
  - apply to_map_setitem.
Qed.

Lemma sell_holdings_get h symbol q k :
  dict_wf h ->
  dict_get (sell_holdings h symbol q) k 0 =
  dict_get h k 0 - (if decide (k = symbol) then q else 0).
Proof.
  intros Hwf. rewrite !to_map_get, sell_holdings_map by done.
  destruct (_ =? 0) eqn:E; zbool; case_decide; subst;
    rewrite ?lookup_delete_eq, ?lookup_insert_eq, ?lookup_delete_ne, ?lookup_insert_ne by congruence;
    rewrite ?to_map_get in *; simpl; lia.
Qed.

Lemma sell_holdings_pos h symbol q :
  dict_wf h -> positive_holdings h -> q <= dict_get h symbol 0 ->
  positive_holdings (sell_holdings h symbol q).
Proof.
  intros Hwf Hpos Hq k v. rewrite <- to_map_lookup, sell_holdings_map by done.
  destruct (_ =? 0) eqn:E; zbool; destruct (decide (k = symbol)) as [->|Hne];
    rewrite ?lookup_delete_eq, ?lookup_insert_eq, ?lookup_delete_ne, ?lookup_insert_ne by congruence;
    rewrite ?to_map_lookup; try done; try apply Hpos.
  intros [= <-]. lia.
Qed.

Lemma buy_sell_holdings h symbol q :
  positive_holdings h -> 0 < q -> sell_holdings (buy_holdings h symbol q) symbol q = h.
Proof.
  intros Hpos Hq. unfold sell_holdings, buy_holdings.
  rewrite dict_get_setitem_eq, dict_setitem_setitem.
  unfold dict_get. destruct (dict_lookup h symbol) as [v|] eqn:E.
  - specialize (Hpos _ _ E). replace (v + q - q) with v by lia.
    destruct (v =? 0) eqn:Ev; zbool; [lia|]. by apply dict_setitem_id.
  - replace (0 + q - q) with 0 by lia. cbn.
    rewrite dict_setitem_absent by done. by apply dict_remove_snoc.
Qed.

(** CPython's ordered [sum] over the dict equals the contract's sum over
    the finite map: the order does not matter for exact addition. *)
Lemma hv_map_fold p h :
  dict_wf h -> hv p h = map_fold (fun symbol n acc => p symbol * n + acc) 0 (to_map h).
Proof.
  unfold hv, to_map, dict_wf, dict_keys. induction h as [|[k n] h IH]; intros Hwf; [done|].
  cbn in Hwf. apply NoDup_cons in Hwf as [Hk Hwf].
  rewrite list_to_map_cons, map_fold_insert_L.
  - unfold zsum in *. cbn. rewrite <- IH by done. lia.
  - intros. lia.
  - apply not_elem_of_list_to_map_1. done.
Qed.

Lemma hv_setitem p h k v : hv p (dict_setitem h k v) = hv p h - p k * dict_get h k 0 + p k * v.
Proof.
  unfold hv, dict_get. induction h as [|[k' v'] h IH]; cbn; unfold zsum in *; cbn; [lia|].
  case_decide; subst; cbn; [lia|]. rewrite IH. lia.
Qed.

Lemma hv_remove p h k : dict_wf h -> hv p (dict_remove h k) = hv p h - p k * dict_get h k 0.
Proof.
  intros Hwf. unfold dict_remove. destruct (dict_delitem h k) as [h'|] eqn:E.
  - destruct (dict_delitem_Some _ _ _ E) as (pre & post & v & -> & -> & Hpre).
    unfold hv, dict_get. rewrite !zsum_app, dict_lookup_app, dict_lookup_notin by done.
    cbn. rewrite decide_True by done. unfold zsum. cbn. lia.
  - apply dict_delitem_None in E. unfold dict_get. rewrite E. lia.
Qed.

Lemma buy_holdings_keys (P : string -> Prop) h symbol q :
  keys_satisfy P h -> P symbol -> keys_satisfy P (buy_holdings h symbol q).
Proof.
  intros HP Hs k v. unfold buy_holdings. destruct (decide (k = symbol)) as [->|Hne]; [done|].
  rewrite dict_lookup_setitem_ne by congruence. apply HP.
Qed.

Lemma sell_holdings_keys (P : string -> Prop) h symbol q :
  dict_wf h -> keys_satisfy P h -> 0 < q -> q <= dict_get h symbol 0 ->
  keys_satisfy P (sell_holdings h symbol q).
Proof.
  intros Hwf HP Hq Hle k v. rewrite <- to_map_lookup, sell_holdings_map by done.
  destruct (decide (k = symbol)) as [->|Hne].
  - intros _. apply (HP _ _ (dict_get_pos_lookup h symbol q Hq Hle)).
  - destruct (_ =? 0); rewrite ?lookup_delete_ne, ?lookup_insert_ne, to_map_lookup by congruence;
      apply HP.
Qed.

(** CPython's [for symbol, qty in holdings.items(): total += price * qty],
    or [sum(...)] started from [total], at exact integers. *)
Lemma fold_value p h total :
  fold_left (fun acc '(symbol, quantity) =>
    py_add acc (py_mul (p symbol) (py_of_int quantity))) h total = total + hv p h.
Proof.
  revert total. unfold hv. induction h as [|[k n] h IH]; intros total; cbn; [lia|].
  rewrite IH. unfold zsum. cbn. lia.
Qed.
End Holdings.

#[export] Hint Resolve positive_holdings_nil : py.
