(* ===== verification/Account4o.v ===== *)
(** * [example_output_4o/accounts.py]: the account that returns booleans

    This is the variant the spec's contract follows most closely: every
    precondition failure is reported by [return False], the price of a
    trade comes from an injected [price_lookup] callable, a
    [_net_deposits] baseline is kept for the profit computation, and each
    [Transaction] records the balance after it.

    [Module Account4o] holds, over any [PyNum] instance:
    - the module-level [_PRICE_MAP] and [get_share_price] (lines 7-16);
    - the [Transaction] dataclass (lines 19-27) and the [Account] object's
      attributes as a record;
    - one [Py] computation per method, statement by statement
      (lines 33-137), with [price_lookup] an argument as in the source.
    The theorems are proved at the exact instance [pynum_Z] and for every
    [price_lookup]. *)

From Stdlib Require Import ZArith Lia String.
From stdpp Require Import base list strings gmap.
From S2P Require Import Prelude PyNum PyDict PyStr Session.

Module Account4o.
Section Defs.
Context {A : Type} `{PyNum A}.

(** [_PRICE_MAP] and [get_share_price] *)
Definition PRICE_MAP : dict string A :=
  [("AAPL", py_of_int 150); ("TSLA", py_of_int 700); ("GOOGL", py_of_int 2800)].

Definition get_share_price (symbol : string) : A :=
  dict_get PRICE_MAP (str_upper symbol) py_zero.

(** The [Transaction] dataclass; the optional fields default to [None]. *)
Record Transaction := mkTransaction {
  tx_type : string;
  tx_amount : A;
  tx_balance : A;
  tx_symbol : option string;
  tx_quantity : option Z;
  tx_price : option A;
  tx_total : option A;
}.

(** [Transaction(type=..., amount=..., balance=...)] *)
Definition cash_tx (type : string) (amount balance : A) : Transaction :=
  mkTransaction type amount balance None None None None.

(** The attributes of an [Account] object. *)
Record Account := mkAccount {
  account_id : string;
  balance : A;
  net_deposits : A;       (** [_net_deposits] *)
  holdings : dict string Z;  (** [_holdings] *)
  transactions : list Transaction;  (** [_transactions] *)
}.

(** Attribute assignments [self.x = v] and [self._transactions.append(t)]. *)
Definition set_balance (b : A) (s : Account) : Account :=
  mkAccount s.(account_id) b s.(net_deposits) s.(holdings) s.(transactions).
Definition set_net_deposits (n : A) (s : Account) : Account :=
  mkAccount s.(account_id) s.(balance) n s.(holdings) s.(transactions).
Definition set_holdings (h : dict string Z) (s : Account) : Account :=
  mkAccount s.(account_id) s.(balance) s.(net_deposits) h s.(transactions).
Definition append_tx (t : Transaction) (s : Account) : Account :=
  mkAccount s.(account_id) s.(balance) s.(net_deposits) s.(holdings)
    (s.(transactions) ++ [t]).

(** [self._holdings[symbol]], raising [KeyError] on a missing key. *)
Definition holdings_getitem (symbol : string) : Py Account Z :=
  s ← py_get;
  match dict_lookup s.(holdings) symbol with
  | Some q => mret q
  | None => py_raise (KeyError symbol)
  end.

(** [del self._holdings[symbol]] *)
Definition holdings_delitem (symbol : string) : Py Account unit :=
  s ← py_get;
  match dict_delitem s.(holdings) symbol with
  | Some h => py_put (set_holdings h s)
  | None => py_raise (KeyError symbol)
  end.

(** [__init__(self, account_id, initial_deposit=0.0)] *)
Definition init (account_id : string) (initial_deposit : A) : Account :=
  let bal := py_max0 initial_deposit in
  mkAccount account_id bal bal []
    (if py_truthy bal then [cash_tx "deposit" bal bal] else []).

(** [deposit(self, amount) -> bool] *)
Definition deposit (amount : A) : Py Account bool :=
  if py_le amount py_zero then mret false else
  py_modify (fun s => set_balance (py_add s.(balance) amount) s);;
  py_modify (fun s => set_net_deposits (py_add s.(net_deposits) amount) s);;
  py_modify (fun s => append_tx (cash_tx "deposit" amount s.(balance)) s);;
  mret true.

(** [withdraw(self, amount) -> bool] *)
Definition withdraw (amount : A) : Py Account bool :=
  s ← py_get;
  if py_le amount py_zero || py_lt s.(balance) amount then mret false else
  py_modify (fun s => set_balance (py_sub s.(balance) amount) s);;
  py_modify (fun s => set_net_deposits (py_sub s.(net_deposits) amount) s);;
  py_modify (fun s => append_tx (cash_tx "withdraw" amount s.(balance)) s);;
  mret true.

(** [buy_shares(self, symbol, quantity, price_lookup) -> bool] *)
Definition buy_shares (price_lookup : string -> A) (symbol : string) (quantity : Z)
    : Py Account bool :=
  if (quantity <=? 0)%Z then mret false else
  let price := price_lookup symbol in
  if py_le price py_zero then mret false else
  let total_cost := py_mul price (py_of_int quantity) in
  s ← py_get;
  if py_lt s.(balance) total_cost then mret false else
  py_modify (fun s => set_balance (py_sub s.(balance) total_cost) s);;
  py_modify (fun s => set_holdings
    (dict_setitem s.(holdings) symbol (dict_get s.(holdings) symbol 0 + quantity)%Z) s);;
  py_modify (fun s => append_tx (mkTransaction "buy" total_cost s.(balance)
    (Some symbol) (Some quantity) (Some price) (Some total_cost)) s);;
  mret true.

(** [sell_shares(self, symbol, quantity, price_lookup) -> bool] *)
Definition sell_shares (price_lookup : string -> A) (symbol : string) (quantity : Z)
    : Py Account bool :=
  s ← py_get;
  if (quantity <=? 0)%Z || (dict_get s.(holdings) symbol 0 <? quantity)%Z then mret false else
  let price := price_lookup symbol in
  if py_le price py_zero then mret false else
  let total_revenue := py_mul price (py_of_int quantity) in
  py_modify (fun s => set_balance (py_add s.(balance) total_revenue) s);;
  q ← holdings_getitem symbol;
  py_modify (fun s => set_holdings (dict_setitem s.(holdings) symbol (q - quantity)%Z) s);;
  q' ← holdings_getitem symbol;
  (if (q' =? 0)%Z then holdings_delitem symbol else mret tt);;
  py_modify (fun s => append_tx (mkTransaction "sell" total_revenue s.(balance)
    (Some symbol) (Some quantity) (Some price) (Some total_revenue)) s);;
  mret true.

(** [get_holdings(self)]: [dict(self._holdings)], a fresh copy. *)
Definition get_holdings : Py Account (dict string Z) :=
  s ← py_get; mret s.(holdings).

(** [get_transactions(self)]: each transaction's [__dict__], copied. *)
Inductive pyval :=
| PStr (s : string)
| PFloat (x : A)
| PInt (n : Z)
| PNone.

Definition opt_val {B} (f : B -> pyval) (o : option B) : pyval :=
  match o with Some x => f x | None => PNone end.

Definition tx_dict (t : Transaction) : dict string pyval :=
  [("type", PStr t.(tx_type)); ("amount", PFloat t.(tx_amount));
   ("balance", PFloat t.(tx_balance)); ("symbol", opt_val PStr t.(tx_symbol));
   ("quantity", opt_val PInt t.(tx_quantity)); ("price", opt_val PFloat t.(tx_price));
   ("total", opt_val PFloat t.(tx_total))].

Definition get_transactions : Py Account (list (dict string pyval)) :=
  s ← py_get; mret (map tx_dict s.(transactions)).

(** [sum(price_lookup(symbol) * quantity for symbol, quantity in
    self._holdings.items())]: CPython's [sum] starts from [0] and adds
    left to right in the dict's order. *)
Definition holdings_value (price_lookup : string -> A) (h : dict string Z) : A :=
  fold_left (fun acc '(symbol, quantity) =>
    py_add acc (py_mul (price_lookup symbol) (py_of_int quantity))) h py_zero.

(** [get_profit_or_loss(self, price_lookup)] *)
Definition get_profit_or_loss (price_lookup : string -> A) : Py Account A :=
  s ← py_get;
  mret (py_sub (py_add s.(balance) (holdings_value price_lookup s.(holdings)))
               s.(net_deposits)).

(** A caller's view: one constructor per public method, with its
    arguments (the [price_lookup] callable included), and the values the
    methods return. *)
Inductive Call :=
| CallDeposit (amount : A)
| CallWithdraw (amount : A)
| CallBuy (price_lookup : string -> A) (symbol : string) (quantity : Z)
| CallSell (price_lookup : string -> A) (symbol : string) (quantity : Z)
| CallGetHoldings
| CallGetTransactions
| CallProfitOrLoss (price_lookup : string -> A).

Inductive Reply :=
| RBool (b : bool)
| RHoldings (h : dict string Z)
| RTransactions (l : list (dict string pyval))
| RNumber (x : A).

Definition call (c : Call) : Py Account Reply :=
  match c with
  | CallDeposit a => RBool <$> deposit a
  | CallWithdraw a => RBool <$> withdraw a
  | CallBuy p sym q => RBool <$> buy_shares p sym q
  | CallSell p sym q => RBool <$> sell_shares p sym q
  | CallGetHoldings => RHoldings <$> get_holdings
  | CallGetTransactions => RTransactions <$> get_transactions
  | CallProfitOrLoss p => RNumber <$> get_profit_or_loss p
  end.

(** The objects [Account(account_id, initial_deposit)] builds. *)
Definition constructed (s : Account) : Prop :=
  exists account_id initial_deposit, s = init account_id initial_deposit.
End Defs.
End Account4o.
