(* ===== verification/Account4oProps.v ===== *)
(** * Properties of [example_output_4o/accounts.py]

    Proved at the exact instance [pynum_Z], for every [price_lookup].
    - Run lemmas: the outcome and final state of each method, computed.
    - The ledger invariant ([ledger_inv]): non-negative balance, a
      well-formed holdings dict with positive quantities, and agreement of
      balance, [_net_deposits], holdings and every balance snapshot with
      the transaction log; established by [__init__], kept by every method,
      hence true of every reachable object.
    - Error behaviour: no method raises, and a [False] result changes
      nothing.
    - The transaction count law and the buy/sell round trip.
    - Refinement of the [LedgerSpec] contract by the four mutators, and
      of its profit or loss by [get_profit_or_loss], which deposits,
      withdrawals and fairly priced trades leave unchanged.
    - The spec's scenarios A to E, evaluated, and the holdings keyed by
      the raw symbol while prices are looked up upper-cased. *)

From Stdlib Require Import ZArith Lia String.
From stdpp Require Import base list strings gmap.
From S2P Require Import Prelude PyNum PyDict PyStr Session LedgerSpec Holdings Account4o.
Import Account4o.

Open Scope Z_scope.

(** ** Run lemmas *)

(** The outcome and final state of each mutator, at any [PyNum] instance. *)
Section GenericRun.
Context {A : Type} `{PyNum A}.
Implicit Types (s : @Account A) (p : string -> A).

Lemma deposit_run_gen (a : A) s :
  py_run (deposit a) s =
  if py_le a py_zero then (Return false, s)
  else (Return true,
    append_tx (cash_tx "deposit" a (py_add (balance s) a))
      (set_net_deposits (py_add (net_deposits s) a) (set_balance (py_add (balance s) a) s))).
Proof. unfold deposit. cbn. destruct (py_le a py_zero); reflexivity. Qed.

Lemma withdraw_run_gen (a : A) s :
  py_run (withdraw a) s =
  if py_le a py_zero || py_lt (balance s) a then (Return false, s)
  else (Return true,
    append_tx (cash_tx "withdraw" a (py_sub (balance s) a))
      (set_net_deposits (py_sub (net_deposits s) a) (set_balance (py_sub (balance s) a) s))).
Proof. unfold withdraw. cbn. destruct (py_le a py_zero || py_lt (balance s) a); reflexivity. Qed.

Lemma buy_run_gen p symbol q s :
  py_run (buy_shares p symbol q) s =
  let cost := py_mul (p symbol) (py_of_int q) in
  if (q <=? 0) || py_le (p symbol) py_zero || py_lt (balance s) cost then (Return false, s)
  else (Return true,
    append_tx (mkTransaction "buy" cost (py_sub (balance s) cost)
                (Some symbol) (Some q) (Some (p symbol)) (Some cost))
      (set_holdings (buy_holdings (holdings s) symbol q)
        (set_balance (py_sub (balance s) cost) s))).
Proof.
  unfold buy_shares. cbn. destruct (q <=? 0), (py_le (p symbol) py_zero); cbn; try reflexivity.
  destruct (py_lt (balance s) _); reflexivity.
Qed.

Lemma sell_run_gen p symbol q s :
  py_run (sell_shares p symbol q) s =
  let revenue := py_mul (p symbol) (py_of_int q) in
  if (q <=? 0) || (dict_get (holdings s) symbol 0 <? q) || py_le (p symbol) py_zero
  then (Return false, s)
  else (Return true,
    append_tx (mkTransaction "sell" revenue (py_add (balance s) revenue)
                (Some symbol) (Some q) (Some (p symbol)) (Some revenue))
      (set_holdings (sell_holdings (holdings s) symbol q)
        (set_balance (py_add (balance s) revenue) s))).
Proof.
  unfold sell_shares. cbn.
  destruct (q <=? 0) eqn:Hq; cbn; [reflexivity|].
  destruct (dict_get (holdings s) symbol 0 <? q) eqn:Hg; cbn; [reflexivity|].
  destruct (py_le (p symbol) py_zero); cbn; [reflexivity|]. zbool.
  rewrite (dict_get_pos_lookup _ _ q) by lia. cbn.
  rewrite dict_lookup_setitem_eq. cbn. unfold sell_holdings.
  destruct (dict_get (holdings s) symbol 0 - q =? 0); cbn; [|reflexivity].
  rewrite dict_delitem_setitem. reflexivity.
Qed.
End GenericRun.

(** The same at exact integers. *)
Section Run.
Implicit Types (s : @Account Z) (p : string -> Z).

Lemma deposit_run a s :
  py_run (deposit a) s =
  if a <=? 0 then (Return false, s)
  else (Return true,
    append_tx (cash_tx "deposit" a (balance s + a))
      (set_net_deposits (net_deposits s + a) (set_balance (balance s + a) s))).
Proof. exact (deposit_run_gen a s). Qed.

Lemma withdraw_run a s :
  py_run (withdraw a) s =
  if (a <=? 0) || (balance s <? a) then (Return false, s)
  else (Return true,
    append_tx (cash_tx "withdraw" a (balance s - a))
      (set_net_deposits (net_deposits s - a) (set_balance (balance s - a) s))).
Proof. exact (withdraw_run_gen a s). Qed.

Lemma buy_run p symbol q s :
  py_run (buy_shares p symbol q) s =
  if (q <=? 0) || (p symbol <=? 0) || (balance s <? p symbol * q) then (Return false, s)
  else (Return true,
    append_tx (mkTransaction "buy" (p symbol * q) (balance s - p symbol * q)
                (Some symbol) (Some q) (Some (p symbol)) (Some (p symbol * q)))
      (set_holdings (buy_holdings (holdings s) symbol q)
        (set_balance (balance s - p symbol * q) s))).
Proof. exact (buy_run_gen p symbol q s). Qed.

Lemma sell_run p symbol q s :
  py_run (sell_shares p symbol q) s =
  if (q <=? 0) || (dict_get (holdings s) symbol 0 <? q) || (p symbol <=? 0)
  then (Return false, s)
  else (Return true,
    append_tx (mkTransaction "sell" (p symbol * q) (balance s + p symbol * q)
                (Some symbol) (Some q) (Some (p symbol)) (Some (p symbol * q)))
      (set_holdings (sell_holdings (holdings s) symbol q)
        (set_balance (balance s + p symbol * q) s))).
Proof. exact (sell_run_gen p symbol q s). Qed.
End Run.

(** ** The ledger invariant *)

Section Ledger.
Implicit Types (s : @Account Z) (t : @Transaction Z) (h : dict string Z).

(** Effect of a logged transaction on the cash balance. *)
Definition tx_delta t : Z :=
  if String.eqb (tx_type t) "deposit" || String.eqb (tx_type t) "sell"
  then tx_amount t else - tx_amount t.

(** Effect on the owner's net contribution [_net_deposits]. *)
Definition cash_delta t : Z :=
  if String.eqb (tx_type t) "deposit" then tx_amount t
  else if String.eqb (tx_type t) "withdraw" then - tx_amount t else 0.

(** Effect on the position in [symbol]. *)
Definition position_delta (symbol : string) t : Z :=
  if decide (tx_symbol t = Some symbol) then
    let q := default 0 (tx_quantity t) in
    if String.eqb (tx_type t) "buy" then q
    else if String.eqb (tx_type t) "sell" then - q else 0
  else 0.

(** Every recorded [balance] is the balance after that transaction. *)
Definition snapshots_ok (txs : list (@Transaction Z)) : Prop :=
  forall i t, txs !! i = Some t -> tx_balance t = zsum tx_delta (take (S i) txs).

Record ledger_inv s : Prop := {
  inv_balance_nonneg : 0 <= balance s;
  inv_holdings_wf : dict_wf (holdings s);
  inv_holdings_pos : positive_holdings (holdings s);
  inv_balance_log : balance s = zsum tx_delta (transactions s);
  inv_net_log : net_deposits s = zsum cash_delta (transactions s);
  inv_position_log : forall k, dict_get (holdings s) k 0 = zsum (position_delta k) (transactions s);
  inv_snapshots : snapshots_ok (transactions s);
}.

Lemma snapshots_snoc txs t :
  snapshots_ok txs -> tx_balance t = zsum tx_delta (txs ++ [t]) -> snapshots_ok (txs ++ [t]).
Proof.
  intros Hok Ht i t' Hi. apply lookup_snoc_Some in Hi as [[Hlt Hi]|[-> <-]].
  - rewrite take_app_le by lia. by apply Hok.
  - by rewrite take_ge by (rewrite length_app; simpl; lia).
Qed.

(** Appending one transaction whose effects the new attributes agree
    with keeps the invariant. *)
Lemma ledger_inv_step s s' t :
  ledger_inv s ->
  transactions s' = transactions s ++ [t] ->
  balance s' = balance s + tx_delta t ->
  net_deposits s' = net_deposits s + cash_delta t ->
  tx_balance t = balance s' ->
  0 <= balance s' ->
  dict_wf (holdings s') ->
  positive_holdings (holdings s') ->
  (forall k, dict_get (holdings s') k 0 = dict_get (holdings s) k 0 + position_delta k t) ->
  ledger_inv s'.
Proof.
  intros [] Htx Hb Hn Ht Hnn Hwf Hpos Hget. constructor; auto; rewrite ?Htx, ?zsum_snoc.
  - lia.
  - lia.
  - intros k. rewrite Hget, inv_position_log0, zsum_snoc. lia.
  - apply snapshots_snoc; [done|]. rewrite zsum_snoc. lia.
Qed.

End Ledger.

(** ** Every method keeps the invariant *)

Section Preservation.
Implicit Types (s : @Account Z) (p : string -> Z).

Lemma position_delta_cash k type a b :
  position_delta k (cash_tx (A:=Z) type a b) = 0.
Proof. reflexivity. Qed.

Lemma position_delta_trade k type amt b symbol q price total :
  position_delta k (mkTransaction (A:=Z) type amt b (Some symbol) (Some q) price total) =
  if decide (k = symbol) then
    (if String.eqb type "buy" then q else if String.eqb type "sell" then - q else 0)
  else 0.
Proof.
  unfold position_delta. cbn.
  destruct (decide (k = symbol)) as [->|Hne].
  - by rewrite decide_True.
  - rewrite decide_False; [done|]. congruence.
Qed.

(** A method run from an invariant state, whatever its outcome. *)
Definition preserves {R} (m : Py (@Account Z) R) : Prop :=
  forall s o s', ledger_inv s -> py_run m s = (o, s') -> ledger_inv s'.

Ltac step_inv :=
  eapply ledger_inv_step; [eassumption|reflexivity|..]; cbn;
  lazymatch goal with |- forall k : string, _ => intros k | _ => idtac end;
  rewrite ?position_delta_cash, ?position_delta_trade; cbn; try reflexivity.

Lemma deposit_preserves a : preserves (deposit a).
Proof.
  intros s o s' Hinv. rewrite deposit_run. destruct (a <=? 0) eqn:Ha; intros [= <- <-]; [done|].
  zbool. pose proof (inv_balance_nonneg _ Hinv). step_inv; try lia; eauto using inv_holdings_wf, inv_holdings_pos.
Qed.

Lemma withdraw_preserves a : preserves (withdraw a).
Proof.
  intros s o s' Hinv. rewrite withdraw_run.
  destruct ((a <=? 0) || (balance s <? a)) eqn:Ha; intros [= <- <-]; [done|].
  apply orb_false_iff in Ha as [Ha1 Ha2]. zbool.
  step_inv; try lia; eauto using inv_holdings_wf, inv_holdings_pos.
Qed.

Lemma buy_preserves p symbol q : preserves (buy_shares p symbol q).
Proof.
  intros s o s' Hinv. rewrite buy_run.
  destruct ((q <=? 0) || (p symbol <=? 0) || (balance s <? p symbol * q)) eqn:Hg;
    intros [= <- <-]; [done|].
  repeat (apply orb_false_iff in Hg as [Hg ?]). zbool.
  step_inv; try lia.
  - apply dict_setitem_wf. eauto using inv_holdings_wf.
  - apply buy_holdings_pos; [eauto using inv_holdings_pos|lia].
  - rewrite buy_holdings_get. case_decide; lia.
Qed.

Lemma sell_preserves p symbol q : preserves (sell_shares p symbol q).
Proof.
  intros s o s' Hinv. rewrite sell_run.
  destruct ((q <=? 0) || (dict_get (holdings s) symbol 0 <? q) || (p symbol <=? 0)) eqn:Hg;
    intros [= <- <-]; [done|].
  repeat (apply orb_false_iff in Hg as [Hg ?]). zbool.
  pose proof (inv_balance_nonneg _ Hinv). pose proof (inv_holdings_wf _ Hinv).
  step_inv; try nia.
  - unfold sell_holdings. destruct (_ =? 0); auto with py.
  - apply sell_holdings_pos; [done|eauto using inv_holdings_pos|lia].
  - rewrite sell_holdings_get by done. case_decide; lia.
Qed.

Lemma query_run {R} (f : @Account Z -> R) s :
  py_run (s' ← py_get; mret (f s')) s = (Return (f s), s).
Proof. reflexivity. Qed.

Lemma call_preserves c : preserves (call c).
Proof.
  intros s o s' Hinv. destruct c; cbn [call]; rewrite py_run_fmap.
  5-7: cbn; intros [= _ <-]; done.
  all: destruct (py_run _ s) as [o' s''] eqn:E; intros Heq;
    assert (s'' = s') as <- by (destruct o'; congruence).
  - by eapply deposit_preserves.
  - by eapply withdraw_preserves.
  - by eapply buy_preserves.
  - by eapply sell_preserves.
Qed.

Lemma init_inv account_id d : ledger_inv (init account_id d).
Proof.
  unfold init. pose proof (py_max0_Z_nonneg d). unfold py_truthy. cbn.
  destruct (py_max0 d =? 0) eqn:E; cbn; zbool.
  - constructor; cbn; auto using positive_holdings_nil with py; done.
  - constructor; cbn; auto using positive_holdings_nil with py; try (unfold zsum; cbn; lia).
    intros i t Hi. apply list_lookup_singleton_Some in Hi as [-> <-]. cbn. unfold zsum; cbn. lia.
Qed.
End Preservation.

(** ** Error behaviour, counting and the round trip *)

Section Claims.
Implicit Types (s : @Account Z) (p : string -> Z).

(** The outcome a successful mutating method returns. *)
Definition succeeded (o : outcome (@Reply Z)) : bool :=
  match o with Return (RBool true) => true | _ => false end.

(** The outcome a mutating method reports a precondition failure with. *)
Definition failed (o : outcome (@Reply Z)) : bool :=
  match o with Return (RBool false) => true | _ => false end.

(** Whether running a method on a state raises. *)
Definition raises {R} (m : Py (@Account Z) R) s : bool :=
  match (py_run m s).1 with Raise _ => true | Return _ => false end.

(** Unfold a call into its method's computed outcome and split on the
    method's guards. *)
Ltac run_call :=
  cbn [call]; rewrite py_run_fmap; rewrite ?deposit_run, ?withdraw_run, ?buy_run, ?sell_run;
  repeat match goal with |- context [if ?b then _ else _] =>
    lazymatch b with
    | succeeded _ => fail
    | failed _ => fail
    | _ => lazymatch type of b with bool => destruct b end
    end end; cbn.

Lemma call_tx_count c s :
  length (transactions (py_run (call c) s).2) =
  (length (transactions s) + (if succeeded (py_run (call c) s).1 then 1 else 0))%nat.
Proof.
  destruct c; run_call; rewrite ?length_app; cbn; lia.
Qed.

(** C1: every [Account] object a caller can reach, from
    [Account(account_id, initial_deposit)] through any sequence of method
    calls with any [price_lookup]s, satisfies the ledger invariant: the
    balance is non-negative, the holdings dict has no duplicate key and
    only positive quantities, and the balance, [_net_deposits], every
    holding and every recorded balance snapshot agree with the
    transaction log. *)
Theorem reachable_ledger_inv s : reachable call constructed s -> ledger_inv s.
Proof.
  apply reachable_ind_inv.
  - intros ? (account_id & d & ->). apply init_inv.
  - intros s1 s2 Hinv (c & o & E). by eapply call_preserves.
Qed.

Lemma reachable_ledger_inv_witness :
  reachable call constructed
    (run_calls call [CallDeposit 500; CallBuy get_share_price "AAPL" 2] (init "acct" 1000)).2 /\
  ledger_inv
    (run_calls call [CallDeposit 500; CallBuy get_share_price "AAPL" 2] (init "acct" 1000)).2.
Proof.
  assert (Hr : reachable call constructed
    (run_calls call [CallDeposit 500; CallBuy get_share_price "AAPL" 2] (init "acct" 1000)).2).
  { apply run_calls_reachable, reach_init. exists "acct"%string, 1000. reflexivity. }
  split; [exact Hr | apply (reachable_ledger_inv _ Hr)].
Defined.

(** C3: no method of the 4o [Account] raises, on any object state and
    any arguments: in particular the [self._holdings[symbol]] reads and
    the [del] of [sell_shares] never raise [KeyError]. *)
Theorem call_never_raises c s : raises (call c) s = false.
Proof.
  unfold raises. destruct c; run_call; reflexivity.
Qed.

(** C4: a mutating method that returns [False] changes nothing: the
    balance, net deposits, holdings and transaction log are those before
    the call (all-or-nothing). *)
Theorem call_false_unchanged c s :
  failed (py_run (call c) s).1 = true -> (py_run (call c) s).2 = s.
Proof.
  destruct c; run_call; done.
Qed.

Lemma call_false_unchanged_witness :
  failed (py_run (call (CallWithdraw 800)) (init "acct" 700)).1 = true /\
  (py_run (call (CallWithdraw 800)) (init "acct" 700)).2 = init "acct" 700.
Proof.
  split; [reflexivity|].
  apply (call_false_unchanged (CallWithdraw 800) (init "acct" 700)). reflexivity.
Defined.

(** C5: transaction count law: starting from [Account(account_id)] (no
    initial deposit), after any sequence of calls the transaction log
    has exactly one entry per call that returned [True]. *)
Theorem tx_count_law account_id cs :
  length (transactions (run_calls call cs (init account_id 0)).2) =
  length (filter succeeded (run_calls call cs (init account_id 0)).1).
Proof.
  rewrite (run_calls_count call (fun s => length (transactions s)) succeeded); [reflexivity|].
  intros c s o s' E. pose proof (call_tx_count c s) as Hc. by rewrite E in Hc.
Qed.

(** C6: buying and then selling the same quantity of a symbol with the
    same [price_lookup] succeeds and returns the balance, the net
    deposits and the holdings dict to exactly their values before the
    buy (a symbol bought fresh is removed again), with two transactions
    logged. *)
Theorem buy_then_sell_restores p symbol q s s1 :
  ledger_inv s ->
  py_run (buy_shares p symbol q) s = (Return true, s1) ->
  exists s2, py_run (sell_shares p symbol q) s1 = (Return true, s2) /\
    balance s2 = balance s /\ net_deposits s2 = net_deposits s /\
    holdings s2 = holdings s /\ length (transactions s2) = (length (transactions s) + 2)%nat.
Proof.
  intros Hinv. rewrite buy_run.
  destruct ((q <=? 0) || (p symbol <=? 0) || (balance s <? p symbol * q)) eqn:Hg;
    [congruence|]. intros [= <-].
  repeat (apply orb_false_iff in Hg as [Hg ?]). zbool.
  pose proof (inv_holdings_pos _ Hinv) as Hpos.
  rewrite sell_run. cbn. rewrite buy_holdings_get, decide_True by done.
  pose proof (positive_get _ symbol Hpos).
  destruct (q <=? 0) eqn:E1; zbool; [lia|].
  destruct (_ <? q) eqn:E2; zbool; [lia|].
  destruct (p symbol <=? 0) eqn:E3; zbool; [lia|]. cbn.
  eexists; split; [reflexivity|]. cbn.
  rewrite buy_sell_holdings by done. rewrite !length_app. cbn. split_and!; done || lia.
Qed.

Lemma buy_then_sell_restores_witness :
  let s := init "acct" 1000 in
  let s1 := (py_run (buy_shares get_share_price "AAPL" 2) s).2 in
  exists s2,
    py_run (sell_shares get_share_price "AAPL" 2) s1 = (Return true, s2) /\
    balance s2 = balance s /\ net_deposits s2 = net_deposits s /\
    holdings s2 = holdings s /\
    length (transactions s2) = (length (transactions s) + 2)%nat.
Proof.
  intros s s1. apply (buy_then_sell_restores get_share_price "AAPL" 2 s s1).
  - apply init_inv.
  - reflexivity.
Defined.
End Claims.

(** ** Refinement of the ledger contract *)

Section Refinement.
Implicit Types (s : @Account Z) (t : @Transaction Z) (p : string -> Z).

Definition kind_of (type : string) : option LedgerSpec.Kind :=
  if String.eqb type "deposit" then Some LedgerSpec.KDeposit
  else if String.eqb type "withdraw" then Some LedgerSpec.KWithdraw
  else if String.eqb type "buy" then Some LedgerSpec.KBuy
  else if String.eqb type "sell" then Some LedgerSpec.KSell
  else None.

Definition abs_tx t : option LedgerSpec.Entry :=
  k ← kind_of (tx_type t);
  Some (LedgerSpec.mkEntry k (tx_amount t) (tx_balance t)
    match tx_symbol t, tx_quantity t, tx_price t with
    | Some sy, Some n, Some pr => Some (sy, n, pr)
    | _, _, _ => None
    end).

(** The abstraction function: the holdings dict seen as a finite map, the
    log as the contract's entries. *)
Definition abs s : LedgerSpec.Ledger :=
  LedgerSpec.mkLedger (balance s) (net_deposits s) (to_map (holdings s))
    (omap abs_tx (transactions s)).

(** A method refines a contract operation when, on every object with a
    well-formed holdings dict, it returns [True] and moves to a state
    abstracting to the operation's result when the operation applies, and
    returns [False] without any change when it does not. *)
Definition refines (m : Py (@Account Z) bool)
    (op : LedgerSpec.Ledger -> option LedgerSpec.Ledger) : Prop :=
  forall s, dict_wf (holdings s) ->
  match op (abs s) with
  | Some l => exists s', py_run m s = (Return true, s') /\ abs s' = l
  | None => py_run m s = (Return false, s)
  end.

Lemma abs_append s t e :
  abs_tx t = Some e ->
  omap abs_tx (transactions (append_tx t s)) = omap abs_tx (transactions s) ++ [e].
Proof. intros He. cbn. by rewrite omap_app; cbn; rewrite He. Qed.

Lemma held_abs s symbol : LedgerSpec.held (abs s) symbol = dict_get (holdings s) symbol 0.
Proof. unfold LedgerSpec.held. cbn. by rewrite to_map_get. Qed.

(** C2: the 4o methods refine the spec's ledger contract (sections 4.2 to
    4.5): on every object with a well-formed holdings dict, [deposit],
    [withdraw], [buy_shares] and [sell_shares] return [True] and produce
    exactly the contract's new balance, net deposits, holdings map and log
    entry when its preconditions hold, and return [False] leaving the
    object unchanged when they do not. *)
Theorem mutators_refine_spec p symbol n a :
  refines (deposit a) (LedgerSpec.deposit a) /\
  refines (withdraw a) (LedgerSpec.withdraw a) /\
  refines (buy_shares p symbol n) (LedgerSpec.buy p symbol n) /\
  refines (sell_shares p symbol n) (LedgerSpec.sell p symbol n).
Proof.
  split_and!; intros s Hwf;
    unfold LedgerSpec.deposit, LedgerSpec.withdraw, LedgerSpec.buy, LedgerSpec.sell;
    rewrite ?deposit_run, ?withdraw_run, ?buy_run, ?sell_run, ?held_abs; cbn; guards;
    eexists; (split; [reflexivity|]); unfold abs, LedgerSpec.logged; cbn;
    rewrite omap_app; cbn; f_equal;
    unfold buy_holdings; rewrite ?to_map_setitem, ?sell_holdings_map by done; guards; done.
Qed.
End Refinement.

(** ** Profit and loss *)

Section ProfitLoss.
Implicit Types (s : @Account Z) (p : string -> Z) (h : dict string Z).

Lemma holdings_value_hv p h : holdings_value p h = hv p h.
Proof. unfold holdings_value. rewrite fold_value. cbn. lia. Qed.

(** What [get_profit_or_loss] returns. *)
Definition pnl p s : option Z := returned (py_run (get_profit_or_loss p) s).1.

Lemma pnl_eq p s : pnl p s = Some (balance s + hv p (holdings s) - net_deposits s).
Proof. unfold pnl. cbn. by rewrite holdings_value_hv. Qed.

(** C7: [get_profit_or_loss] computes the contract's profit or loss
    (section 4.6): balance plus the sum of quoted value over the holdings,
    minus net deposits, summed in the dict's order, and leaves the object
    unchanged. *)
Theorem profit_or_loss_refines p s :
  dict_wf (holdings s) ->
  py_run (get_profit_or_loss p) s = (Return (LedgerSpec.profit_or_loss p (abs s)), s).
Proof.
  intros Hwf. cbn. rewrite holdings_value_hv, hv_map_fold by done.
  unfold LedgerSpec.profit_or_loss, LedgerSpec.portfolio_value. cbn. do 2 f_equal; lia.
Qed.

Lemma profit_or_loss_refines_witness :
  dict_wf (holdings (init "acct" 1000)) /\
  py_run (get_profit_or_loss get_share_price) (init "acct" 1000) =
  (Return (LedgerSpec.profit_or_loss get_share_price (abs (init "acct" 1000))), init "acct" 1000).
Proof.
  split; [apply dict_wf_nil|]. apply profit_or_loss_refines. apply dict_wf_nil.
Defined.

(** C8: deposits and withdrawals, successful or not, leave the profit or
    loss unchanged for every price lookup: it measures trading performance
    net of the owner's own cash movements. *)
Theorem pnl_cash_neutral p a s :
  pnl p (py_run (deposit a) s).2 = pnl p s /\ pnl p (py_run (withdraw a) s).2 = pnl p s.
Proof.
  rewrite deposit_run, withdraw_run, !pnl_eq.
  split; guards; cbn; rewrite ?pnl_eq; f_equal; lia.
Qed.

(** C9: a buy or a sell priced by the same lookup that values the
    portfolio leaves the profit or loss unchanged: cash and holdings value
    move by the same amount. *)
Theorem pnl_trade_neutral p symbol n s :
  dict_wf (holdings s) ->
  pnl p (py_run (buy_shares p symbol n) s).2 = pnl p s /\
  pnl p (py_run (sell_shares p symbol n) s).2 = pnl p s.
Proof.
  intros Hwf. rewrite buy_run, sell_run, !pnl_eq.
  split; guards; cbn; rewrite ?pnl_eq; f_equal; unfold buy_holdings, sell_holdings.
  - rewrite hv_setitem. lia.
  - destruct (_ =? 0) eqn:E; zbool.
    + rewrite hv_remove, hv_setitem, dict_get_setitem_eq by auto with py. lia.
    + rewrite hv_setitem. lia.
Qed.

Lemma pnl_trade_neutral_witness :
  dict_wf (holdings (init "acct" 1000)) /\
  pnl get_share_price (py_run (buy_shares get_share_price "AAPL" 2) (init "acct" 1000)).2 =
    pnl get_share_price (init "acct" 1000) /\
  pnl get_share_price (py_run (sell_shares get_share_price "AAPL" 2) (init "acct" 1000)).2 =
    pnl get_share_price (init "acct" 1000).
Proof.
  split; [apply dict_wf_nil|]. apply pnl_trade_neutral. apply dict_wf_nil.
Defined.
End ProfitLoss.

(** ** The spec's scenarios and the case of symbols *)

Section Scenarios.

(** The quantity held under exactly this key, [holdings.get(symbol, 0)]. *)
Definition position (s : @Account Z) (symbol : string) : Z := dict_get (holdings s) symbol 0.

(** The spec's scenarios A to E (section 8) hold for the 4o account
    with its own price table: from [Account("acct", 1000)], buying 2 AAPL
    at 150 leaves 700 and [{AAPL: 2}] with two transactions; withdrawing
    800 then fails at 700; selling the 2 AAPL returns to 1000 and empty
    holdings; buying MSFT (no price) fails without change; and the profit
    or loss is then 0. *)
Example spec_scenarios :
  let s0 := init "acct" 1000 in
  let '(rA, sA) := py_run (buy_shares get_share_price "AAPL" 2) s0 in
  let '(rB, sB) := py_run (withdraw 800) sA in
  let '(rC, sC) := py_run (sell_shares get_share_price "AAPL" 2) sB in
  let '(rD, sD) := py_run (buy_shares get_share_price "MSFT" 1) sC in
  rA = Return true /\ balance sA = 700 /\ holdings sA = [("AAPL"%string, 2)] /\
  length (transactions sA) = 2%nat /\
  rB = Return false /\ balance sB = 700 /\
  rC = Return true /\ balance sC = 1000 /\ holdings sC = [] /\
  rD = Return false /\ sD = sC /\
  pnl get_share_price sC = Some 0.
Proof. vm_compute. split_and!; reflexivity. Qed.

Lemma dict_get_setitem_ne (h : dict string Z) k k2 v x :
  k <> k2 -> dict_get (dict_setitem h k v) k2 x = dict_get h k2 x.
Proof. intros Hne. unfold dict_get. by rewrite dict_lookup_setitem_ne. Qed.

(** C11: prices are looked up case-insensitively ([symbol.upper()]) but
    holdings are keyed by the symbol exactly as passed.  For every object,
    quantity and symbol that is not upper case, [get_share_price] quotes
    the symbol and its upper-case form alike, and [buy_shares] with the
    default price table either refuses without change or books the
    quantity under the raw symbol and leaves the position of the
    upper-case symbol, the same stock, unchanged: buying "aapl" and then
    "AAPL" opens two positions.  The spec (section 3) has holdings keys
    normalized to upper case. *)
Theorem holdings_keyed_by_raw_symbol symbol q s :
  str_upper symbol <> symbol ->
  get_share_price (A:=Z) symbol = get_share_price (str_upper symbol) /\
  match py_run (buy_shares get_share_price symbol q) s with
  | (Return true, s') =>
      position s' symbol = position s symbol + q /\
      position s' (str_upper symbol) = position s (str_upper symbol)
  | (Return false, s') => s' = s
  | (Raise _, _) => False
  end.
Proof.
  intros Hup. split; [unfold get_share_price; by rewrite str_upper_idem|].
  rewrite buy_run. unfold position. guards; cbn [holdings append_tx set_holdings set_balance]; [done|].
  unfold buy_holdings. rewrite dict_get_setitem_eq, dict_get_setitem_ne by congruence. done.
Qed.

Lemma holdings_keyed_by_raw_symbol_witness :
  str_upper "aapl" <> "aapl" /\
  get_share_price (A:=Z) "aapl" = get_share_price (str_upper "aapl") /\
  (py_run (buy_shares get_share_price "aapl" 1) (init "acct" 1000)).1 = Return true.
Proof.
  assert (Hup : str_upper "aapl" <> "aapl") by (vm_compute; discriminate).
  refine (conj Hup (conj (proj1 (holdings_keyed_by_raw_symbol "aapl" 1 (init "acct" 1000) Hup)) _)).
  vm_compute. reflexivity.
Defined.
End Scenarios.
