(* ===== verification/FloatRefine.v ===== *)
(** * The [4o] account at Python's [float] computes the integer account

    The account theorems are proved at [pynum_Z].  CPython runs the
    methods on doubles.  This file shows that on integral amounts and
    prices whose magnitudes stay below [2^52], the double run of
    [deposit], [withdraw], [buy_shares] and [sell_shares] returns what
    the integer run returns and reaches the image of its state under
    [float(n)]: same guards taken, same holdings, balances and
    transaction fields equal to [float] of the integer ones.  The bound
    keeps every sum, difference and product the methods compute below
    [2^53], where [FloatExact] shows doubles are exact. *)

From Stdlib Require Import ZArith Lia String Floats.
From stdpp Require Import base list strings gmap.
From S2P Require Import Prelude PyNum FloatExact PyDict PyStr Session Holdings Account4o Account4oProps.
Import Account4o FloatExact.

Module FloatRefine.
Open Scope Z_scope.

(** ** The image of an integer account among float accounts *)

Definition tx_to_float (t : @Transaction Z) : @Transaction float :=
  mkTransaction (tx_type t) (float_of_Z (tx_amount t)) (float_of_Z (tx_balance t))
    (tx_symbol t) (tx_quantity t) (option_map float_of_Z (tx_price t))
    (option_map float_of_Z (tx_total t)).

Definition to_float (s : @Account Z) : @Account float :=
  mkAccount (account_id s) (float_of_Z (balance s)) (float_of_Z (net_deposits s))
    (holdings s) (map tx_to_float (transactions s)).

Definition run_to_float {R} (r : outcome R * @Account Z) : outcome R * @Account float :=
  (r.1, to_float r.2).

(** The float run of [mf] from the image of [s] is the image of the
    integer run of [mz] from [s]. *)
Definition refines_float {R} (mf : Py (@Account float) R) (mz : Py (@Account Z) R) (s : @Account Z) : Prop :=
  py_run mf (to_float s) = run_to_float (py_run mz s).

(** Magnitudes below [2^52]: sums and differences of two stay below [2^53]. *)
Definition half (n : Z) : Prop := Z.abs n < 2 ^ 52.

Lemma half_small n : half n -> small n.
Proof. unfold half, small. lia. Qed.

Lemma half_add n m : half n -> half m -> small (n + m).
Proof. unfold half, small. lia. Qed.

Lemma half_sub n m : half n -> half m -> small (n - m).
Proof. unfold half, small. lia. Qed.

(** A factor of a product with a positive other factor is no larger. *)
Lemma half_factor p q : 0 < p -> 0 < q -> half (p * q) -> small q.
Proof. unfold half, small. nia. Qed.

Lemma small_zero : small 0.
Proof. unfold small. lia. Qed.

Create HintDb float_exact.
#[export] Hint Resolve half_small half_add half_sub small_zero : float_exact.

Lemma to_float_balance s : balance (to_float s) = float_of_Z (balance s).
Proof. reflexivity. Qed.

Lemma to_float_net_deposits s : net_deposits (to_float s) = float_of_Z (net_deposits s).
Proof. reflexivity. Qed.

Lemma to_float_holdings s : holdings (to_float s) = holdings s.
Proof. reflexivity. Qed.

(** Image of an accepted call: each assignment and the append commute
    with [to_float]. *)
Lemma to_float_append t s : to_float (append_tx t s) = append_tx (tx_to_float t) (to_float s).
Proof. unfold to_float, append_tx. cbn. by rewrite map_app. Qed.

Ltac image :=
  unfold run_to_float; cbn [orb fst snd];
  rewrite ?to_float_append; reflexivity.

Ltac float_exact :=
  rewrite ?to_float_balance, ?to_float_net_deposits, ?to_float_holdings, ?float_zero, ?float_of_int.

(** ** The four mutators *)

Section Mutators.
Variables (s : @Account Z) (p : string -> Z) (symbol : string) (q a : Z).
Hypotheses (Hb : half (balance s)) (Hn : half (net_deposits s)).

Lemma deposit_refines : half a -> refines_float (deposit (float_of_Z a)) (deposit a) s.
Proof.
  intros Ha. unfold refines_float. rewrite deposit_run_gen, deposit_run. float_exact.
  rewrite float_le by auto with float_exact.
  destruct (a <=? 0); [reflexivity|].
  rewrite !float_add by auto with float_exact. image.
Qed.

Lemma withdraw_refines : half a -> refines_float (withdraw (float_of_Z a)) (withdraw a) s.
Proof.
  intros Ha. unfold refines_float. rewrite withdraw_run_gen, withdraw_run. float_exact.
  rewrite float_le, float_lt by auto with float_exact.
  destruct ((a <=? 0) || (balance s <? a)); [reflexivity|].
  rewrite !float_sub by auto with float_exact. image.
Qed.

(** The trade guards, passed at [float] as at [Z], leave a positive price
    and quantity, whose product is then exact. *)
Lemma trade_factors : half (p symbol) -> half (p symbol * q) ->
  (q <=? 0) = false -> (p symbol <=? 0) = false ->
  small q /\ ((0 <= p symbol /\ 0 <= q) \/ p symbol * q <> 0).
Proof.
  intros Hp Hpq Eq Ep. apply Z.leb_gt in Eq, Ep.
  split; [by apply (half_factor (p symbol))|left; lia].
Qed.

Lemma buy_refines : half (p symbol) -> half (p symbol * q) ->
  refines_float (buy_shares (fun k => float_of_Z (p k)) symbol q) (buy_shares p symbol q) s.
Proof.
  intros Hp Hpq. unfold refines_float. rewrite buy_run_gen, buy_run. cbv zeta. float_exact.
  rewrite float_le by auto with float_exact.
  destruct (q <=? 0) eqn:Eq; [reflexivity|]. destruct (p symbol <=? 0) eqn:Ep; [reflexivity|].
  destruct (trade_factors Hp Hpq Eq Ep) as [Hq Hz]. cbn [orb].
  rewrite float_mul, float_lt by auto with float_exact.
  destruct (balance s <? p symbol * q); [reflexivity|].
  rewrite float_sub by auto with float_exact. image.
Qed.

Lemma sell_refines : half (p symbol) -> half (p symbol * q) ->
  refines_float (sell_shares (fun k => float_of_Z (p k)) symbol q) (sell_shares p symbol q) s.
Proof.
  intros Hp Hpq. unfold refines_float. rewrite sell_run_gen, sell_run. cbv zeta. float_exact.
  rewrite float_le by auto with float_exact.
  destruct (q <=? 0) eqn:Eq; [reflexivity|].
  destruct (dict_get (holdings s) symbol 0 <? q); [reflexivity|].
  destruct (p symbol <=? 0) eqn:Ep; [reflexivity|].
  destruct (trade_factors Hp Hpq Eq Ep) as [Hq Hz].
  rewrite float_mul, float_add by auto with float_exact. image.
Qed.
End Mutators.

(** ** Sequencing *)

Lemma refines_bind {R1 R2} (mf : Py (@Account float) R1) (mz : Py (@Account Z) R1)
    (kf : R1 -> Py (@Account float) R2) (kz : R1 -> Py (@Account Z) R2) s :
  refines_float mf mz s ->
  (forall v s', py_run mz s = (Return v, s') -> refines_float (kf v) (kz v) s') ->
  refines_float (mf ≫= kf) (mz ≫= kz) s.
Proof.
  unfold refines_float. intros Hm Hk. rewrite !py_run_bind, Hm.
  destruct (py_run mz s) as [[v|e] s'] eqn:E; cbn; [by apply Hk|reflexivity].
Qed.

(** [Account(account_id, float(d))] is the image of [Account(account_id, d)]. *)
Lemma init_refines account_id d : half d -> init account_id (float_of_Z d) = to_float (init account_id d).
Proof.
  intros Hd. unfold init, py_max0, py_truthy. rewrite float_zero, float_lt by auto with float_exact.
  cbn [py_zero py_lt py_eq pynum_Z]. destruct (0 <? d);
    rewrite float_eq by auto with float_exact; [destruct (d =? 0)|]; reflexivity.
Qed.

(** A script of mutator calls, with the price table [p] every trade uses;
    the amounts are integers, passed to the [float] account as [float(n)]. *)
Inductive Mut :=
| MDeposit (amount : Z)
| MWithdraw (amount : Z)
| MBuy (symbol : string) (quantity : Z)
| MSell (symbol : string) (quantity : Z).

Section Script.
Variable p : string -> Z.

Definition mut_call {A} `{PyNum A} (inj : Z -> A) (m : Mut) : Py (@Account A) bool :=
  match m with
  | MDeposit a => deposit (inj a)
  | MWithdraw a => withdraw (inj a)
  | MBuy symbol q => buy_shares (fun k => inj (p k)) symbol q
  | MSell symbol q => sell_shares (fun k => inj (p k)) symbol q
  end.

Fixpoint run_script {A} `{PyNum A} (inj : Z -> A) (ms : list Mut) : Py (@Account A) (list bool) :=
  match ms with
  | [] => mret []
  | m :: ms => b ← mut_call inj m; bs ← run_script inj ms; mret (b :: bs)
  end.

Definition mut_bound (m : Mut) : Prop :=
  match m with
  | MDeposit a | MWithdraw a => half a
  | MBuy symbol q | MSell symbol q => half (p symbol) /\ half (p symbol * q)
  end.

(** Every integer state the script passes through, and every amount it
    computes from its arguments, stays below [2^52]. *)
Fixpoint bounded_run (ms : list Mut) (s : @Account Z) : Prop :=
  half (balance s) /\ half (net_deposits s) /\
  match ms with
  | [] => True
  | m :: ms => mut_bound m /\ bounded_run ms (py_run (mut_call (fun n => n) m) s).2
  end.

Lemma mut_refines m s :
  half (balance s) -> half (net_deposits s) -> mut_bound m ->
  refines_float (mut_call float_of_Z m) (mut_call (fun n => n) m) s.
Proof.
  intros Hb Hn Hm. destruct m; cbn [mut_call mut_bound] in *.
  - by apply deposit_refines.
  - by apply withdraw_refines.
  - destruct Hm. by apply buy_refines.
  - destruct Hm. by apply sell_refines.
Qed.

Lemma script_refines ms s :
  bounded_run ms s -> refines_float (run_script float_of_Z ms) (run_script (fun n => n) ms) s.
Proof.
  revert s. induction ms as [|m ms IH]; intros s (Hb & Hn & Hr); [reflexivity|].
  destruct Hr as [Hm Hr]. cbn [run_script].
  apply refines_bind; [by apply mut_refines|]. intros v s' E.
  apply refines_bind; [apply IH; by rewrite E in Hr|]. intros; reflexivity.
Qed.
End Script.

(** C10: the [4o] account run at Python's [float] computes the integer
    account.  From [Account(account_id, float(d))], every script of
    [deposit], [withdraw], [buy_shares] and [sell_shares] calls on
    integral amounts, quantities and prices returns the same booleans as
    the run at exact integers from [Account(account_id, d)] and ends in
    its image: the same holdings and log entries, and balances, net
    deposits and logged amounts equal to [float] of the integer ones,
    provided every balance, net deposit, amount, price and trade total
    the integer run meets stays below [2^52] in magnitude. *)
Theorem float_4o_script_refines (p : string -> Z) account_id d ms :
  half d -> bounded_run p ms (init account_id d) ->
  py_run (run_script p float_of_Z ms) (init account_id (float_of_Z d)) =
  run_to_float (py_run (run_script p (fun n => n) ms) (init account_id d)).
Proof. intros Hd Hr. rewrite init_refines by done. by apply script_refines. Qed.

Definition trading_script : list Mut :=
  [MDeposit 500; MBuy "AAPL" 2; MSell "aapl" 1; MSell "AAPL" 1; MWithdraw 2000; MWithdraw 100].

Lemma float_4o_script_refines_witness :
  half 1000 /\ bounded_run get_share_price trading_script (init "acct" 1000) /\
  py_run (run_script get_share_price float_of_Z trading_script) (init "acct" (float_of_Z 1000)) =
  run_to_float (py_run (run_script get_share_price (fun n => n) trading_script) (init "acct" 1000)) /\
  (py_run (run_script get_share_price (fun n => n) trading_script) (init "acct" 1000)).1 =
    Return [true; true; false; true; false; true].
Proof.
  assert (Hd : half 1000) by (unfold half; lia).
  assert (Hr : bounded_run get_share_price trading_script (init "acct" 1000))
    by (vm_compute; repeat split).
  split_and!; [exact Hd|exact Hr|apply (float_4o_script_refines _ _ _ _ Hd Hr)|vm_compute; reflexivity].
Defined.
End FloatRefine.
