(* ===== verification/AccountMini.v ===== *)
(** * [example_output_mini/accounts.py]: the account that raises

    This variant signals every precondition failure of [withdraw],
    [buy_shares] and [sell_shares] by [raise ValueError(...)], ignores a
    non-positive [deposit] silently, stores the constructor's
    [initial_deposit] unclamped as the profit baseline, looks prices up
    case-sensitively in a fixed table, and keeps its transactions as plain
    dicts.  [Module AccountMini] models each method statement by statement
    over a [PyNum] instance; the two reports are parameterized by the
    formatting of a float with [.2f] ([fmt2]), which the structure of the
    reports does not depend on.

    The properties (file [AccountMiniProps.v]) are proved at [pynum_Z]. *)

From Stdlib Require Import ZArith Lia String.
From stdpp Require Import base list strings gmap.
From S2P Require Import Prelude PyNum PyDict PyStr Session.

Module AccountMini.
Section Defs.
Context {A : Type} `{PyNum A}.

(** [get_share_price]: no case normalization. *)
Definition prices : dict string A :=
  [("AAPL", py_of_int 150); ("TSLA", py_of_int 700); ("GOOGL", py_of_int 2800)].

Definition get_share_price (symbol : string) : A := dict_get prices symbol py_zero.

(** The two shapes of transaction dict the methods append:
    [{'type', 'amount'}] and [{'type', 'symbol', 'quantity', 'price'}]. *)
Inductive Tx :=
| CashTx (type : string) (amount : A)
| TradeTx (type : string) (symbol : string) (quantity : Z) (price : A).

Definition tx_type (t : Tx) : string :=
  match t with CashTx ty _ => ty | TradeTx ty _ _ _ => ty end.

Record Account := mkAccount {
  user_id : string;
  initial_deposit : A;
  balance : A;
  holdings : dict string Z;
  transactions : list Tx;
}.

Definition set_balance (b : A) (s : Account) : Account :=
  mkAccount s.(user_id) s.(initial_deposit) b s.(holdings) s.(transactions).
Definition set_holdings (h : dict string Z) (s : Account) : Account :=
  mkAccount s.(user_id) s.(initial_deposit) s.(balance) h s.(transactions).
Definition append_tx (t : Tx) (s : Account) : Account :=
  mkAccount s.(user_id) s.(initial_deposit) s.(balance) s.(holdings) (s.(transactions) ++ [t]).

Definition holdings_getitem (symbol : string) : Py Account Z :=
  s ← py_get;
  match dict_lookup s.(holdings) symbol with
  | Some q => mret q
  | None => py_raise (KeyError symbol)
  end.

Definition holdings_delitem (symbol : string) : Py Account unit :=
  s ← py_get;
  match dict_delitem s.(holdings) symbol with
  | Some h => py_put (set_holdings h s)
  | None => py_raise (KeyError symbol)
  end.

(** [__init__(self, user_id, initial_deposit)] *)
Definition init (user_id : string) (initial_deposit : A) : Account :=
  mkAccount user_id initial_deposit initial_deposit [] [].

(** [deposit(self, amount) -> None] *)
Definition deposit (amount : A) : Py Account unit :=
  if py_lt py_zero amount then
    py_modify (fun s => set_balance (py_add s.(balance) amount) s);;
    py_modify (append_tx (CashTx "deposit" amount))
  else mret tt.

(** [withdraw(self, amount) -> None] *)
Definition withdraw (amount : A) : Py Account unit :=
  if py_le amount py_zero then py_raise (ValueError "Withdrawal amount must be positive") else
  s ← py_get;
  if py_lt s.(balance) amount then py_raise (ValueError "Insufficient funds") else
  py_modify (fun s => set_balance (py_sub s.(balance) amount) s);;
  py_modify (append_tx (CashTx "withdraw" amount)).

(** [buy_shares(self, symbol, quantity) -> None] *)
Definition buy_shares (symbol : string) (quantity : Z) : Py Account unit :=
  if (quantity <=? 0)%Z then py_raise (ValueError "Quantity must be positive") else
  let price := get_share_price symbol in
  if py_eq price py_zero then py_raise (ValueError ("Invalid stock symbol: " ++ symbol)) else
  let total_cost := py_mul price (py_of_int quantity) in
  s ← py_get;
  if py_lt s.(balance) total_cost then py_raise (ValueError "Insufficient funds to buy shares") else
  py_modify (fun s => set_balance (py_sub s.(balance) total_cost) s);;
  py_modify (fun s => set_holdings
    (dict_setitem s.(holdings) symbol (dict_get s.(holdings) symbol 0 + quantity)%Z) s);;
  py_modify (append_tx (TradeTx "buy" symbol quantity price)).

(** [sell_shares(self, symbol, quantity) -> None] *)
Definition sell_shares (symbol : string) (quantity : Z) : Py Account unit :=
  if (quantity <=? 0)%Z then py_raise (ValueError "Quantity must be positive") else
  s ← py_get;
  if (dict_get s.(holdings) symbol 0 <? quantity)%Z then
    py_raise (ValueError ("Insufficient shares of " ++ symbol ++ " to sell")) else
  let price := get_share_price symbol in
  let total_revenue := py_mul price (py_of_int quantity) in
  py_modify (fun s => set_balance (py_add s.(balance) total_revenue) s);;
  q ← holdings_getitem symbol;
  py_modify (fun s => set_holdings (dict_setitem s.(holdings) symbol (q - quantity)%Z) s);;
  q' ← holdings_getitem symbol;
  (if (q' =? 0)%Z then holdings_delitem symbol else mret tt);;
  py_modify (append_tx (TradeTx "sell" symbol quantity price)).

(** [portfolio_value(self)]: the loop starts from the balance. *)
Definition portfolio_value : Py Account A :=
  s ← py_get;
  mret (fold_left (fun total '(symbol, qty) =>
    py_add total (py_mul (get_share_price symbol) (py_of_int qty))) s.(holdings) s.(balance)).

(** [profit_or_loss(self)] *)
Definition profit_or_loss : Py Account A :=
  v ← portfolio_value;
  s ← py_get;
  mret (py_sub v s.(initial_deposit)).

Section Reports.
(** [format(x, '.2f')] for a float. *)
Variable fmt2 : A -> string.

(** [report_holdings(self) -> str] *)
Definition report_holdings : Py Account string :=
  s ← py_get;
  match s.(holdings) with
  | [] => mret "No holdings"
  | h => mret (py_join ", " (map (fun '(symbol, qty) =>
      symbol ++ ": " ++ py_str_int qty ++ " shares @ $" ++ fmt2 (get_share_price symbol) ++ " each")
      h))
  end%string.

(** [trans['amount']], [trans['quantity']], ...: a key the dict lacks
    raises [KeyError]. *)
Definition item_amount (t : Tx) : Py Account A :=
  match t with CashTx _ a => mret a | _ => py_raise (KeyError "amount") end.
Definition item_symbol (t : Tx) : Py Account string :=
  match t with TradeTx _ sy _ _ => mret sy | _ => py_raise (KeyError "symbol") end.
Definition item_quantity (t : Tx) : Py Account Z :=
  match t with TradeTx _ _ q _ => mret q | _ => py_raise (KeyError "quantity") end.
Definition item_price (t : Tx) : Py Account A :=
  match t with TradeTx _ _ _ p => mret p | _ => py_raise (KeyError "price") end.

(** The [if]/[elif] chain for one transaction: the line it appends, if
    any; the f-string reads its items left to right. *)
Definition tx_line (t : Tx) : Py Account (option string) :=
  (let ty := tx_type t in
  if String.eqb ty "deposit" then
    a ← item_amount t; mret (Some ("Deposit: $" ++ fmt2 a))
  else if String.eqb ty "withdraw" then
    a ← item_amount t; mret (Some ("Withdraw: $" ++ fmt2 a))
  else if String.eqb ty "buy" then
    q ← item_quantity t; sy ← item_symbol t; p ← item_price t;
    mret (Some ("Buy: " ++ py_str_int q ++ " shares of " ++ sy ++ " @ $" ++ fmt2 p))
  else if String.eqb ty "sell" then
    q ← item_quantity t; sy ← item_symbol t; p ← item_price t;
    mret (Some ("Sell: " ++ py_str_int q ++ " shares of " ++ sy ++ " @ $" ++ fmt2 p))
  else mret None)%string.

Fixpoint report_lines (ts : list Tx) : Py Account (list string) :=
  match ts with
  | [] => mret []
  | t :: ts' =>
      o ← tx_line t;
      rest ← report_lines ts';
      mret (match o with Some l => l :: rest | None => rest end)
  end.

(** [report_transactions(self) -> list] *)
Definition report_transactions : Py Account (list string) :=
  s ← py_get; report_lines s.(transactions).
End Reports.

(** A caller's view of the class. *)
Inductive Call :=
| CallDeposit (amount : A)
| CallWithdraw (amount : A)
| CallBuy (symbol : string) (quantity : Z)
| CallSell (symbol : string) (quantity : Z)
| CallPortfolioValue
| CallProfitOrLoss.

Inductive Reply :=
| RNone
| RNumber (x : A).

Definition call (c : Call) : Py Account Reply :=
  match c with
  | CallDeposit a => (fun _ => RNone) <$> deposit a
  | CallWithdraw a => (fun _ => RNone) <$> withdraw a
  | CallBuy sym q => (fun _ => RNone) <$> buy_shares sym q
  | CallSell sym q => (fun _ => RNone) <$> sell_shares sym q
  | CallPortfolioValue => RNumber <$> portfolio_value
  | CallProfitOrLoss => RNumber <$> profit_or_loss
  end.
End Defs.
End AccountMini.
