(* ===== verification/AccountMiniProps.v ===== *)
(** * Properties of [example_output_mini/accounts.py]

    Proved at the exact instance [pynum_Z].
    - Run lemmas: each method's outcome, a [ValueError] with the source's
      message on every precondition failure.
    - The invariant [mini_inv], for objects built with a non-negative
      initial deposit: non-negative balance, positive and priced holdings,
      balance and positions agreeing with the log, a log of the four
      well-shaped kinds.
    - Error behaviour: only [ValueError] is raised, always before any
      attribute is assigned.
    - Refinement of the ledger contract on balance and holdings.
    - The reports, and the two places the class departs from the spec: an
      unclamped negative opening balance and a profit baseline that counts
      deposits as profit. *)

From Stdlib Require Import ZArith Lia String.
From stdpp Require Import base list strings gmap.
From S2P Require Import Prelude PyNum PyDict PyStr Session LedgerSpec Holdings AccountMini.
Import AccountMini.

Open Scope Z_scope.

(** ** Run lemmas *)

Section Run.
Implicit Types (s : @Account Z).

Lemma mini_deposit_run a s :
  py_run (deposit a) s =
  if 0 <? a then (Return tt, append_tx (CashTx "deposit" a) (set_balance (balance s + a) s))
  else (Return tt, s).
Proof. unfold deposit. cbn. destruct (0 <? a); reflexivity. Qed.

Lemma mini_withdraw_run a s :
  py_run (withdraw a) s =
  if a <=? 0 then (Raise (ValueError "Withdrawal amount must be positive"), s)
  else if balance s <? a then (Raise (ValueError "Insufficient funds"), s)
  else (Return tt, append_tx (CashTx "withdraw" a) (set_balance (balance s - a) s)).
Proof. unfold withdraw. cbn. destruct (a <=? 0); cbn; [reflexivity|]. by destruct (balance s <? a). Qed.

Lemma mini_buy_run symbol q s :
  py_run (buy_shares symbol q) s =
  if q <=? 0 then (Raise (ValueError "Quantity must be positive"), s)
  else if get_share_price symbol =? 0 then
    (Raise (ValueError ("Invalid stock symbol: " ++ symbol)), s)
  else if balance s <? get_share_price symbol * q then
    (Raise (ValueError "Insufficient funds to buy shares"), s)
  else (Return tt,
    append_tx (TradeTx "buy" symbol q (get_share_price symbol))
      (set_holdings (buy_holdings (holdings s) symbol q)
        (set_balance (balance s - get_share_price symbol * q) s))).
Proof.
  unfold buy_shares. cbn. destruct (q <=? 0); cbn; [reflexivity|].
  destruct (get_share_price symbol =? 0); cbn; [reflexivity|].
  by destruct (balance s <? get_share_price symbol * q).
Qed.

Lemma mini_sell_run symbol q s :
  py_run (sell_shares symbol q) s =
  if q <=? 0 then (Raise (ValueError "Quantity must be positive"), s)
  else if dict_get (holdings s) symbol 0 <? q then
    (Raise (ValueError ("Insufficient shares of " ++ symbol ++ " to sell")), s)
  else (Return tt,
    append_tx (TradeTx "sell" symbol q (get_share_price symbol))
      (set_holdings (sell_holdings (holdings s) symbol q)
        (set_balance (balance s + get_share_price symbol * q) s))).
Proof.
  unfold sell_shares. cbn. destruct (q <=? 0) eqn:Hq; cbn; [reflexivity|].
  destruct (dict_get (holdings s) symbol 0 <? q) eqn:Hg; cbn; [reflexivity|]. zbool.
  rewrite (dict_get_pos_lookup _ _ q) by lia. cbn.
  rewrite dict_lookup_setitem_eq. cbn. unfold sell_holdings.
  destruct (dict_get (holdings s) symbol 0 - q =? 0); cbn; [|reflexivity].
  rewrite dict_delitem_setitem. reflexivity.
Qed.
End Run.

(** ** The invariant *)

Section Inv.
Implicit Types (s : @Account Z) (t : @Tx Z) (h : dict string Z).

(** Effect of a logged transaction on the balance. *)
Definition tx_delta t : Z :=
  match t with
  | CashTx ty a => if String.eqb ty "deposit" then a else - a
  | TradeTx ty _ q p => if String.eqb ty "sell" then p * q else - (p * q)
  end.

(** Effect on the position in [k]. *)
Definition position_delta (k : string) t : Z :=
  match t with
  | CashTx _ _ => 0
  | TradeTx ty sy q _ => if decide (sy = k) then (if String.eqb ty "buy" then q else - q) else 0
  end.

(** The dict shapes the methods append, with their types. *)
Definition tx_ok t : bool :=
  match t with
  | CashTx ty _ => String.eqb ty "deposit" || String.eqb ty "withdraw"
  | TradeTx ty _ _ _ => String.eqb ty "buy" || String.eqb ty "sell"
  end.

Definition priced_holdings h : Prop := keys_satisfy (fun k => get_share_price (A:=Z) k <> 0) h.

Record mini_inv s : Prop := {
  mi_balance_nonneg : 0 <= balance s;
  mi_wf : dict_wf (holdings s);
  mi_pos : positive_holdings (holdings s);
  mi_priced : priced_holdings (holdings s);
  mi_balance_log : balance s = initial_deposit s + zsum tx_delta (transactions s);
  mi_position_log : forall k, dict_get (holdings s) k 0 = zsum (position_delta k) (transactions s);
  mi_log_ok : Forall (fun t => tx_ok t = true) (transactions s);
}.

Lemma mini_inv_step s s' t :
  mini_inv s ->
  transactions s' = transactions s ++ [t] ->
  initial_deposit s' = initial_deposit s ->
  balance s' = balance s + tx_delta t ->
  0 <= balance s' ->
  dict_wf (holdings s') -> positive_holdings (holdings s') -> priced_holdings (holdings s') ->
  (forall k, dict_get (holdings s') k 0 = dict_get (holdings s) k 0 + position_delta k t) ->
  tx_ok t = true ->
  mini_inv s'.
Proof.
  intros [] Htx Hd Hb Hnn Hwf Hpos Hpr Hget Hok. constructor; auto; rewrite ?Htx.
  - rewrite zsum_snoc. lia.
  - intros k. rewrite Hget, mi_position_log0, zsum_snoc. lia.
  - apply Forall_app. auto.
Qed.

(** The states [Account(user_id, initial_deposit)] builds with a
    non-negative initial deposit. *)
Definition constructed_nonneg s : Prop :=
  exists user_id d, 0 <= d /\ s = init user_id d.

Lemma init_mini_inv user_id d : 0 <= d -> mini_inv (init user_id d).
Proof. intros Hd. constructor; cbn; auto with py; try done. unfold zsum. cbn. lia. Qed.

Definition preserves {R} (m : Py (@Account Z) R) : Prop :=
  forall s o s', mini_inv s -> py_run m s = (o, s') -> mini_inv s'.

Ltac step_inv :=
  eapply mini_inv_step; [eassumption|reflexivity|reflexivity|..]; cbn;
  lazymatch goal with |- forall k : string, _ => intros k | _ => idtac end;
  try reflexivity.

Lemma mini_deposit_preserves a : preserves (deposit a).
Proof.
  intros s o s' Hinv. rewrite mini_deposit_run. pose proof (mi_balance_nonneg _ Hinv).
  guards; intros [= <- <-]; [|done].
  step_inv; try lia; eauto using mi_wf, mi_pos, mi_priced.
Qed.

Lemma mini_withdraw_preserves a : preserves (withdraw a).
Proof.
  intros s o s' Hinv. rewrite mini_withdraw_run. guards; intros [= <- <-]; try done.
  step_inv; try lia; eauto using mi_wf, mi_pos, mi_priced.
Qed.

Lemma mini_buy_preserves symbol q : preserves (buy_shares symbol q).
Proof.
  intros s o s' Hinv. rewrite mini_buy_run. guards; intros [= <- <-]; try done.
  pose proof (mi_pos _ Hinv). step_inv; try lia.
  - apply dict_setitem_wf, (mi_wf _ Hinv).
  - by apply buy_holdings_pos.
  - apply buy_holdings_keys; [apply (mi_priced _ Hinv)|lia].
  - rewrite buy_holdings_get. case_decide; subst; [rewrite decide_True|rewrite decide_False]; auto; lia.
Qed.

Lemma mini_sell_preserves symbol q : preserves (sell_shares symbol q).
Proof.
  intros s o s' Hinv. rewrite mini_sell_run. guards; intros [= <- <-]; try done.
  pose proof (mi_wf _ Hinv). pose proof (mi_pos _ Hinv). pose proof (mi_balance_nonneg _ Hinv).
  assert (0 <= get_share_price (A:=Z) symbol) by (unfold get_share_price, dict_get; cbn;
    repeat case_decide; lia).
  step_inv; try nia.
  - unfold sell_holdings. destruct (_ =? 0); auto with py.
  - apply sell_holdings_pos; auto; lia.
  - apply sell_holdings_keys; [done|apply (mi_priced _ Hinv)|lia|lia].
  - rewrite sell_holdings_get by done.
    case_decide; subst; [rewrite decide_True|rewrite decide_False]; auto; lia.
Qed.

Lemma mini_call_preserves c : preserves (call c).
Proof.
  intros s o s' Hinv. destruct c; cbn [call]; rewrite py_run_fmap.
  5-6: cbn; intros [= _ <-]; done.
  all: destruct (py_run _ s) as [o' s''] eqn:E; intros Heq;
    assert (s'' = s') as <- by (destruct o'; congruence).
  - by eapply mini_deposit_preserves.
  - by eapply mini_withdraw_preserves.
  - by eapply mini_buy_preserves.
  - by eapply mini_sell_preserves.
Qed.
End Inv.

(** ** Claims *)

Section Claims.
Implicit Types (s : @Account Z).

Definition is_value_error (e : PyExc) : bool :=
  match e with ValueError _ => true | _ => false end.

(** A call either returns, or raises a [ValueError] leaving the object as
    it was. *)
Definition atomic_failure {R} (r : outcome R * @Account Z) s : Prop :=
  match r.1 with
  | Raise e => is_value_error e = true /\ r.2 = s
  | Return _ => True
  end.

(** C12: every object built by [Account(user_id, initial_deposit)] with
    [initial_deposit >= 0] and then driven by any calls keeps a
    non-negative balance, a duplicate-free dict of positive and priced
    holdings, a balance and positions that agree with the log, and a log
    of well-shaped deposit, withdraw, buy and sell dicts. *)
Theorem reachable_mini_inv s : reachable call constructed_nonneg s -> mini_inv s.
Proof.
  apply reachable_ind_inv.
  - intros ? (u & d & Hd & ->). by apply init_mini_inv.
  - intros s1 s2 Hinv (c & o & E). by eapply mini_call_preserves.
Qed.

Lemma reachable_mini_inv_witness :
  reachable call constructed_nonneg
    (run_calls call [CallBuy "AAPL" 2; CallWithdraw 800] (init "u" 1000)).2 /\
  mini_inv (run_calls call [CallBuy "AAPL" 2; CallWithdraw 800] (init "u" 1000)).2.
Proof.
  assert (Hr : reachable call constructed_nonneg
    (run_calls call [CallBuy "AAPL" 2; CallWithdraw 800] (init "u" 1000)).2).
  { apply run_calls_reachable, reach_init. exists "u"%string, 1000. split; [lia|reflexivity]. }
  split; [exact Hr | apply (reachable_mini_inv _ Hr)].
Defined.

(** C13: the mini [Account] raises only [ValueError] (never [KeyError],
    whatever its state), and raises before assigning any attribute: a call
    that raises leaves the object unchanged. *)
Theorem mini_failures_atomic c s : atomic_failure (py_run (call c) s) s.
Proof.
  unfold atomic_failure. destruct c; cbn [call]; rewrite py_run_fmap;
    rewrite ?mini_deposit_run, ?mini_withdraw_run, ?mini_buy_run, ?mini_sell_run; guards; cbn; auto.
Qed.
End Claims.

(** ** Refinement of the ledger contract on balance and holdings *)

Section Refinement.
Implicit Types (s : @Account Z).

Lemma mini_price_nonneg k : 0 <= get_share_price (A:=Z) k.
Proof. unfold get_share_price, dict_get. cbn. repeat case_decide; lia. Qed.

(** The contract's view of a mini account: it keeps no net deposits apart
    from the initial deposit and no balance snapshots. *)
Definition abs s : LedgerSpec.Ledger :=
  LedgerSpec.mkLedger (balance s) (initial_deposit s) (to_map (holdings s)) [].

Definition agrees s (l : LedgerSpec.Ledger) : Prop :=
  balance s = LedgerSpec.l_balance l /\ to_map (holdings s) = LedgerSpec.l_holdings l.

Definition raised_value_error (o : outcome unit) : bool :=
  match o with Raise (ValueError _) => true | _ => false end.

Definition returned_none (o : outcome unit) : bool :=
  match o with Return _ => true | Raise _ => false end.

(** A method refines a contract operation when, on every object satisfying
    the invariant, it moves to a state with the operation's balance and
    holdings when the operation applies, and otherwise reports the failure
    as [fails] accepts without changing the object. *)
Definition refines (m : Py (@Account Z) unit) (op : LedgerSpec.Ledger -> option LedgerSpec.Ledger)
    (fails : outcome unit -> bool) : Prop :=
  forall s, mini_inv s ->
  match op (abs s) with
  | Some l => exists s', py_run m s = (Return tt, s') /\ agrees s' l
  | None => fails (py_run m s).1 = true /\ (py_run m s).2 = s
  end.

Lemma mini_held_abs s symbol : LedgerSpec.held (abs s) symbol = dict_get (holdings s) symbol 0.
Proof. unfold LedgerSpec.held. cbn. by rewrite to_map_get. Qed.

(** A held symbol has a price. *)
Lemma held_priced s symbol q :
  mini_inv s -> 0 < q -> q <= dict_get (holdings s) symbol 0 -> 0 < get_share_price (A:=Z) symbol.
Proof.
  intros Hinv Hq Hle. pose proof (mini_price_nonneg symbol).
  assert (get_share_price (A:=Z) symbol <> 0)
    by exact (mi_priced _ Hinv _ _ (dict_get_pos_lookup _ _ _ Hq Hle)).
  lia.
Qed.

(** C14: the mini methods refine the ledger contract with the class's own
    price table on balance and holdings, on every object satisfying its
    invariant: [withdraw], [buy_shares] and [sell_shares] reach the
    contract's balance and holdings map when its preconditions hold and
    raise [ValueError] without any change when they do not, and [deposit]
    ignores a non-positive amount silently.  In particular the missing
    price check of [sell_shares] is harmless: every held symbol is
    priced. *)
Theorem mini_mutators_refine_spec symbol n a :
  refines (deposit a) (LedgerSpec.deposit a) returned_none /\
  refines (withdraw a) (LedgerSpec.withdraw a) raised_value_error /\
  refines (buy_shares symbol n) (LedgerSpec.buy get_share_price symbol n) raised_value_error /\
  refines (sell_shares symbol n) (LedgerSpec.sell get_share_price symbol n) raised_value_error.
Proof.
  pose proof (mini_price_nonneg symbol).
  split_and!; intros s Hinv;
    unfold LedgerSpec.deposit, LedgerSpec.withdraw, LedgerSpec.buy, LedgerSpec.sell;
    rewrite ?mini_deposit_run, ?mini_withdraw_run, ?mini_buy_run, ?mini_sell_run, ?mini_held_abs; cbn;
    pose proof (held_priced s symbol n Hinv);
    guards; try (split; reflexivity);
    (eexists; split; [reflexivity|]); unfold agrees, LedgerSpec.logged; cbn; (split; [lia|]);
    unfold buy_holdings; rewrite ?to_map_setitem, ?sell_holdings_map by apply (mi_wf _ Hinv);
    guards; done.
Qed.
End Refinement.

(** ** Reports and departures from the spec *)

Section Reports.
Implicit Types (s : @Account Z).
Variable fmt2 : Z -> string.

Lemma tx_line_ok t s :
  tx_ok t = true -> exists line, py_run (tx_line fmt2 t) s = (Return (Some line), s).
Proof.
  destruct t as [ty a|ty sy q p]; cbn; intros Hok; apply orb_true_iff in Hok as [Hty|Hty];
    apply String.eqb_eq in Hty; subst ty; cbn; eauto.
Qed.

Lemma report_lines_ok ts s :
  Forall (fun t => tx_ok t = true) ts ->
  exists lines, py_run (report_lines fmt2 ts) s = (Return lines, s) /\ length lines = length ts.
Proof.
  induction 1 as [|t ts Ht Hts IH]; [by exists []|].
  destruct (tx_line_ok t s Ht) as [line Hline]. destruct IH as (lines & Hrun & Hlen).
  exists (line :: lines). cbn [report_lines]. rewrite py_run_bind, Hline. cbv beta.
  rewrite py_run_bind, Hrun. cbn. split; [done|]. lia.
Qed.

(** C15: on every object satisfying the invariant, [report_transactions]
    does not raise (no [KeyError] on a missing dict key), leaves the object
    unchanged and returns exactly one line per logged transaction, whatever
    the float formatting. *)
Theorem mini_report_transactions s :
  mini_inv s ->
  exists lines, py_run (report_transactions fmt2) s = (Return lines, s) /\
    length lines = length (transactions s).
Proof. intros Hinv. apply report_lines_ok, (mi_log_ok _ Hinv). Qed.
End Reports.

Lemma mini_report_transactions_witness :
  mini_inv (init "u" 1000) /\
  exists lines, py_run (report_transactions fmt2_int) (init "u" 1000) = (Return lines, init "u" 1000) /\
    length lines = length (transactions (init (A:=Z) "u" 1000)).
Proof.
  assert (Hinv : mini_inv (init "u" 1000)) by (apply init_mini_inv; lia).
  split; [exact Hinv | apply (mini_report_transactions fmt2_int _ Hinv)].
Defined.

Section Departures.
Implicit Types (s : @Account Z).

(** What [profit_or_loss] returns. *)
Definition pnl s : option Z := returned (py_run profit_or_loss s).1.

Lemma mini_pnl_eq s : pnl s = Some (balance s + hv get_share_price (holdings s) - initial_deposit s).
Proof. unfold pnl. cbn. by rewrite fold_value. Qed.

(** C16: [profit_or_loss] is measured against the constructor's
    [initial_deposit] only, so every later deposit of [a > 0] raises the
    reported profit by [a].  The spec (section 4.6) measures profit against
    net deposits, which a deposit leaves unchanged. *)
Theorem mini_pnl_counts_deposits a s :
  0 < a -> pnl (py_run (deposit a) s).2 = (fun x => x + a) <$> pnl s.
Proof.
  intros Ha. rewrite mini_deposit_run, !mini_pnl_eq. guards. cbn. f_equal. lia.
Qed.

Lemma mini_pnl_counts_deposits_witness :
  0 < 100 /\ pnl (py_run (deposit 100) (init "u" 1000)).2 = (fun x => x + 100) <$> pnl (init "u" 1000).
Proof. split; [lia|]. apply mini_pnl_counts_deposits. lia. Defined.

(** the constructor stores a negative [initial_deposit] as the
    balance: [Account("u", -100)] is a reachable object with balance
    [-100], breaking the invariant; the spec (section 4.1) clamps a
    negative initial deposit to 0. *)
Example mini_negative_opening_balance :
  reachable call (fun s => exists u d, s = init u d) (init "u" (-100)) /\
  balance (init (A:=Z) "u" (-100)) < 0 /\ ~ mini_inv (init "u" (-100)).
Proof.
  split_and!.
  - apply reach_init. by exists "u"%string, (-100).
  - cbn. lia.
  - intros Hinv. pose proof (mi_balance_nonneg _ Hinv). cbn in *. lia.
Qed.
End Departures.
