(* ===== verification/AccountNew.v ===== *)
(** * [example_output_new/accounts.py]: the account with a shared log

    This variant returns booleans from [withdraw_funds], [buy_shares] and
    [sell_shares], returns nothing from [deposit_funds], looks prices up
    as [symbol.upper()], checks the price before the quantity in
    [buy_shares], logs withdrawals with type ['withdrawal'], and keeps its
    transactions as dict objects.  [get_transactions] returns
    [list(self.transactions)]: a new list, but of the same dict objects.

    Because a caller can mutate those dicts, they are modelled as objects
    of a heap shared by the account and its callers: the object's
    [transactions] attribute is a list of references ([loc]) into
    [heap], and every method runs in the [Py] monad over the whole
    [World] (heap, allocator and the account's attributes).  [Module
    AccountNew] models every method statement by statement over a [PyNum]
    instance. *)

From Stdlib Require Import ZArith Lia String.
From stdpp Require Import base list strings gmap.
From S2P Require Import Prelude PyNum PyDict PyStr Session.

Module AccountNew.
Section Defs.
Context {A : Type} `{PyNum A}.

(** [get_share_price]: looked up as [symbol.upper()]. *)
Definition prices : dict string A :=
  [("AAPL", py_of_int 150); ("TSLA", py_of_int 700); ("GOOGL", py_of_int 2800)].

Definition get_share_price (symbol : string) : A :=
  dict_get prices (str_upper symbol) py_zero.

(** The values the transaction dicts hold. *)
Inductive pyval :=
| PStr (s : string)
| PFloat (x : A)
| PInt (n : Z).

(** A dict object, and references to the heap that holds them. *)
Definition obj := dict string pyval.
Definition loc := positive.

Record Account := mkAccount {
  user_id : string;
  initial_deposit : A;
  balance : A;
  holdings : dict string Z;
  transactions : list loc;
}.

Record World := mkWorld {
  heap : gmap loc obj;
  next_loc : loc;
  acct : Account;
}.

Definition set_acct (a : Account) (w : World) : World := mkWorld w.(heap) w.(next_loc) a.

Definition set_balance (b : A) (a : Account) : Account :=
  mkAccount a.(user_id) a.(initial_deposit) b a.(holdings) a.(transactions).
Definition set_holdings (h : dict string Z) (a : Account) : Account :=
  mkAccount a.(user_id) a.(initial_deposit) a.(balance) h a.(transactions).

(** [self.x = ...] on the account's attributes. *)
Definition modify_acct (f : Account -> Account) : Py World unit :=
  py_modify (fun w => set_acct (f w.(acct)) w).

(** Evaluating a dict display [{...}]: a fresh object. *)
Definition alloc (o : obj) : Py World loc :=
  w ← py_get;
  py_put (mkWorld (<[w.(next_loc) := o]> w.(heap)) (Pos.succ w.(next_loc)) w.(acct));;
  mret w.(next_loc).

(** [self.transactions.append({...})] *)
Definition append_tx (o : obj) : Py World unit :=
  l ← alloc o;
  modify_acct (fun a => mkAccount a.(user_id) a.(initial_deposit) a.(balance) a.(holdings)
    (a.(transactions) ++ [l])).

Definition holdings_getitem (symbol : string) : Py World Z :=
  w ← py_get;
  match dict_lookup w.(acct).(holdings) symbol with
  | Some q => mret q
  | None => py_raise (KeyError symbol)
  end.

Definition holdings_delitem (symbol : string) : Py World unit :=
  w ← py_get;
  match dict_delitem w.(acct).(holdings) symbol with
  | Some h => modify_acct (set_holdings h)
  | None => py_raise (KeyError symbol)
  end.

(** [__init__(self, user_id, initial_deposit)], in a heap. *)
Definition init (user_id : string) (initial_deposit : A) (heap : gmap loc obj) (next : loc) : World :=
  mkWorld heap next (mkAccount user_id initial_deposit initial_deposit [] []).

(** [deposit_funds(self, amount) -> None] *)
Definition deposit_funds (amount : A) : Py World unit :=
  if py_lt py_zero amount then
    modify_acct (fun a => set_balance (py_add a.(balance) amount) a);;
    append_tx [("type", PStr "deposit"); ("amount", PFloat amount)]
  else mret tt.

(** [withdraw_funds(self, amount) -> bool] *)
Definition withdraw_funds (amount : A) : Py World bool :=
  w ← py_get;
  if py_lt py_zero amount && py_le amount w.(acct).(balance) then
    modify_acct (fun a => set_balance (py_sub a.(balance) amount) a);;
    append_tx [("type", PStr "withdrawal"); ("amount", PFloat amount)];;
    mret true
  else mret false.

(** [buy_shares(self, symbol, quantity) -> bool] *)
Definition buy_shares (symbol : string) (quantity : Z) : Py World bool :=
  let price := get_share_price symbol in
  if py_eq price py_zero then mret false else
  let total_cost := py_mul price (py_of_int quantity) in
  w ← py_get;
  if (0 <? quantity)%Z && py_le total_cost w.(acct).(balance) then
    modify_acct (fun a => set_balance (py_sub a.(balance) total_cost) a);;
    modify_acct (fun a => set_holdings
      (dict_setitem a.(holdings) symbol (dict_get a.(holdings) symbol 0 + quantity)%Z) a);;
    append_tx [("type", PStr "buy"); ("symbol", PStr symbol); ("quantity", PInt quantity);
               ("price", PFloat price); ("total", PFloat total_cost)];;
    mret true
  else mret false.

(** [sell_shares(self, symbol, quantity) -> bool] *)
Definition sell_shares (symbol : string) (quantity : Z) : Py World bool :=
  w ← py_get;
  if (0 <? quantity)%Z && (quantity <=? dict_get w.(acct).(holdings) symbol 0)%Z then
    let price := get_share_price symbol in
    let total_revenue := py_mul price (py_of_int quantity) in
    modify_acct (fun a => set_balance (py_add a.(balance) total_revenue) a);;
    q ← holdings_getitem symbol;
    modify_acct (fun a => set_holdings (dict_setitem a.(holdings) symbol (q - quantity)%Z) a);;
    q' ← holdings_getitem symbol;
    (if (q' =? 0)%Z then holdings_delitem symbol else mret tt);;
    append_tx [("type", PStr "sell"); ("symbol", PStr symbol); ("quantity", PInt quantity);
               ("price", PFloat price); ("total", PFloat total_revenue)];;
    mret true
  else mret false.

(** [calculate_portfolio_value(self)]: the loop starts from the balance. *)
Definition calculate_portfolio_value : Py World A :=
  w ← py_get;
  mret (fold_left (fun total '(symbol, qty) =>
    py_add total (py_mul (get_share_price symbol) (py_of_int qty)))
    w.(acct).(holdings) w.(acct).(balance)).

(** [calculate_profit_or_loss(self)] *)
Definition calculate_profit_or_loss : Py World A :=
  v ← calculate_portfolio_value;
  w ← py_get;
  mret (py_sub v w.(acct).(initial_deposit)).

(** [get_holdings(self)]: [dict(self.holdings)], a copy of [int] values. *)
Definition get_holdings : Py World (dict string Z) :=
  w ← py_get; mret w.(acct).(holdings).

(** [get_transactions(self)]: [list(self.transactions)], a new list of
    the same dict objects. *)
Definition get_transactions : Py World (list loc) :=
  w ← py_get; mret w.(acct).(transactions).

Record Report := mkReport {
  r_user_id : string;
  r_balance : A;
  r_portfolio_value : A;
  r_profit_or_loss : A;
  r_holdings : dict string Z;
}.

(** [get_report(self) -> dict] *)
Definition get_report : Py World Report :=
  w ← py_get;
  v ← calculate_portfolio_value;
  p ← calculate_profit_or_loss;
  h ← get_holdings;
  mret (mkReport w.(acct).(user_id) w.(acct).(balance) v p h).

(** A caller's view of the class. *)
Inductive Call :=
| CallDeposit (amount : A)
| CallWithdraw (amount : A)
| CallBuy (symbol : string) (quantity : Z)
| CallSell (symbol : string) (quantity : Z)
| CallGetHoldings
| CallGetTransactions
| CallGetReport.

Inductive Reply :=
| RNone
| RBool (b : bool)
| RHoldings (h : dict string Z)
| RTransactions (l : list loc)
| RReport (r : Report).

Definition call (c : Call) : Py World Reply :=
  match c with
  | CallDeposit a => (fun _ => RNone) <$> deposit_funds a
  | CallWithdraw a => RBool <$> withdraw_funds a
  | CallBuy sym q => RBool <$> buy_shares sym q
  | CallSell sym q => RBool <$> sell_shares sym q
  | CallGetHoldings => RHoldings <$> get_holdings
  | CallGetTransactions => RTransactions <$> get_transactions
  | CallGetReport => RReport <$> get_report
  end.
End Defs.
End AccountNew.
