(* ===== verification/AccountNewProps.v ===== *)
(** * Properties of [example_output_new/accounts.py]

    Proved at the exact instance [pynum_Z].
    - Run lemmas: each method's outcome on a [World].
    - The invariant [new_inv], for objects built with a non-negative
      initial deposit in a heap whose allocator is fresh: non-negative
      balance, positive holdings, distinct allocated log objects, and
      balance and positions agreeing with the log read from the heap.
    - Error behaviour: nothing raises; [False] changes nothing.
    - Refinement of the ledger contract on balance and holdings; the
      spec's buy/sell round trip; [get_report] computing the contract's
      derived views (with the initial deposit as the profit baseline).
    - The shared log: a caller that mutates a dict returned by
      [get_transactions] rewrites the account's own history. *)

From Stdlib Require Import ZArith Lia String.
From stdpp Require Import base list strings gmap.
From S2P Require Import Prelude PyNum PyDict PyStr Session LedgerSpec Holdings AccountNew.
Import AccountNew.

Open Scope Z_scope.

(** ** Run lemmas *)

Section Run.
Implicit Types (w : @World Z).

(** Allocating a dict object and appending its reference to the log. *)
Definition push_obj (o : @obj Z) w : World :=
  mkWorld (<[w.(next_loc) := o]> w.(heap)) (Pos.succ w.(next_loc))
    (mkAccount w.(acct).(user_id) w.(acct).(initial_deposit) w.(acct).(balance)
       w.(acct).(holdings) (w.(acct).(transactions) ++ [w.(next_loc)])).

Definition with_acct w (f : @Account Z -> @Account Z) : World := set_acct (f w.(acct)) w.

Lemma push_obj_acct o w :
  (push_obj o w).(acct) = mkAccount w.(acct).(user_id) w.(acct).(initial_deposit) w.(acct).(balance)
    w.(acct).(holdings) (w.(acct).(transactions) ++ [w.(next_loc)]).
Proof. reflexivity. Qed.

Lemma with_acct_acct w f : (with_acct w f).(acct) = f w.(acct).
Proof. reflexivity. Qed.

Lemma new_deposit_run a w :
  py_run (deposit_funds a) w =
  if 0 <? a then
    (Return tt, push_obj [("type", PStr "deposit"); ("amount", PFloat a)]
                  (with_acct w (set_balance (w.(acct).(balance) + a))))
  else (Return tt, w).
Proof. unfold deposit_funds. cbn. destruct (0 <? a); reflexivity. Qed.

Lemma new_withdraw_run a w :
  py_run (withdraw_funds a) w =
  if (0 <? a) && (a <=? w.(acct).(balance)) then
    (Return true, push_obj [("type", PStr "withdrawal"); ("amount", PFloat a)]
                    (with_acct w (set_balance (w.(acct).(balance) - a))))
  else (Return false, w).
Proof. unfold withdraw_funds. cbn. destruct ((0 <? a) && _); reflexivity. Qed.

Lemma new_buy_run symbol q w :
  py_run (buy_shares symbol q) w =
  let price := get_share_price symbol in
  if (price =? 0) || negb ((0 <? q) && (price * q <=? w.(acct).(balance))) then (Return false, w)
  else (Return true,
    push_obj [("type", PStr "buy"); ("symbol", PStr symbol); ("quantity", PInt q);
              ("price", PFloat price); ("total", PFloat (price * q))]
      (with_acct w (fun a => set_holdings (buy_holdings a.(holdings) symbol q)
         (set_balance (a.(balance) - price * q) a)))).
Proof.
  unfold buy_shares. cbn. destruct (get_share_price symbol =? 0); cbn; [reflexivity|].
  destruct ((0 <? q) && _); reflexivity.
Qed.

Lemma new_sell_run symbol q w :
  py_run (sell_shares symbol q) w =
  let price := get_share_price symbol in
  if (0 <? q) && (q <=? dict_get w.(acct).(holdings) symbol 0) then
    (Return true,
     push_obj [("type", PStr "sell"); ("symbol", PStr symbol); ("quantity", PInt q);
               ("price", PFloat price); ("total", PFloat (price * q))]
       (with_acct w (fun a => set_holdings (sell_holdings a.(holdings) symbol q)
          (set_balance (a.(balance) + price * q) a))))
  else (Return false, w).
Proof.
  unfold sell_shares, with_acct. cbn.
  destruct ((0 <? q) && (q <=? dict_get (holdings (acct w)) symbol 0)) eqn:Hg; cbn; [|reflexivity].
  apply andb_true_iff in Hg as [Hq Hle]. zbool.
  rewrite (dict_get_pos_lookup _ _ q) by lia. cbn.
  rewrite dict_lookup_setitem_eq. cbn. unfold sell_holdings.
  destruct (dict_get (holdings (acct w)) symbol 0 - q =? 0); cbn; [|reflexivity].
  rewrite dict_delitem_setitem. reflexivity.
Qed.
End Run.

(** ** The invariant, read through the heap *)

Section Inv.
Implicit Types (w : @World Z) (o : @obj Z) (a : @Account Z).

(** The account's log: the objects its references point to. *)
Definition log_of w : list (@obj Z) := omap (fun l => w.(heap) !! l) w.(acct).(transactions).

Definition item_str o (k : string) : option string :=
  match dict_lookup o k with Some (PStr x) => Some x | _ => None end.
Definition item_num o (k : string) : Z :=
  match dict_lookup o k with Some (PFloat x) => x | _ => 0 end.
Definition item_int o (k : string) : Z :=
  match dict_lookup o k with Some (PInt x) => x | _ => 0 end.

(** Effect of a logged dict on the balance. *)
Definition obj_delta o : Z :=
  match item_str o "type" with
  | Some ty =>
      if String.eqb ty "deposit" then item_num o "amount"
      else if String.eqb ty "withdrawal" then - item_num o "amount"
      else if String.eqb ty "buy" then - item_num o "total"
      else if String.eqb ty "sell" then item_num o "total" else 0
  | None => 0
  end.

(** Effect of a logged dict on the position in [k]. *)
Definition obj_position (k : string) o : Z :=
  if decide (item_str o "symbol" = Some k) then
    match item_str o "type" with
    | Some ty =>
        if String.eqb ty "buy" then item_int o "quantity"
        else if String.eqb ty "sell" then - item_int o "quantity" else 0
    | None => 0
    end
  else 0.

(** Held symbols have a price ([get_share_price] is not [0]). *)
Definition new_priced (h : dict string Z) : Prop :=
  keys_satisfy (fun k => get_share_price (A:=Z) k <> 0) h.

Record new_inv w : Prop := {
  ni_balance_nonneg : 0 <= w.(acct).(balance);
  ni_wf : dict_wf w.(acct).(holdings);
  ni_pos : positive_holdings w.(acct).(holdings);
  ni_priced : new_priced w.(acct).(holdings);
  ni_nodup : NoDup w.(acct).(transactions);
  ni_fresh : forall l, (w.(next_loc) <= l)%positive -> w.(heap) !! l = None;
  ni_allocated : Forall (fun l => (l < w.(next_loc))%positive /\ is_Some (w.(heap) !! l))
                   w.(acct).(transactions);
  ni_balance_log : w.(acct).(balance) = w.(acct).(initial_deposit) + zsum obj_delta (log_of w);
  ni_position_log : forall k, dict_get w.(acct).(holdings) k 0 = zsum (obj_position k) (log_of w);
}.

(** The references of the log are below the allocator. *)
Lemma log_of_push o w a' :
  a'.(transactions) = w.(acct).(transactions) ->
  Forall (fun l => (l < w.(next_loc))%positive) w.(acct).(transactions) ->
  log_of (push_obj o (set_acct a' w)) = log_of w ++ [o].
Proof.
  intros Htx Hlt. unfold log_of, push_obj. cbn. rewrite Htx, omap_app. cbn.
  rewrite lookup_insert_eq. f_equal.
  apply list_omap_ext, Forall_Forall2_diag. eapply Forall_impl; [exact Hlt|].
  intros l Hl. cbn in *. rewrite lookup_insert_ne; [done|lia].
Qed.

(** Allocating one object, appending its reference, and updating the
    attributes in agreement with it keeps the invariant. *)
Lemma new_inv_push w o a' :
  new_inv w ->
  a'.(initial_deposit) = w.(acct).(initial_deposit) ->
  a'.(transactions) = w.(acct).(transactions) ->
  a'.(balance) = w.(acct).(balance) + obj_delta o ->
  0 <= a'.(balance) ->
  dict_wf a'.(holdings) ->
  positive_holdings a'.(holdings) ->
  new_priced a'.(holdings) ->
  (forall k, dict_get a'.(holdings) k 0 = dict_get w.(acct).(holdings) k 0 + obj_position k o) ->
  new_inv (push_obj o (set_acct a' w)).
Proof.
  intros [Hb Hwf Hpos Hpr Hnd Hfresh Halloc Hlog Hposlog] Hinit Htx Hbal Hnn Hwf' Hpos' Hpr' Hget.
  assert (Hlt : Forall (fun l => (l < w.(next_loc))%positive) w.(acct).(transactions))
    by (eapply Forall_impl; [exact Halloc|]; intros ? []; done).
  constructor; rewrite ?(log_of_push o w a' Htx Hlt); cbn; auto.
  - rewrite Htx. apply NoDup_app; split_and!; [done| |by apply NoDup_singleton].
    intros l Hl ->%list_elem_of_singleton. rewrite Forall_forall in Hlt.
    specialize (Hlt _ Hl). lia.
  - intros l Hl. rewrite lookup_insert_ne by lia. apply Hfresh. lia.
  - rewrite Htx. apply Forall_app; split.
    + eapply Forall_impl; [exact Halloc|]. intros l [Hl Hs]. split; [lia|].
      by rewrite lookup_insert_ne by lia.
    + constructor; [|done]. split; [lia|]. by rewrite lookup_insert_eq.
  - rewrite zsum_snoc. lia.
  - intros k. rewrite zsum_snoc, Hget, Hposlog. lia.
Qed.

Lemma new_position_cash k type (x : Z) :
  obj_position k [("type", PStr type); ("amount", PFloat x)] = 0.
Proof. reflexivity. Qed.

Lemma new_position_trade k type symbol q price total :
  obj_position k [("type", PStr type); ("symbol", PStr symbol); ("quantity", PInt (A:=Z) q);
                  ("price", PFloat price); ("total", PFloat total)] =
  if decide (k = symbol) then
    (if String.eqb type "buy" then q else if String.eqb type "sell" then - q else 0)
  else 0.
Proof.
  unfold obj_position, item_str, item_int. simpl.
  destruct (decide (k = symbol)) as [->|Hne].
  - by rewrite decide_True.
  - rewrite decide_False; [done|]. congruence.
Qed.
End Inv.

(** ** Every method keeps the invariant *)

Ltac new_step :=
  unfold with_acct; eapply new_inv_push; [eassumption|reflexivity|reflexivity|..];
  cbn [balance holdings initial_deposit transactions set_balance set_holdings acct set_acct];
  lazymatch goal with |- forall k : string, _ => intros k | _ => idtac end;
  rewrite ?new_position_cash, ?new_position_trade; simpl obj_delta;
  cbn [String.eqb Ascii.eqb Bool.eqb andb]; try reflexivity.

(** [guards], and the conjunctions this variant tests with [and]. *)
Ltac new_guards :=
  guards;
  repeat match goal with
  | H : negb _ = false |- _ => apply negb_false_iff in H
  | H : _ && _ = true |- _ => apply andb_true_iff in H as [? ?]
  end; zbool.

Section Preservation.
Implicit Types (w : @World Z).

Lemma new_price_nonneg k : 0 <= get_share_price (A:=Z) k.
Proof. unfold get_share_price, dict_get. cbn. repeat case_decide; lia. Qed.

(** The objects [Account(user_id, initial_deposit)] builds: a
    non-negative deposit, in a heap none of whose references is at or
    above the allocator. *)
Definition new_constructed w : Prop :=
  exists user_id d hp nx, 0 <= d /\ (forall l, (nx <= l)%positive -> hp !! l = None) /\
    w = init user_id d hp nx.

Lemma init_new_inv user_id d hp nx :
  0 <= d -> (forall l, (nx <= l)%positive -> hp !! l = None) -> new_inv (init user_id d hp nx).
Proof.
  intros Hd Hf. constructor; cbn; auto with py; try done; try by constructor.
  unfold log_of, zsum. cbn. lia.
Qed.

Definition new_preserves {R} (m : Py (@World Z) R) : Prop :=
  forall w o w', new_inv w -> py_run m w = (o, w') -> new_inv w'.

Lemma new_deposit_preserves a : new_preserves (deposit_funds a).
Proof.
  intros w o w' Hinv. rewrite new_deposit_run. pose proof (ni_balance_nonneg _ Hinv).
  guards; intros [= <- <-]; [|done].
  new_step; try lia; eauto using ni_wf, ni_pos, ni_priced.
Qed.

Lemma new_withdraw_preserves a : new_preserves (withdraw_funds a).
Proof.
  intros w o w' Hinv. rewrite new_withdraw_run. guards; intros [= <- <-]; try done.
  new_step; try lia; eauto using ni_wf, ni_pos, ni_priced.
Qed.

Lemma new_buy_preserves symbol q : new_preserves (buy_shares symbol q).
Proof.
  intros w o w' Hinv. rewrite new_buy_run. cbv zeta. new_guards; intros [= <- <-]; try done.
  pose proof (ni_pos _ Hinv). new_step; try lia.
  - apply dict_setitem_wf, (ni_wf _ Hinv).
  - by apply buy_holdings_pos.
  - apply buy_holdings_keys; [apply (ni_priced _ Hinv)|cbv beta; lia].
  - rewrite buy_holdings_get. case_decide; lia.
Qed.

Lemma new_sell_preserves symbol q : new_preserves (sell_shares symbol q).
Proof.
  intros w o w' Hinv. rewrite new_sell_run. cbv zeta. new_guards; intros [= <- <-]; try done.
  pose proof (ni_wf _ Hinv). pose proof (ni_pos _ Hinv). pose proof (ni_balance_nonneg _ Hinv).
  pose proof (new_price_nonneg symbol).
  new_step; try nia.
  - unfold sell_holdings. destruct (_ =? 0); auto with py.
  - apply sell_holdings_pos; auto; lia.
  - apply sell_holdings_keys; [done|apply (ni_priced _ Hinv)|lia|lia].
  - rewrite sell_holdings_get by done. case_decide; lia.
Qed.

Lemma new_call_preserves c : new_preserves (call c).
Proof.
  intros w o w' Hinv. destruct c; cbn [call]; rewrite py_run_fmap.
  5-7: cbn; intros [= _ <-]; done.
  all: destruct (py_run _ w) as [o' w''] eqn:E; intros Heq;
    assert (w'' = w') as <- by (destruct o'; congruence).
  - by eapply new_deposit_preserves.
  - by eapply new_withdraw_preserves.
  - by eapply new_buy_preserves.
  - by eapply new_sell_preserves.
Qed.
End Preservation.

(** ** The invariant on every reachable object; error behaviour *)

Section Claims.
Implicit Types (w : @World Z).

(** C17: every object built by [Account(user_id, initial_deposit)] with
    [initial_deposit >= 0] in a heap fresh above its allocator, and then
    driven by any calls, keeps a non-negative balance and a duplicate-free
    dict of positive, priced holdings; its log holds distinct references
    to allocated dict objects, and the balance and every position agree
    with the log read through the heap. *)
Theorem reachable_new_inv w : reachable call new_constructed w -> new_inv w.
Proof.
  apply reachable_ind_inv.
  - intros ? (u & d & hp & nx & Hd & Hf & ->). by apply init_new_inv.
  - intros w1 w2 Hinv (c & o & E). by eapply new_call_preserves.
Qed.

Lemma reachable_new_inv_witness :
  reachable call new_constructed
    (run_calls call [CallDeposit 500; CallBuy "aapl" 2; CallSell "aapl" 1] (init "u" 1000 ∅ 1%positive)).2 /\
  new_inv (run_calls call [CallDeposit 500; CallBuy "aapl" 2; CallSell "aapl" 1] (init "u" 1000 ∅ 1%positive)).2.
Proof.
  assert (Hr : reachable call new_constructed
    (run_calls call [CallDeposit 500; CallBuy "aapl" 2; CallSell "aapl" 1] (init "u" 1000 ∅ 1%positive)).2).
  { apply run_calls_reachable, reach_init. exists "u"%string, 1000, ∅, 1%positive.
    split_and!; [lia| |reflexivity]. intros l _. apply lookup_empty. }
  split; [exact Hr | apply (reachable_new_inv _ Hr)].
Defined.

(** What a call's outcome promises: it never raises, and a [False]
    reply leaves the whole world (heap included) as it was. *)
Definition new_outcome_ok (r : outcome (@Reply Z) * @World Z) w : Prop :=
  match r.1 with
  | Raise _ => False
  | Return (RBool false) => r.2 = w
  | Return _ => True
  end.

(** C18: no method of the new [Account] raises, whatever the state (the
    [self.holdings[symbol]] reads of [sell_shares] run after the guard
    that makes the key present), and every method that reports failure
    by returning [False] changes nothing. *)
Theorem new_call_never_raises c w : new_outcome_ok (py_run (call c) w) w.
Proof.
  unfold new_outcome_ok. destruct c; cbn [call]; rewrite py_run_fmap;
    rewrite ?new_deposit_run, ?new_withdraw_run, ?new_buy_run, ?new_sell_run; cbv zeta;
    new_guards; cbn; auto.
Qed.
End Claims.

(** ** Refinement of the ledger contract on balance and holdings *)

Section Refinement.
Implicit Types (w : @World Z).

(** The contract's view: the constructor's deposit as the baseline, no
    balance snapshots. *)
Definition new_abs w : LedgerSpec.Ledger :=
  LedgerSpec.mkLedger w.(acct).(balance) w.(acct).(initial_deposit) (to_map w.(acct).(holdings)) [].

Definition new_agrees w (l : LedgerSpec.Ledger) : Prop :=
  w.(acct).(balance) = LedgerSpec.l_balance l /\ to_map w.(acct).(holdings) = LedgerSpec.l_holdings l.

(** A method refines a contract operation when, on every object
    satisfying the invariant, it returns [ok] in a world with the
    operation's balance and holdings when the operation applies, and
    otherwise returns [fail] without changing the world. *)
Definition new_refines {R} (m : Py (@World Z) R) (ok fail : R)
    (op : LedgerSpec.Ledger -> option LedgerSpec.Ledger) : Prop :=
  forall w, new_inv w ->
  match op (new_abs w) with
  | Some l => exists w', py_run m w = (Return ok, w') /\ new_agrees w' l
  | None => py_run m w = (Return fail, w)
  end.

Lemma new_held_abs w symbol :
  LedgerSpec.held (new_abs w) symbol = dict_get w.(acct).(holdings) symbol 0.
Proof. unfold LedgerSpec.held. cbn. by rewrite to_map_get. Qed.

(** A held symbol has a price. *)
Lemma new_held_priced w symbol q :
  new_inv w -> 0 < q -> q <= dict_get w.(acct).(holdings) symbol 0 ->
  0 < get_share_price (A:=Z) symbol.
Proof.
  intros Hinv Hq Hle. pose proof (new_price_nonneg symbol).
  assert (get_share_price (A:=Z) symbol <> 0)
    by exact (ni_priced _ Hinv _ _ (dict_get_pos_lookup _ _ _ Hq Hle)).
  lia.
Qed.

(** C19: the new methods refine the ledger contract with the class's own
    price table on balance and holdings, on every object satisfying the
    invariant: [withdraw_funds], [buy_shares] and [sell_shares] return
    [True] and reach the contract's balance and holdings map when its
    preconditions hold, and return [False] with no change when they do
    not; [deposit_funds] ignores a non-positive amount. *)
Theorem new_mutators_refine_spec symbol n a :
  new_refines (deposit_funds a) tt tt (LedgerSpec.deposit a) /\
  new_refines (withdraw_funds a) true false (LedgerSpec.withdraw a) /\
  new_refines (buy_shares symbol n) true false (LedgerSpec.buy get_share_price symbol n) /\
  new_refines (sell_shares symbol n) true false (LedgerSpec.sell get_share_price symbol n).
Proof.
  pose proof (new_price_nonneg symbol).
  split_and!; intros w Hinv;
    unfold LedgerSpec.deposit, LedgerSpec.withdraw, LedgerSpec.buy, LedgerSpec.sell;
    rewrite ?new_deposit_run, ?new_withdraw_run, ?new_buy_run, ?new_sell_run, ?new_held_abs;
    cbv zeta; cbn [new_abs LedgerSpec.l_balance];
    pose proof (new_held_priced w symbol n Hinv);
    new_guards; try reflexivity;
    (eexists; split; [reflexivity|]); unfold new_agrees, LedgerSpec.logged; cbn; (split; [lia|]);
    unfold buy_holdings; rewrite ?to_map_setitem, ?sell_holdings_map by apply (ni_wf _ Hinv);
    guards; done.
Qed.
End Refinement.

(** ** The spec's round trip *)

Section RoundTrip.
Implicit Types (w : @World Z).

(** C27: on every object satisfying the invariant, a successful
    [buy_shares(symbol, q)] followed by [sell_shares(symbol, q)] succeeds
    and returns the balance and the holdings dict to exactly their values
    before the buy (a symbol bought fresh is removed again), the log
    growing by the buy and the sell dicts, which record the same total. *)
Theorem new_buy_then_sell_restores symbol q w w1 :
  new_inv w ->
  py_run (buy_shares symbol q) w = (Return true, w1) ->
  exists w2, py_run (sell_shares symbol q) w1 = (Return true, w2) /\
    w2.(acct).(balance) = w.(acct).(balance) /\ w2.(acct).(holdings) = w.(acct).(holdings) /\
    exists o1 o2, log_of w2 = log_of w ++ [o1; o2] /\
      item_num o1 "total" = item_num o2 "total".
Proof.
  intros Hinv. rewrite new_buy_run. cbv zeta.
  destruct ((get_share_price symbol =? 0) ||
    negb ((0 <? q) && (get_share_price symbol * q <=? w.(acct).(balance)))) eqn:Hg;
    [congruence|]. intros [= <-].
  apply orb_false_iff in Hg as [Hp Hg]. apply negb_false_iff, andb_true_iff in Hg as [Hq Hc]. zbool.
  pose proof (positive_get _ symbol (ni_pos _ Hinv)).
  assert (Hlt : Forall (fun l => (l < w.(next_loc))%positive) w.(acct).(transactions))
    by (eapply Forall_impl; [apply (ni_allocated _ Hinv)|]; by intros ? []).
  rewrite new_sell_run. cbv zeta. rewrite push_obj_acct, with_acct_acct. cbn [holdings set_holdings].
  rewrite buy_holdings_get, decide_True by done.
  assert (E : (0 <? q) && (q <=? dict_get w.(acct).(holdings) symbol 0 + q) = true)
    by (apply andb_true_iff; split; [apply Z.ltb_lt|apply Z.leb_le]; lia).
  rewrite E. eexists; split; [reflexivity|].
  do 2 (rewrite ?push_obj_acct, ?with_acct_acct; cbn [balance holdings set_holdings set_balance]).
  rewrite buy_sell_holdings by (apply (ni_pos _ Hinv) || lia). split_and!; [lia|done|].
  eexists _, _. split.
  - unfold with_acct. rewrite log_of_push; [|reflexivity|].
    + rewrite log_of_push by done. rewrite <- app_assoc. reflexivity.
    + rewrite push_obj_acct. cbn. apply Forall_app. split; [|constructor; [lia|done]].
      eapply Forall_impl; [exact Hlt|]. cbv beta. lia.
  - reflexivity.
Qed.
End RoundTrip.

(** ** The report *)

Section Report.
Implicit Types (w : @World Z).

(** C26: on every object whose holdings dict has no duplicate key,
    [get_report] leaves the world unchanged and reports the user id, the
    balance, the contract's portfolio value (the balance plus the quoted
    value of the holdings, summed in the dict's order), the contract's
    profit or loss computed against the initial deposit as the baseline,
    and the holdings. *)
Theorem new_get_report_views w :
  dict_wf w.(acct).(holdings) ->
  py_run get_report w =
    (Return (mkReport w.(acct).(user_id) w.(acct).(balance)
       (LedgerSpec.portfolio_value get_share_price (new_abs w))
       (LedgerSpec.profit_or_loss get_share_price (new_abs w))
       w.(acct).(holdings)), w).
Proof.
  intros Hwf. cbn. rewrite !fold_value, hv_map_fold by done.
  unfold LedgerSpec.profit_or_loss, LedgerSpec.portfolio_value. reflexivity.
Qed.
End Report.

(** ** The shared log *)

Section SharedLog.
Implicit Types (w : @World Z).

(** A caller's [t[k] = v] on a dict object it holds a reference to:
    Python's item assignment on a shared object. *)
Definition caller_setitem (l : loc) (k : string) (v : @pyval Z) : Py (@World Z) unit :=
  py_modify (fun w => mkWorld (alter (fun o => dict_setitem o k v) l w.(heap)) w.(next_loc) w.(acct)).

(** Changing the object at the [i]-th of distinct allocated references
    changes the [i]-th object read through them, and nothing else. *)
Lemma omap_alter_nodup (h : gmap loc (@obj Z)) (f : @obj Z -> @obj Z) ls i l :
  NoDup ls -> Forall (fun l' => is_Some (h !! l')) ls -> ls !! i = Some l ->
  omap (fun l' => alter f l h !! l') ls = alter f i (omap (fun l' => h !! l') ls).
Proof.
  revert i. induction ls as [|x ls IH]; intros i Hnd Hs Hi; [done|].
  apply NoDup_cons in Hnd as [Hx Hnd]. apply Forall_cons in Hs as [[o Ho] Hs].
  destruct i as [|i]; cbn in Hi.
  - injection Hi as ->. cbn. rewrite lookup_alter, Ho. cbn. rewrite decide_True by done. f_equal.
    apply list_omap_ext, Forall_Forall2_diag, Forall_forall. intros y Hy.
    rewrite lookup_alter_ne; [done|]. intros ->. contradiction.
  - assert (x <> l) by (intros ->; apply Hx; eapply list_elem_of_lookup_2, Hi).
    cbn. rewrite lookup_alter_ne, Ho by done. cbn. f_equal. by apply IH.
Qed.

Lemma omap_length_Some {X Y} (f : X -> option Y) (l : list X) :
  Forall (fun x => is_Some (f x)) l -> length (omap f l) = length l.
Proof. induction 1 as [|x l [y Hy] _ IH]; [done|]. cbn. rewrite Hy. cbn. by rewrite IH. Qed.

(** C20: [get_transactions] returns [list(self.transactions)], a new
    list of the very dict objects the account logs.  On every object
    satisfying the invariant, the call returns without changing anything
    one reference per log entry, and a caller's [t[k] = v] on the [i]-th
    dict it got back leaves the account's attributes as they are but
    rewrites the [i]-th entry of the account's own log.  The spec
    (sections 3 and 4.7) says the log is never mutated after append and
    is handed out as a defensive copy. *)
Theorem new_get_transactions_aliases w :
  new_inv w ->
  match py_run get_transactions w with
  | (Return ls, w') =>
      w' = w /\ length ls = length (log_of w) /\
      forall i l k v, ls !! i = Some l ->
        acct (py_run (caller_setitem l k v) w').2 = acct w /\
        log_of (py_run (caller_setitem l k v) w').2 = alter (fun o => dict_setitem o k v) i (log_of w)
  | (Raise _, _) => False
  end.
Proof.
  intros Hinv. cbn. assert (Ha := ni_allocated _ Hinv).
  split_and!; [done| |]. 
  - unfold log_of. rewrite omap_length_Some; [done|]. eapply Forall_impl; [exact Ha|]. by intros ? [].
  - intros i l k v Hi. split; [done|]. unfold log_of. cbn.
    apply omap_alter_nodup; [apply (ni_nodup _ Hinv)| |done].
    eapply Forall_impl; [exact Ha|]. by intros ? [].
Qed.
End SharedLog.

(** The object after [Account("u", 1000)] in an empty heap and
    [deposit_funds(100)]. *)
Definition new_after_deposit : @World Z :=
  (py_run (deposit_funds 100) (init "u" 1000 ∅ 1%positive)).2.

Lemma new_after_deposit_inv : new_inv new_after_deposit.
Proof.
  unfold new_after_deposit. destruct (py_run (deposit_funds 100) _) as [o w] eqn:E.
  eapply new_deposit_preserves; [|exact E].
  apply init_new_inv; [lia|]. intros l _. apply lookup_empty.
Qed.

Lemma new_get_transactions_aliases_witness :
  new_inv new_after_deposit /\
  py_run get_transactions new_after_deposit = (Return [1%positive], new_after_deposit) /\
  log_of (py_run (caller_setitem 1%positive "amount" (PFloat 1000000)) new_after_deposit).2 =
    [[("type", PStr "deposit"); ("amount", PFloat 1000000)]].
Proof.
  pose proof (new_get_transactions_aliases new_after_deposit new_after_deposit_inv) as H.
  assert (E : py_run get_transactions new_after_deposit = (Return [1%positive], new_after_deposit))
    by reflexivity.
  rewrite E in H. destruct H as (_ & _ & H).
  destruct (H 0%nat 1%positive "amount" (PFloat 1000000) eq_refl) as [_ ->].
  split_and!; [exact new_after_deposit_inv|exact E|]. vm_compute. reflexivity.
Defined.

Lemma new_get_report_views_witness :
  dict_wf new_after_deposit.(acct).(holdings) /\
  py_run get_report new_after_deposit =
    (Return (mkReport new_after_deposit.(acct).(user_id) new_after_deposit.(acct).(balance)
       (LedgerSpec.portfolio_value get_share_price (new_abs new_after_deposit))
       (LedgerSpec.profit_or_loss get_share_price (new_abs new_after_deposit))
       new_after_deposit.(acct).(holdings)), new_after_deposit).
Proof. split; [apply dict_wf_nil|]. apply new_get_report_views. apply dict_wf_nil. Defined.

Lemma new_buy_then_sell_restores_witness :
  new_inv new_after_deposit /\
  py_run (buy_shares "AAPL" 2) new_after_deposit =
    (Return true, (py_run (buy_shares "AAPL" 2) new_after_deposit).2) /\
  exists w2, py_run (sell_shares "AAPL" 2) (py_run (buy_shares "AAPL" 2) new_after_deposit).2 =
      (Return true, w2) /\
    w2.(acct).(balance) = new_after_deposit.(acct).(balance) /\
    w2.(acct).(holdings) = new_after_deposit.(acct).(holdings) /\
    exists o1 o2, log_of w2 = log_of new_after_deposit ++ [o1; o2] /\
      item_num o1 "total" = item_num o2 "total".
Proof.
  assert (Hrun : py_run (buy_shares "AAPL" 2) new_after_deposit =
    (Return true, (py_run (buy_shares "AAPL" 2) new_after_deposit).2)) by reflexivity.
  split_and!; [exact new_after_deposit_inv|exact Hrun|].
  exact (new_buy_then_sell_restores "AAPL" 2 new_after_deposit _ new_after_deposit_inv Hrun).
Defined.
