(* ===== verification/AccountNewTypes.v ===== *)
(** * The shape of the new variant's transaction dicts

    [example_output_new/accounts.py] logs each transaction as a dict
    literal: [{"type": "deposit"|"withdrawal", "amount": float}] for cash
    and [{"type": "buy"|"sell", "symbol": str, "quantity": int,
    "price": float, "total": float}] for trades.  Readers of the log
    ([_calculate_holdings_at_time], [get_report]) index those keys and
    treat the values at those types.  This file states the two schemas as
    a boolean check on a dict object and proves that every object the log
    of a reachable account refers to passes it: each call either leaves
    the log as it was or appends one well-typed dict. *)

From Stdlib Require Import ZArith Lia String.
From stdpp Require Import base list strings gmap.
From S2P Require Import Prelude PyNum PyDict Session AccountNew AccountNewProps.
Import AccountNew.

Open Scope Z_scope.

Section Schema.
Implicit Types (o : @obj Z) (w : @World Z).

(** The Python type name of a logged value. *)
Definition pyval_ty (v : @pyval Z) : string :=
  match v with PStr _ => "str" | PFloat _ => "float" | PInt _ => "int" end.

(** Keys, in insertion order, with the types of their values. *)
Definition obj_schema o : list (string * string) := map (fun kv => (kv.1, pyval_ty kv.2)) o.

Definition cash_schema : list (string * string) := [("type", "str"); ("amount", "float")].

Definition trade_schema : list (string * string) :=
  [("type", "str"); ("symbol", "str"); ("quantity", "int"); ("price", "float"); ("total", "float")].

(** A well-typed transaction dict: a cash entry or a trade entry, with
    the type tag the methods write. *)
Definition obj_typed o : bool :=
  match item_str o "type" with
  | Some ty =>
      if String.eqb ty "deposit" || String.eqb ty "withdrawal" then
        bool_decide (obj_schema o = cash_schema)
      else if String.eqb ty "buy" || String.eqb ty "sell" then
        bool_decide (obj_schema o = trade_schema)
      else false
  | None => false
  end.

Definition log_typed w : Prop := Forall (fun o => obj_typed o = true) (log_of w).

(** Appending one object to an account whose references stay the same. *)
Lemma log_of_push_acct o w f :
  new_inv w -> (f w.(acct)).(transactions) = w.(acct).(transactions) ->
  log_of (push_obj o (with_acct w f)) = log_of w ++ [o].
Proof.
  intros Hinv Htx. unfold with_acct. apply log_of_push; [done|].
  eapply Forall_impl; [apply (ni_allocated _ Hinv)|]. by intros ? [? _].
Qed.

(** A call leaves the log unchanged or appends one well-typed dict. *)
Lemma new_call_log c w r w' :
  new_inv w -> py_run (call c) w = (r, w') ->
  log_of w' = log_of w \/ exists t, obj_typed t = true /\ log_of w' = log_of w ++ [t].
Proof.
  intros Hinv. destruct c; cbn [call]; rewrite py_run_fmap.
  5-7: cbn; intros [= _ <-]; by left.
  all: rewrite ?new_deposit_run, ?new_withdraw_run, ?new_buy_run, ?new_sell_run; cbv zeta;
    new_guards; intros Heq; injection Heq as _ <-;
    try (by left); right; eexists; split; [|by apply log_of_push_acct]; reflexivity.
Qed.

Lemma new_call_log_typed c w r w' :
  new_inv w -> log_typed w -> py_run (call c) w = (r, w') -> log_typed w'.
Proof.
  intros Hinv Ht E. unfold log_typed.
  destruct (new_call_log c w r w' Hinv E) as [-> | (t & Ht' & ->)]; [done|].
  apply Forall_app; auto.
Qed.
End Schema.

(** C31: every dict object the log of a reachable new [Account] refers
    to is a well-typed transaction: a deposit or withdrawal with exactly
    the keys [type] (str) and [amount] (float), or a buy or sell with
    exactly [type], [symbol] (str), [quantity] (int), [price] and [total]
    (float), in that order. *)
Theorem new_log_typed w : reachable call new_constructed w -> log_typed w.
Proof.
  intros Hr. cut (new_inv w /\ log_typed w); [tauto|]. revert w Hr.
  apply reachable_ind_inv.
  - intros ? (u & d & hp & nx & Hd & Hf & ->). split; [by apply init_new_inv|constructor].
  - intros w1 w2 [Hinv Ht] (c & o & E). split; [by eapply new_call_preserves|].
    by eapply new_call_log_typed.
Qed.

Lemma new_log_typed_witness :
  reachable call new_constructed
    (run_calls call [CallDeposit 200; CallWithdraw 50; CallBuy "tsla" 1; CallGetTransactions]
       (init "v" 1000 ∅ 1%positive)).2 /\
  log_typed (run_calls call [CallDeposit 200; CallWithdraw 50; CallBuy "tsla" 1; CallGetTransactions]
       (init "v" 1000 ∅ 1%positive)).2.
Proof.
  assert (Hr : reachable call new_constructed
    (run_calls call [CallDeposit 200; CallWithdraw 50; CallBuy "tsla" 1; CallGetTransactions]
       (init "v" 1000 ∅ 1%positive)).2).
  { apply run_calls_reachable, reach_init. exists "v"%string, 1000, ∅, 1%positive.
    split_and!; [lia| |reflexivity]. intros l _. apply lookup_empty. }
  split; [exact Hr | apply (new_log_typed _ Hr)].
Defined.
