(* ===== verification/Variants.v ===== *)
(** * The [4o] and [new] accounts side by side

    Both variants look prices up as [symbol.upper()] in the same table,
    and their mutators differ only in how they are written: [4o] returns
    [False] on [amount <= 0], [new] tests [amount > 0]; [4o] checks the
    price before the quantity of a sale, [new] never checks it.  This file
    drives both with the same commands ([Cmd]), [4o] with its default
    [price_lookup], and proves that they give the same answers and keep
    the same balance and holdings, from the constructors, for any
    script.  The [new] invariant ([new_inv]) supplies the fact that makes
    the missing price check of [new]'s [sell_shares] harmless: every held
    symbol has a price. *)

From Stdlib Require Import ZArith Lia String.
From stdpp Require Import base list strings gmap.
From S2P Require Import Prelude PyNum PyDict PyStr Session LedgerSpec Holdings.
From S2P Require Import Account4o Account4oProps AccountMini AccountMiniProps AccountNew AccountNewProps.

Open Scope Z_scope.

Module Variants.

(** A command a caller issues to either account. *)
Inductive Cmd :=
| Deposit (amount : Z)
| Withdraw (amount : Z)
| Buy (symbol : string) (quantity : Z)
| Sell (symbol : string) (quantity : Z).

Definition call4o (c : Cmd) : @Account4o.Call Z :=
  match c with
  | Deposit a => Account4o.CallDeposit a
  | Withdraw a => Account4o.CallWithdraw a
  | Buy sym q => Account4o.CallBuy Account4o.get_share_price sym q
  | Sell sym q => Account4o.CallSell Account4o.get_share_price sym q
  end.

Definition callnew (c : Cmd) : @AccountNew.Call Z :=
  match c with
  | Deposit a => AccountNew.CallDeposit a
  | Withdraw a => AccountNew.CallWithdraw a
  | Buy sym q => AccountNew.CallBuy sym q
  | Sell sym q => AccountNew.CallSell sym q
  end.

(** The two answers agree: the same boolean, or for a deposit [new]'s
    [None] where [4o] says whether the amount was positive. *)
Definition replies_agree (c : Cmd) (o1 : outcome (@Account4o.Reply Z))
    (o2 : outcome (@AccountNew.Reply Z)) : Prop :=
  match c, o1, o2 with
  | Deposit a, Return (Account4o.RBool b), Return AccountNew.RNone => b = (0 <? a)
  | Deposit _, _, _ => False
  | _, Return (Account4o.RBool b), Return (AccountNew.RBool b') => b = b'
  | _, _, _ => False
  end.

Definition same_ledger (s : @Account4o.Account Z) (w : @AccountNew.World Z) : Prop :=
  Account4o.balance s = AccountNew.balance (AccountNew.acct w) /\
  Account4o.holdings s = AccountNew.holdings (AccountNew.acct w).

Lemma price_tables_agree k : Account4o.get_share_price (A:=Z) k = AccountNew.get_share_price k.
Proof. reflexivity. Qed.

(** One command, from related states: the answers agree and the states
    stay related. *)
Lemma variants_step c s w :
  same_ledger s w -> new_inv w ->
  replies_agree c (py_run (Account4o.call (call4o c)) s).1 (py_run (AccountNew.call (callnew c)) w).1 /\
  same_ledger (py_run (Account4o.call (call4o c)) s).2 (py_run (AccountNew.call (callnew c)) w).2.
Proof.
  intros [Hb Hh] Hinv. unfold same_ledger.
  destruct c as [a|a|sym q|sym q]; cbn [call4o callnew Account4o.call AccountNew.call];
    rewrite !py_run_fmap;
    rewrite ?deposit_run, ?withdraw_run, ?buy_run, ?sell_run,
      ?new_deposit_run, ?new_withdraw_run, ?new_buy_run, ?new_sell_run;
    cbv zeta; rewrite ?price_tables_agree, ?Hb, ?Hh;
    try pose proof (new_held_priced w sym q Hinv);
    try pose proof (new_price_nonneg sym);
    new_guards; cbn.
  all: split_and!; try done; symmetry; first [apply Z.ltb_ge; lia | apply Z.ltb_lt; lia].
Qed.
(** A script of commands, from related states. *)
Lemma variants_run cs s w :
  same_ledger s w -> new_inv w ->
  Forall3 replies_agree cs (run_calls Account4o.call (map call4o cs) s).1
    (run_calls AccountNew.call (map callnew cs) w).1 /\
  same_ledger (run_calls Account4o.call (map call4o cs) s).2
    (run_calls AccountNew.call (map callnew cs) w).2.
Proof.
  intros Hr Hinv.
  edestruct (run_calls_simulation Account4o.call AccountNew.call call4o callnew (fun _ => True)
    replies_agree (fun s w => same_ledger s w /\ new_inv w)) as [Hall [Hend _]];
    [|by apply Forall_true|by split|by split].
  intros c s1 w1 _ [Hr1 Hinv1]. destruct (variants_step c s1 w1 Hr1 Hinv1) as [Hag Hr2].
  split_and!; [done|done|]. eapply new_call_preserves; [exact Hinv1|]. apply surjective_pairing.
Qed.

(** C22: the [4o] account with its default [price_lookup] and the [new]
    account, constructed with the same non-negative initial deposit (the
    [new] one in an empty heap) and driven by the same script of
    deposits, withdrawals, buys and sells, give the same answer to every
    command (the same boolean; for a deposit, [new]'s [None] where [4o]
    answers whether the amount was positive) and end with the same
    balance and the same holdings dict. *)
Theorem variants_agree cs u1 u2 d :
  0 <= d ->
  Forall3 replies_agree cs
    (run_calls Account4o.call (map call4o cs) (Account4o.init u1 d)).1
    (run_calls AccountNew.call (map callnew cs) (AccountNew.init u2 d ∅ 1%positive)).1 /\
  same_ledger (run_calls Account4o.call (map call4o cs) (Account4o.init u1 d)).2
    (run_calls AccountNew.call (map callnew cs) (AccountNew.init u2 d ∅ 1%positive)).2.
Proof.
  intros Hd. apply variants_run.
  - unfold same_ledger. cbn -[py_max0]. rewrite py_max0_Z. split; [lia|done].
  - apply init_new_inv; [done|]. intros l _. apply lookup_empty.
Qed.

Lemma variants_agree_witness :
  0 <= 1000 /\
  Forall3 replies_agree [Deposit 500; Buy "aapl" 2; Sell "AAPL" 1; Withdraw 5000]
    (run_calls Account4o.call (map call4o [Deposit 500; Buy "aapl" 2; Sell "AAPL" 1; Withdraw 5000])
       (Account4o.init "a" 1000)).1
    (run_calls AccountNew.call (map callnew [Deposit 500; Buy "aapl" 2; Sell "AAPL" 1; Withdraw 5000])
       (AccountNew.init "u" 1000 ∅ 1%positive)).1 /\
  same_ledger
    (run_calls Account4o.call (map call4o [Deposit 500; Buy "aapl" 2; Sell "AAPL" 1; Withdraw 5000])
       (Account4o.init "a" 1000)).2
    (run_calls AccountNew.call (map callnew [Deposit 500; Buy "aapl" 2; Sell "AAPL" 1; Withdraw 5000])
       (AccountNew.init "u" 1000 ∅ 1%positive)).2.
Proof. split; [lia|]. apply variants_agree. lia. Defined.
(** ** [mini] and [new]: exceptions against booleans *)

Definition callmini (c : Cmd) : @AccountMini.Call Z :=
  match c with
  | Deposit a => AccountMini.CallDeposit a
  | Withdraw a => AccountMini.CallWithdraw a
  | Buy sym q => AccountMini.CallBuy sym q
  | Sell sym q => AccountMini.CallSell sym q
  end.

(** [mini] raises [ValueError] exactly where [new] returns [False], and
    returns [None] where [new] returns [True]. *)
Definition mini_replies_agree (c : Cmd) (o1 : outcome (@AccountMini.Reply Z))
    (o2 : outcome (@AccountNew.Reply Z)) : Prop :=
  match c, o1, o2 with
  | Deposit _, Return AccountMini.RNone, Return AccountNew.RNone => True
  | Deposit _, _, _ => False
  | _, Return AccountMini.RNone, Return (AccountNew.RBool true) => True
  | _, Raise (ValueError _), Return (AccountNew.RBool false) => True
  | _, _, _ => False
  end.

Definition mini_same_ledger (s : @AccountMini.Account Z) (w : @AccountNew.World Z) : Prop :=
  AccountMini.initial_deposit s = AccountNew.initial_deposit (AccountNew.acct w) /\
  AccountMini.balance s = AccountNew.balance (AccountNew.acct w) /\
  AccountMini.holdings s = AccountNew.holdings (AccountNew.acct w).

(** The command names its symbol in upper case, where the two price
    lookups agree. *)
Definition upper_cmd (c : Cmd) : Prop :=
  match c with Buy sym _ | Sell sym _ => str_upper sym = sym | _ => True end.

Lemma mini_new_price sym :
  str_upper sym = sym -> AccountMini.get_share_price (A:=Z) sym = AccountNew.get_share_price sym.
Proof. intros H. unfold AccountNew.get_share_price. by rewrite H. Qed.

Lemma mini_new_step c s w :
  upper_cmd c -> mini_same_ledger s w ->
  mini_replies_agree c (py_run (AccountMini.call (callmini c)) s).1
    (py_run (AccountNew.call (callnew c)) w).1 /\
  mini_same_ledger (py_run (AccountMini.call (callmini c)) s).2 (py_run (AccountNew.call (callnew c)) w).2.
Proof.
  intros Hup (Hd & Hb & Hh). unfold mini_same_ledger.
  destruct c as [a|a|sym q|sym q]; cbn [upper_cmd] in Hup;
    cbn [callmini callnew AccountMini.call AccountNew.call]; rewrite !py_run_fmap;
    rewrite ?mini_deposit_run, ?mini_withdraw_run, ?mini_buy_run, ?mini_sell_run,
      ?new_deposit_run, ?new_withdraw_run, ?new_buy_run, ?new_sell_run;
    cbv zeta; rewrite ?mini_new_price, ?Hd, ?Hb, ?Hh by done;
    new_guards; cbn; split_and!; done.
Qed.
(** C23: the [mini] and [new] accounts, constructed with the same
    initial deposit (any, and [new] in any heap) and driven by the same
    script whose symbols are upper case, change balance, holdings and
    profit baseline identically, and [mini] raises [ValueError] exactly
    where [new] returns [False] (returning [None] where [new] returns
    [True]): the two variants differ only in how they signal failure. *)
Theorem mini_new_agree cs u1 u2 d hp nx :
  Forall upper_cmd cs ->
  Forall3 mini_replies_agree cs
    (run_calls AccountMini.call (map callmini cs) (AccountMini.init u1 d)).1
    (run_calls AccountNew.call (map callnew cs) (AccountNew.init u2 d hp nx)).1 /\
  mini_same_ledger (run_calls AccountMini.call (map callmini cs) (AccountMini.init u1 d)).2
    (run_calls AccountNew.call (map callnew cs) (AccountNew.init u2 d hp nx)).2.
Proof.
  intros Hup. apply (run_calls_simulation _ _ _ _ upper_cmd);
    [exact mini_new_step|exact Hup|by split_and!].
Qed.

Lemma mini_new_agree_witness :
  Forall upper_cmd [Buy "AAPL" 2; Withdraw 5000; Sell "AAPL" 3; Sell "AAPL" 2] /\
  Forall3 mini_replies_agree [Buy "AAPL" 2; Withdraw 5000; Sell "AAPL" 3; Sell "AAPL" 2]
    (run_calls AccountMini.call (map callmini [Buy "AAPL" 2; Withdraw 5000; Sell "AAPL" 3; Sell "AAPL" 2])
       (AccountMini.init "m" 1000)).1
    (run_calls AccountNew.call (map callnew [Buy "AAPL" 2; Withdraw 5000; Sell "AAPL" 3; Sell "AAPL" 2])
       (AccountNew.init "n" 1000 ∅ 1%positive)).1 /\
  mini_same_ledger
    (run_calls AccountMini.call (map callmini [Buy "AAPL" 2; Withdraw 5000; Sell "AAPL" 3; Sell "AAPL" 2])
       (AccountMini.init "m" 1000)).2
    (run_calls AccountNew.call (map callnew [Buy "AAPL" 2; Withdraw 5000; Sell "AAPL" 3; Sell "AAPL" 2])
       (AccountNew.init "n" 1000 ∅ 1%positive)).2.
Proof.
  assert (Hup : Forall upper_cmd [Buy "AAPL" 2; Withdraw 5000; Sell "AAPL" 3; Sell "AAPL" 2])
    by (repeat constructor).
  split; [exact Hup|]. apply mini_new_agree. exact Hup.
Defined.

(** [mini]'s table lists upper-case symbols only. *)
Lemma mini_priced_upper symbol : AccountMini.get_share_price (A:=Z) symbol <> 0 -> str_upper symbol = symbol.
Proof.
  unfold AccountMini.get_share_price, AccountMini.prices, dict_get. cbn.
  repeat (case_decide; [subst; reflexivity|]). cbn. done.
Qed.

(** Both variants quote the same table, [new] through [symbol.upper()]. *)
Lemma new_price_upper symbol :
  AccountNew.get_share_price (A:=Z) symbol = AccountMini.get_share_price (str_upper symbol).
Proof. reflexivity. Qed.

(** C24: on a symbol that is not upper case the two variants part.  For
    every [mini] object and [new] object, every positive quantity, and
    every symbol whose upper-case form is a listed stock that the [new]
    balance can pay for, [mini] looks the symbol up as given, finds no
    price and raises [ValueError('Invalid stock symbol: ...')] without
    change, while [new] looks up [symbol.upper()] and buys.  The command
    is not [upper_cmd], so C23 does not cover it. *)
Theorem mini_new_lowercase_diverge (m : @AccountMini.Account Z) (w : @AccountNew.World Z) symbol q :
  str_upper symbol <> symbol -> 0 < q ->
  AccountMini.get_share_price (str_upper symbol) <> 0 ->
  AccountMini.get_share_price (str_upper symbol) * q <= AccountNew.balance (AccountNew.acct w) ->
  py_run (AccountMini.buy_shares symbol q) m =
    (Raise (ValueError ("Invalid stock symbol: " ++ symbol)), m) /\
  (py_run (AccountNew.buy_shares symbol q) w).1 = Return true.
Proof.
  intros Hup Hq Hp Hb. split.
  - rewrite mini_buy_run. assert (AccountMini.get_share_price (A:=Z) symbol = 0).
    { destruct (decide (AccountMini.get_share_price (A:=Z) symbol = 0)) as [|Hn]; [done|].
      by apply mini_priced_upper in Hn. }
    guards; congruence.
  - rewrite new_buy_run, new_price_upper. cbv zeta. guards; reflexivity.
Qed.

Lemma mini_new_lowercase_diverge_witness :
  str_upper "aapl" <> "aapl" /\ 0 < 2 /\
  AccountMini.get_share_price (A:=Z) (str_upper "aapl") <> 0 /\
  AccountMini.get_share_price (str_upper "aapl") * 2 <=
    AccountNew.balance (AccountNew.acct (AccountNew.init (A:=Z) "u" 1000 ∅ 1%positive)) /\
  py_run (AccountMini.buy_shares "aapl" 2) (AccountMini.init "u" 1000) =
    (Raise (ValueError "Invalid stock symbol: aapl"), AccountMini.init "u" 1000).
Proof.
  assert (Hup : str_upper "aapl" <> "aapl") by (vm_compute; discriminate).
  assert (Hq : 0 < 2) by lia.
  assert (Hp : AccountMini.get_share_price (A:=Z) (str_upper "aapl") <> 0) by (vm_compute; discriminate).
  assert (Hb : AccountMini.get_share_price (str_upper "aapl") * 2 <=
    AccountNew.balance (AccountNew.acct (AccountNew.init (A:=Z) "u" 1000 ∅ 1%positive)))
    by (vm_compute; discriminate).
  refine (conj Hup (conj Hq (conj Hp (conj Hb _)))).
  exact (proj1 (mini_new_lowercase_diverge (AccountMini.init "u" 1000) (AccountNew.init "u" 1000 ∅ 1%positive)
    "aapl" 2 Hup Hq Hp Hb)).
Defined.
End Variants.
