(* ===== verification/Interleaving.v ===== *)
(** * The [4o] methods interleaved statement by statement

    Every method of [example_output_4o/accounts.py] reads the balance or
    the holdings, tests them, and then writes them in later statements:
    [deposit] credits the balance (line 48) and reads it again for its
    log entry's snapshot (line 51);
    [withdraw] checks [amount > self.balance] (line 56) before
    [self.balance -= amount] (line 58); [buy_shares] checks
    [total_cost > self.balance] (line 77) before debiting (line 80);
    [sell_shares] checks [self._holdings.get(symbol, 0) < quantity]
    (line 101) before [self._holdings[symbol] -= quantity] (line 109).
    The class has no lock.  Spec section 5 requires one mutual-exclusion
    boundary per ledger if it is ever exposed to concurrent callers (a UI
    server running handlers on a thread pool, for instance).

    This file models a call in progress as a program counter ([Pc]) that
    records the method's arguments and locals at each statement boundary,
    one [Py] step per statement ([stmt]), and a scheduler that runs one
    statement of a chosen thread against the shared object ([sched_step]).
    It proves that a call run alone is the method of [Account4o.v]
    ([run_alone_method]) and terminates within [steps_left] steps, and
    that interleavings break the ledger (an overspending pair of buys, a
    pair of sells that raises [KeyError], a deposit whose snapshot comes
    after a withdrawal it funded).  [LockedSchedules.v] adds the
    spec's lock. *)

From Stdlib Require Import ZArith Lia String.
From stdpp Require Import base list strings gmap.
From S2P Require Import Prelude PyNum PyDict PyStr Session LedgerSpec Holdings Account4o Account4oProps.
Import Account4o.

Open Scope Z_scope.

Module Interleaving.

(** A call in progress: which statement runs next, with the arguments and
    the locals computed so far. *)
Inductive Pc :=
(* deposit(amount) *)
| DCheck (amount : Z)                 (* line 46 *)
| DCredit (amount : Z)                (* line 48 *)
| DNet (amount : Z)                   (* line 49 *)
| DLog (amount : Z)                   (* lines 50-52 *)
(* withdraw(amount) *)
| WCheck (amount : Z)                 (* line 56 *)
| WDebit (amount : Z)                 (* line 58 *)
| WNet (amount : Z)                   (* line 59 *)
| WLog (amount : Z)                   (* lines 60-62 *)
(* buy_shares(symbol, quantity, price_lookup) *)
| BArgs (symbol : string) (quantity : Z)                      (* lines 71-76 *)
| BFunds (symbol : string) (quantity price total : Z)         (* line 77 *)
| BDebit (symbol : string) (quantity price total : Z)         (* line 80 *)
| BHold (symbol : string) (quantity price total : Z)          (* line 81 *)
| BLog (symbol : string) (quantity price total : Z)           (* lines 82-92 *)
(* sell_shares(symbol, quantity, price_lookup) *)
| SCheck (symbol : string) (quantity : Z)                     (* line 101 *)
| SPrice (symbol : string) (quantity : Z)                     (* lines 103-106 *)
| SCredit (symbol : string) (quantity price total : Z)        (* line 108 *)
| SDec (symbol : string) (quantity price total : Z)           (* line 109 *)
| SReread (symbol : string) (quantity price total : Z)        (* line 110 *)
| SDel (symbol : string) (quantity price total : Z)           (* line 111 *)
| SLog (symbol : string) (quantity price total : Z)           (* lines 112-122 *)
(* the call has returned or raised *)
| Done (o : outcome bool).

Section Stmts.
(** The [price_lookup] every call is made with. *)
Variable p : string -> Z.

(** One statement of a call in progress, against the shared object. *)
Definition stmt (pc : Pc) : Py (@Account Z) Pc :=
  match pc with
  | DCheck a => mret (if a <=? 0 then Done (Return false) else DCredit a)
  | DCredit a => py_modify (fun s => set_balance (balance s + a) s);; mret (DNet a)
  | DNet a => py_modify (fun s => set_net_deposits (net_deposits s + a) s);; mret (DLog a)
  | DLog a =>
      py_modify (fun s => append_tx (cash_tx "deposit" a (balance s)) s);; mret (Done (Return true))
  | WCheck a =>
      s ← py_get; mret (if (a <=? 0) || (balance s <? a) then Done (Return false) else WDebit a)
  | WDebit a => py_modify (fun s => set_balance (balance s - a) s);; mret (WNet a)
  | WNet a => py_modify (fun s => set_net_deposits (net_deposits s - a) s);; mret (WLog a)
  | WLog a =>
      py_modify (fun s => append_tx (cash_tx "withdraw" a (balance s)) s);; mret (Done (Return true))
  | BArgs sym q =>
      if q <=? 0 then mret (Done (Return false)) else
      let price := p sym in
      if price <=? 0 then mret (Done (Return false)) else mret (BFunds sym q price (price * q))
  | BFunds sym q price total =>
      s ← py_get; mret (if balance s <? total then Done (Return false) else BDebit sym q price total)
  | BDebit sym q price total =>
      py_modify (fun s => set_balance (balance s - total) s);; mret (BHold sym q price total)
  | BHold sym q price total =>
      py_modify (fun s => set_holdings
        (dict_setitem (holdings s) sym (dict_get (holdings s) sym 0 + q)) s);;
      mret (BLog sym q price total)
  | BLog sym q price total =>
      py_modify (fun s => append_tx (mkTransaction "buy" total (balance s)
        (Some sym) (Some q) (Some price) (Some total)) s);;
      mret (Done (Return true))
  | SCheck sym q =>
      s ← py_get;
      mret (if (q <=? 0) || (dict_get (holdings s) sym 0 <? q) then Done (Return false) else SPrice sym q)
  | SPrice sym q =>
      let price := p sym in
      if price <=? 0 then mret (Done (Return false)) else mret (SCredit sym q price (price * q))
  | SCredit sym q price total =>
      py_modify (fun s => set_balance (balance s + total) s);; mret (SDec sym q price total)
  | SDec sym q price total =>
      q0 ← holdings_getitem sym;
      py_modify (fun s => set_holdings (dict_setitem (holdings s) sym (q0 - q)) s);;
      mret (SReread sym q price total)
  | SReread sym q price total =>
      q' ← holdings_getitem sym;
      mret (if q' =? 0 then SDel sym q price total else SLog sym q price total)
  | SDel sym q price total => holdings_delitem sym;; mret (SLog sym q price total)
  | SLog sym q price total =>
      py_modify (fun s => append_tx (mkTransaction "sell" total (balance s)
        (Some sym) (Some q) (Some price) (Some total)) s);;
      mret (Done (Return true))
  | Done o => mret (Done o)
  end.

(** An upper bound on the statements a call still runs. *)
Definition steps_left (pc : Pc) : nat :=
  match pc with
  | DCheck _ => 4 | DCredit _ => 3 | DNet _ => 2 | DLog _ => 1
  | WCheck _ => 4 | WDebit _ => 3 | WNet _ => 2 | WLog _ => 1
  | BArgs _ _ => 5 | BFunds _ _ _ _ => 4 | BDebit _ _ _ _ => 3 | BHold _ _ _ _ => 2
  | BLog _ _ _ _ => 1
  | SCheck _ _ => 7 | SPrice _ _ => 6 | SCredit _ _ _ _ => 5 | SDec _ _ _ _ => 4
  | SReread _ _ _ _ => 3 | SDel _ _ _ _ => 2 | SLog _ _ _ _ => 1
  | Done _ => 0
  end.

(** A raise ends the call with the exception. *)
Definition step1 (pc : Pc) (s : @Account Z) : Pc * @Account Z :=
  match py_run (stmt pc) s with
  | (Return pc', s') => (pc', s')
  | (Raise e, s') => (Done (Raise e), s')
  end.

(** Running one call alone, with fuel. *)
Fixpoint run_alone (n : nat) (pc : Pc) (s : @Account Z) : Pc * @Account Z :=
  match n with
  | O => (pc, s)
  | S n' => match pc with Done _ => (pc, s) | _ => let '(pc', s') := step1 pc s in run_alone n' pc' s' end
  end.
End Stmts.

Section Alone.
Variable p : string -> Z.
Implicit Types (pc : Pc) (s : @Account Z).

Definition is_done pc : bool := match pc with Done _ => true | _ => false end.

Lemma run_alone_S n pc s :
  is_done pc = false -> run_alone p (S n) pc s = run_alone p n (step1 p pc s).1 (step1 p pc s).2.
Proof.
  intros Hd. destruct pc; try discriminate; cbn [run_alone];
    lazymatch goal with |- context [step1 p ?x ?y] => by destruct (step1 p x y) end.
Qed.

(** Every statement brings the call closer to its end. *)
Lemma step1_progress pc s :
  is_done pc = false -> (steps_left (step1 p pc s).1 < steps_left pc)%nat.
Proof.
  destruct pc; intros Hd; try discriminate; unfold step1; cbn;
    repeat (case_match; cbn; simplify_eq/=); lia.
Qed.

(** Enough fuel ends the call, and more fuel changes nothing. *)
Lemma run_alone_done n pc s :
  (steps_left pc <= n)%nat -> is_done (run_alone p n pc s).1 = true.
Proof.
  revert pc s. induction n as [|n IH]; intros pc s Hn.
  - destruct pc; cbn in *; done || lia.
  - destruct (is_done pc) eqn:Hd; [destruct pc; done|].
    pose proof (step1_progress pc s Hd) as Hp.
    rewrite run_alone_S by done. apply IH. lia.
Qed.

Lemma run_alone_fuel n m pc s :
  (steps_left pc <= n)%nat -> (n <= m)%nat -> run_alone p m pc s = run_alone p n pc s.
Proof.
  revert m pc s. induction n as [|n IH]; intros m pc s Hn Hm.
  - destruct pc; cbn in Hn; try lia. destruct m; reflexivity.
  - destruct m as [|m]; [lia|]. cbn.
    destruct (is_done pc) eqn:Hd; [destruct pc; done|].
    pose proof (step1_progress pc s Hd).
    destruct pc; try discriminate; destruct (step1 p _ s) as [pc' s'] eqn:E; cbn in *;
      apply IH; lia.
Qed.

(** The mutating methods a thread can call, and where each starts. *)
Inductive Op :=
| ODeposit (amount : Z)
| OWithdraw (amount : Z)
| OBuy (symbol : string) (quantity : Z)
| OSell (symbol : string) (quantity : Z).

Definition entry (o : Op) : Pc :=
  match o with ODeposit a => DCheck a | OWithdraw a => WCheck a | OBuy sym q => BArgs sym q | OSell sym q => SCheck sym q end.

Definition method (o : Op) : Py (@Account Z) bool :=
  match o with
  | ODeposit a => deposit a
  | OWithdraw a => withdraw a
  | OBuy sym q => buy_shares p sym q
  | OSell sym q => sell_shares p sym q
  end.

(** A call run alone is the method. *)
Lemma run_alone_entry o s :
  run_alone p (steps_left (entry o)) (entry o) s =
  (Done (py_run (method o) s).1, (py_run (method o) s).2).
Proof.
  destruct o as [a|a|sym q|sym q]; cbn [entry method steps_left];
    rewrite ?deposit_run, ?withdraw_run, ?buy_run, ?sell_run;
    repeat (guards; try reflexivity; rewrite run_alone_S by done; unfold step1; cbn -[run_alone]).
  (* the successful sale: the reads of [self._holdings[symbol]] *)
  rewrite (dict_get_pos_lookup _ _ q) by lia. cbn -[run_alone].
  rewrite run_alone_S by done. unfold step1. cbn -[run_alone].
  rewrite dict_lookup_setitem_eq. cbn -[run_alone]. unfold sell_holdings.
  destruct (dict_get (holdings s) sym 0 - q =? 0); rewrite !run_alone_S by done; unfold step1; cbn;
    rewrite ?dict_delitem_setitem; reflexivity.
Qed.

(** The statement-by-statement model of [deposit], [withdraw],
    [buy_shares] and [sell_shares] run without interference ends within
    [steps_left] statements (four, four, five and seven) with the outcome and
    the object of the method of [Account4o.v], for every [price_lookup]
    and every object: the split into statements is faithful, and each
    call terminates. *)
Theorem run_alone_method o s n :
  (steps_left (entry o) <= n)%nat ->
  run_alone p n (entry o) s = (Done (py_run (method o) s).1, (py_run (method o) s).2).
Proof. intros Hn. rewrite (run_alone_fuel (steps_left (entry o)) n) by done. apply run_alone_entry. Qed.
End Alone.

(** ** Threads sharing one object *)

(** The shared object and the calls in progress, one per thread. *)
Record Cfg := mkCfg { shared : @Account Z; threads : list Pc }.

Section Scheduler.
Variable p : string -> Z.

(** The scheduler runs the next statement of thread [i]; a finished or
    missing thread does nothing. *)
Definition sched_step (i : nat) (c : Cfg) : Cfg :=
  match c.(threads) !! i with
  | Some pc =>
      if is_done pc then c else
      let '(pc', s') := step1 p pc c.(shared) in mkCfg s' (<[i := pc']> c.(threads))
  | None => c
  end.

(** A schedule: the threads whose statements run, in order. *)
Definition run_sched (sched : list nat) (c : Cfg) : Cfg :=
  fold_left (fun c i => sched_step i c) sched c.
End Scheduler.

(** ** Running schedules *)

Lemma run_sched_cons p i sch c : run_sched p (i :: sch) c = run_sched p sch (sched_step p i c).
Proof. reflexivity. Qed.

Lemma run_sched_nil p c : run_sched p [] c = c.
Proof. reflexivity. Qed.

(** After a position is set and deleted, it is absent. *)
Lemma dict_lookup_removed (d : dict string Z) k v :
  dict_wf d -> dict_lookup (dict_remove (dict_setitem d k v) k) k = None.
Proof.
  intros Hwf. rewrite <- to_map_lookup, to_map_remove by (by apply dict_setitem_wf).
  apply lookup_delete_eq.
Qed.

Lemma dict_get_removed (d : dict string Z) k v x :
  dict_wf d -> dict_get (dict_remove (dict_setitem d k v) k) k x = x.
Proof. intros Hwf. unfold dict_get. by rewrite dict_lookup_removed. Qed.

(** Run a schedule on a symbolic object one statement at a time: each
    guard is decided by [lia] from the hypotheses, [tac] rewrites the
    dict reads the statement makes. *)
Ltac sched_run_with tac :=
  repeat (rewrite run_sched_cons; unfold sched_step at 1, step1; cbn -[run_sched];
          tac; cbn -[run_sched]; guards;
          repeat match goal with H : (_ || _) = true |- _ => apply orb_true_iff in H as [H|H] end;
          zbool; try lia; try congruence);
  rewrite run_sched_nil; cbn.
Ltac sched_run := sched_run_with idtac.

(** Two threads sharing [s], one call each. *)
Definition two_threads (s : @Account Z) (o1 o2 : Op) : Cfg := mkCfg s [entry o1; entry o2].

(** Two threads each calling [buy_shares("AAPL", 4)] (600 at the default
    price) on [Account("a", 1000)]. *)
Definition two_buys : Cfg := two_threads (init "a" 1000) (OBuy "AAPL" 4) (OBuy "AAPL" 4).

(** C28: without a lock the check-then-act of [buy_shares] overspends.
    For every [price_lookup], symbol, quantity and object whose balance
    covers one purchase but not two, when two threads calling
    [buy_shares(symbol, quantity)] alternate statements, both pass
    [total_cost > self.balance] before either debits, both return [True],
    the balance ends two costs lower, below zero, with both quantities
    booked, and the ledger invariant fails; run one after the other, the
    second call returns [False]. *)
Theorem interleaved_buys_overspend (p : string -> Z) sym q s :
  0 < q -> 0 < p sym -> p sym * q <= balance s < 2 * (p sym * q) ->
  let c := run_sched p [0; 1; 0; 1; 0; 1; 0; 1; 0; 1]%nat (two_threads s (OBuy sym q) (OBuy sym q)) in
  c.(threads) = [Done (Return true); Done (Return true)] /\
  balance c.(shared) = balance s - 2 * (p sym * q) /\ ~ ledger_inv c.(shared) /\
  dict_get (holdings c.(shared)) sym 0 = dict_get (holdings s) sym 0 + 2 * q /\
  (run_sched p [0; 0; 0; 0; 0; 1; 1]%nat (two_threads s (OBuy sym q) (OBuy sym q))).(threads) =
    [Done (Return true); Done (Return false)].
Proof.
  intros Hq Hp Hb. cbv zeta. unfold two_threads.
  split_and!; sched_run; rewrite ?dict_get_setitem_eq; try reflexivity; try lia.
  intros Hinv. apply inv_balance_nonneg in Hinv. cbn in Hinv. lia.
Qed.

Lemma interleaved_buys_overspend_witness :
  0 < 4 /\ 0 < get_share_price (A:=Z) "AAPL" /\
  get_share_price "AAPL" * 4 <= balance (init "a" 1000) < 2 * (get_share_price "AAPL" * 4) /\
  (run_sched get_share_price [0; 1; 0; 1; 0; 1; 0; 1; 0; 1]%nat two_buys).(threads) =
    [Done (Return true); Done (Return true)].
Proof.
  assert (E : get_share_price (A:=Z) "AAPL" = 150) by reflexivity.
  assert (Hq : 0 < 4) by lia.
  assert (Hp : 0 < get_share_price (A:=Z) "AAPL") by (rewrite E; lia).
  assert (Hb : get_share_price "AAPL" * 4 <= balance (init "a" 1000) < 2 * (get_share_price "AAPL" * 4))
    by (rewrite E; cbn; lia).
  refine (conj Hq (conj Hp (conj Hb _))).
  exact (proj1 (interleaved_buys_overspend get_share_price "AAPL" 4 (init "a" 1000) Hq Hp Hb)).
Defined.

(** [Account("a", 1000)] after [buy_shares("AAPL", 2)]: balance 700. *)
Definition holding_two : @Account Z := (py_run (buy_shares get_share_price "AAPL" 2) (init "a" 1000)).2.

(** C29: two threads selling the same whole position.  For every
    [price_lookup] with a positive price, and every object holding exactly
    [quantity] shares of the symbol (in a dict without duplicate keys),
    two threads calling [sell_shares(symbol, quantity)] both pass the
    holdings check and both credit the revenue; the first then sets the
    position to 0 and deletes it, and the second's
    [self._holdings[symbol] -= quantity] raises [KeyError], an exception
    no sequential call raises.  The object ends with two revenues
    credited and no position; run one after the other the second sale
    returns [False] and one revenue is credited. *)
Theorem interleaved_sells_raise (p : string -> Z) sym q s :
  0 < q -> 0 < p sym -> dict_wf (holdings s) -> dict_lookup (holdings s) sym = Some q ->
  let c := run_sched p [0; 1; 0; 1; 0; 1; 0; 0; 0; 1; 0]%nat (two_threads s (OSell sym q) (OSell sym q)) in
  c.(threads) = [Done (Return true); Done (Raise (KeyError sym))] /\
  balance c.(shared) = balance s + 2 * (p sym * q) /\ dict_lookup (holdings c.(shared)) sym = None /\
  let c' := run_sched p [0; 0; 0; 0; 0; 0; 0; 1]%nat (two_threads s (OSell sym q) (OSell sym q)) in
  c'.(threads) = [Done (Return true); Done (Return false)] /\
  balance c'.(shared) = balance s + p sym * q.
Proof.
  intros Hq Hp Hwf Hl. assert (Hg : dict_get (holdings s) sym 0 = q) by (unfold dict_get; by rewrite Hl).
  cbv zeta. unfold two_threads.
  split_and!; sched_run_with ltac:(rewrite ?Hl, ?Hg, ?dict_lookup_setitem_eq, ?dict_delitem_setitem,
    ?dict_lookup_removed, ?dict_get_removed by done); try reflexivity; try lia.
  by apply dict_lookup_removed.
Qed.

Lemma interleaved_sells_raise_witness :
  0 < 2 /\ 0 < get_share_price (A:=Z) "AAPL" /\ dict_wf (holdings holding_two) /\
  dict_lookup (holdings holding_two) "AAPL" = Some 2 /\
  (run_sched get_share_price [0; 1; 0; 1; 0; 1; 0; 0; 0; 1; 0]%nat
     (two_threads holding_two (OSell "AAPL" 2) (OSell "AAPL" 2))).(threads) =
    [Done (Return true); Done (Raise (KeyError "AAPL"))].
Proof.
  assert (Hq : 0 < 2) by lia.
  assert (Hp : 0 < get_share_price (A:=Z) "AAPL") by (vm_compute; reflexivity).
  assert (Hwf : dict_wf (holdings holding_two)) by (vm_compute; repeat constructor; intros Hin; inversion Hin).
  assert (Hl : dict_lookup (holdings holding_two) "AAPL" = Some 2) by (vm_compute; reflexivity).
  refine (conj Hq (conj Hp (conj Hwf (conj Hl _)))).
  exact (proj1 (interleaved_sells_raise get_share_price "AAPL" 2 holding_two Hq Hp Hwf Hl)).
Defined.

(** C32: [deposit] reads [self.balance] for its log entry's snapshot
    (line 51) two statements after crediting it (line 48).  On every
    object satisfying the ledger invariant, when a [withdraw(w)] that the
    balance alone does not cover but the deposit does runs between those
    statements of a [deposit(a)], it passes its check on the credited
    balance and logs its entry first: both calls return [True], the log
    lists the withdrawal before the deposit that funds it, both entries
    record the final balance as their snapshot, and the ledger invariant
    fails (the withdrawal's snapshot is not the running sum of the log up
    to it) although no guard was bypassed.  Run one after the other, the
    deposit logs the credited balance and the withdrawal the final one. *)
Theorem interleaved_deposit_snapshots (p : string -> Z) a w s :
  ledger_inv s -> 0 < a -> balance s < w <= balance s + a ->
  let c := run_sched p [0; 0; 1; 1; 1; 1; 0; 0]%nat (two_threads s (ODeposit a) (OWithdraw w)) in
  c.(threads) = [Done (Return true); Done (Return true)] /\
  transactions c.(shared) = transactions s ++
    [cash_tx "withdraw" w (balance s + a - w); cash_tx "deposit" a (balance s + a - w)] /\
  ~ ledger_inv c.(shared) /\
  let c' := run_sched p [0; 0; 0; 0; 1; 1; 1; 1]%nat (two_threads s (ODeposit a) (OWithdraw w)) in
  c'.(threads) = [Done (Return true); Done (Return true)] /\
  transactions c'.(shared) = transactions s ++
    [cash_tx "deposit" a (balance s + a); cash_tx "withdraw" w (balance s + a - w)].
Proof.
  intros Hinv Ha Hw. pose proof (inv_balance_nonneg _ Hinv). cbv zeta. unfold two_threads.
  split_and!; sched_run; try reflexivity; try (by rewrite <- app_assoc).
  intros Hinv'. pose proof (inv_snapshots _ Hinv' (length (transactions s))
    (cash_tx "withdraw" w (balance s + a - w))) as Hs.
  cbn [transactions append_tx set_net_deposits set_balance tx_balance cash_tx] in Hs.
  rewrite take_app_length' in Hs by (rewrite length_app; cbn; lia).
  rewrite zsum_snoc, <- (inv_balance_log _ Hinv) in Hs. cbn in Hs.
  enough (balance s + a - w = balance s + - w) by lia. apply Hs.
  by rewrite <- app_assoc, lookup_app_r, Nat.sub_diag by lia.
Qed.

Lemma interleaved_deposit_snapshots_witness :
  ledger_inv (init "a" 1000) /\ 0 < 100 /\ balance (init "a" 1000) < 1050 <= balance (init "a" 1000) + 100 /\
  (run_sched get_share_price [0; 0; 1; 1; 1; 1; 0; 0]%nat
     (two_threads (init "a" 1000) (ODeposit 100) (OWithdraw 1050))).(threads) =
    [Done (Return true); Done (Return true)].
Proof.
  assert (Hinv : ledger_inv (init "a" 1000)) by apply init_inv.
  assert (Ha : 0 < 100) by lia.
  assert (Hw : balance (init "a" 1000) < 1050 <= balance (init "a" 1000) + 100) by (cbn; lia).
  refine (conj Hinv (conj Ha (conj Hw _))).
  exact (proj1 (interleaved_deposit_snapshots get_share_price 100 1050 (init "a" 1000) Hinv Ha Hw)).
Defined.

End Interleaving.
