(* ===== verification/LockedSchedules.v ===== *)
(** * The spec's lock around the [4o] methods

    Spec section 5 asks for one mutual-exclusion boundary per ledger
    around every public method.  This file adds that lock to the
    statement-level model of [Interleaving.v]: a thread may run the
    first statement of a call only when no other call is in progress
    ([locked_step]).  Under the lock
    - every idle configuration keeps the ledger invariant
      ([locked_schedules_keep_inv]);
    - every schedule is serializable: the object and each thread's
      outcome are those of running the calls one after the other in the
      order they took the lock ([locked_schedules_serializable]);
    - a round-robin scheduler finishes every call
      ([locked_round_robin_finishes]). *)

From Stdlib Require Import ZArith Lia String.
From stdpp Require Import base list strings gmap.
From S2P Require Import Prelude PyNum PyDict PyStr Session LedgerSpec Holdings Account4o Account4oProps.
From S2P Require Import Interleaving.
Import Account4o Interleaving.

Open Scope Z_scope.

Module LockedSchedules.

(** ** The spec's lock *)

(** A call that has not run its first statement, and one that holds the
    lock: it has started and not yet returned. *)
Definition is_entry (pc : Pc) : bool :=
  match pc with DCheck _ | WCheck _ | BArgs _ _ | SCheck _ _ => true | _ => false end.
Definition started (pc : Pc) : bool := negb (is_entry pc || is_done pc).

Lemma is_entry_entry pc : is_entry pc = true -> exists o, pc = entry o.
Proof.
  destruct pc; try discriminate; intros _;
    first [by eexists (ODeposit _) | by eexists (OWithdraw _) | by eexists (OBuy _ _) | by eexists (OSell _ _)].
Qed.

Lemma entry_started o : started (entry o) = false.
Proof. by destruct o. Qed.

Section Lock.
Variable p : string -> Z.
Implicit Types (pc : Pc) (s : @Account Z) (c : Cfg).

(** One lock per object around each method body (spec section 5): a
    thread may start a call only when no call is in progress. *)
Definition locked_step (i : nat) c : Cfg :=
  match c.(threads) !! i with
  | Some pc =>
      if started pc || forallb (fun pc' => negb (started pc')) c.(threads) then sched_step p i c else c
  | None => c
  end.

Definition run_locked (sched : list nat) c : Cfg := fold_left (fun c i => locked_step i c) sched c.

(** No call in progress. *)
Definition idle c : Prop := Forall (fun pc => started pc = false) c.(threads).

Lemma step1_not_entry pc s : is_done pc = false -> is_entry (step1 p pc s).1 = false.
Proof.
  destruct pc; intros Hd; try discriminate; unfold step1; cbn;
    repeat (case_match; cbn; simplify_eq/=); done.
Qed.

(** The object the call in progress will leave, run to its end. *)
Definition completed pc s : @Account Z := (run_alone p 7 pc s).2.

(** Seven statements finish every call: a statement of a call in
    progress does not change where it will end. *)
Lemma run_alone7_step pc s :
  is_done pc = false -> run_alone p 7 (step1 p pc s).1 (step1 p pc s).2 = run_alone p 7 pc s.
Proof.
  intros Hd. pose proof (step1_progress p pc s Hd).
  assert (steps_left pc <= 7)%nat by (destruct pc; cbn; lia).
  rewrite (run_alone_S p 6 pc s Hd). by rewrite (run_alone_fuel p 6 7) by lia.
Qed.

Lemma run_alone7_entry o s :
  run_alone p 7 (entry o) s = (Done (py_run (method p o) s).1, (py_run (method p o) s).2).
Proof.
  rewrite (run_alone_fuel p (steps_left (entry o)) 7) by (destruct o; cbn; lia).
  apply run_alone_entry.
Qed.

Lemma completed_step pc s :
  is_done pc = false -> completed (step1 p pc s).1 (step1 p pc s).2 = completed pc s.
Proof. intros Hd. unfold completed. by rewrite run_alone7_step. Qed.

Lemma completed_method o s : completed (entry o) s = (py_run (method p o) s).2.
Proof. unfold completed. by rewrite run_alone7_entry. Qed.

Lemma completed_entry pc s : is_entry pc = true -> ledger_inv s -> ledger_inv (completed pc s).
Proof.
  intros He Hinv.
  destruct (is_entry_entry pc He) as [o ->].
  rewrite completed_method. destruct (py_run (method p o) s) as [r s'] eqn:E. cbn.
  destruct o; cbn [method] in E;
    [eapply deposit_preserves|eapply withdraw_preserves|eapply buy_preserves|eapply sell_preserves]; eauto.
Qed.

(** At most one call holds the lock. *)
Definition one_started c : Prop :=
  forall i j pi pj, c.(threads) !! i = Some pi -> c.(threads) !! j = Some pj ->
    started pi = true -> started pj = true -> i = j.

(** At most one call holds the lock, the object it will leave satisfies
    the ledger invariant, and an idle object satisfies it. *)
Record lock_inv c : Prop := {
  li_one : one_started c;
  li_busy : forall i pc, c.(threads) !! i = Some pc -> started pc = true ->
    ledger_inv (completed pc c.(shared));
  li_idle : idle c -> ledger_inv c.(shared);
}.

Lemma forallb_idle c : forallb (fun pc => negb (started pc)) c.(threads) = true -> idle c.
Proof.
  unfold idle. induction (threads c) as [|pc l IH]; cbn; [constructor|].
  intros [H1 H2]%andb_true_iff. constructor; [by destruct (started pc)|auto].
Qed.

(** The thread that may run is the only one that can hold the lock. *)
Lemma others_not_started c i pc :
  one_started c -> c.(threads) !! i = Some pc ->
  (started pc || forallb (fun pc => negb (started pc)) c.(threads)) = true ->
  forall j pj, j <> i -> c.(threads) !! j = Some pj -> started pj = false.
Proof.
  intros Hl Hi Hallow j pj Hne Hj. destruct (started pj) eqn:Hs; [|done]. exfalso.
  apply orb_true_iff in Hallow as [Hp|Hall].
  - exact (Hne (Hl _ _ _ _ Hj Hi Hs Hp)).
  - pose proof (Forall_lookup_1 _ _ _ _ (forallb_idle _ Hall) Hj). congruence.
Qed.

(** Only thread [i] may have started: after its statement, still at most one. *)
Lemma one_started_insert c i pc' s' :
  (forall j pj, j <> i -> c.(threads) !! j = Some pj -> started pj = false) ->
  one_started (mkCfg s' (<[i:=pc']> c.(threads))).
Proof.
  intros Hoth i1 j1 p1 p2 H1 H2 Hs1 Hs2. cbn [threads] in H1, H2.
  destruct (decide (i1 = i)), (decide (j1 = i)); subst; try done;
    rewrite list_lookup_insert_ne in * by congruence;
    [rewrite (Hoth j1 p2) in Hs2|rewrite (Hoth i1 p1) in Hs1|rewrite (Hoth i1 p1) in Hs1]; done.
Qed.

Lemma locked_step_inv i c : lock_inv c -> lock_inv (locked_step i c).
Proof.
  intros Hl. unfold locked_step. destruct (threads c !! i) as [pc|] eqn:Hi; [|done].
  destruct (started pc || _) eqn:Hallow; [|done].
  pose proof (others_not_started c i pc (li_one _ Hl) Hi Hallow) as Hoth.
  unfold sched_step. rewrite Hi. destruct (is_done pc) eqn:Hd; [done|].
  assert (Hc : ledger_inv (completed pc c.(shared))).
  { destruct (started pc) eqn:Hs; [by eapply li_busy|].
    apply completed_entry; [unfold started in Hs; rewrite Hd, orb_false_r in Hs; by destruct (is_entry pc)|].
    apply (li_idle _ Hl), forallb_idle. exact Hallow. }
  rewrite <- (completed_step pc _ Hd) in Hc. pose proof (step1_not_entry pc c.(shared) Hd) as Hne.
  destruct (step1 p pc c.(shared)) as [pc' s'] eqn:E. cbn [fst snd] in *.
  assert (Hnot : forall k pk, k <> i -> <[i:=pc']> (threads c) !! k = Some pk -> started pk = false)
    by (intros k pk Hk Hl'; rewrite list_lookup_insert_ne in Hl' by congruence; eauto).
  constructor; [by apply one_started_insert|..]; cbn.
  - intros i1 pc1 H1 Hs1. destruct (decide (i1 = i)) as [->|Hne1].
    + rewrite list_lookup_insert_eq in H1 by (eapply lookup_lt_Some; eauto). by simplify_eq.
    + by rewrite (Hnot i1 pc1) in Hs1.
  - intros Hidle. assert (Hlt : (i < length (threads c))%nat) by (eapply lookup_lt_Some; eauto).
    pose proof (Forall_lookup_1 _ _ i pc' Hidle (list_lookup_insert_eq _ _ _ Hlt)) as Hs'.
    destruct pc'; try discriminate. exact Hc.
Qed.

Lemma run_locked_inv sched c : lock_inv c -> lock_inv (run_locked sched c).
Proof.
  unfold run_locked. revert c. induction sched as [|i sched IH]; intros c Hl; cbn; [done|].
  apply IH, locked_step_inv, Hl.
Qed.
End Lock.

(** C30: with the spec's lock around each method body (a thread starts a
    call only when no call is in progress), every schedule of
    [deposit], [withdraw], [buy_shares] and [sell_shares] calls by any
    number of threads, from an object satisfying the ledger invariant, reaches only
    idle configurations whose object satisfies it again: non-negative
    balance, positive holdings, and balance, net deposits, positions and
    snapshots agreeing with the log. *)
Theorem locked_schedules_keep_inv p sched c :
  ledger_inv c.(shared) -> idle c -> idle (run_locked p sched c) ->
  ledger_inv (run_locked p sched c).(shared).
Proof.
  intros Hinv Hidle Hend. apply (li_idle p); [|done]. apply run_locked_inv.
  constructor; [| |done].
  - intros i j pi pj H1 _ Hs _. by rewrite (Forall_lookup_1 _ _ _ _ Hidle H1) in Hs.
  - intros i pc H1 Hs. by rewrite (Forall_lookup_1 _ _ _ _ Hidle H1) in Hs.
Qed.

Lemma locked_schedules_keep_inv_witness :
  ledger_inv two_buys.(shared) /\ idle two_buys /\
  idle (run_locked get_share_price [0; 1; 0; 1; 0; 1; 0; 1; 0; 1; 1]%nat two_buys) /\
  ledger_inv (run_locked get_share_price [0; 1; 0; 1; 0; 1; 0; 1; 0; 1; 1]%nat two_buys).(shared).
Proof.
  assert (H0 : ledger_inv two_buys.(shared)) by apply init_inv.
  assert (Hi : idle two_buys) by (repeat constructor).
  assert (He : idle (run_locked get_share_price [0; 1; 0; 1; 0; 1; 0; 1; 0; 1; 1]%nat two_buys))
    by (vm_compute; repeat constructor).
  split_and!; [exact H0|exact Hi|exact He|].
  exact (locked_schedules_keep_inv get_share_price _ two_buys H0 Hi He).
Defined.

(** ** Serializability under the lock *)

(** The method a call that has not started will run. *)
Definition entry_op (pc : Pc) : option Op :=
  match pc with
  | DCheck a => Some (ODeposit a)
  | WCheck a => Some (OWithdraw a)
  | BArgs sym q => Some (OBuy sym q)
  | SCheck sym q => Some (OSell sym q)
  | _ => None
  end.

Lemma entry_op_Some pc o : entry_op pc = Some o -> pc = entry o.
Proof. destruct pc; cbn; intros; simplify_eq; reflexivity. Qed.

Lemma entry_op_None pc : entry_op pc = None -> is_entry pc = false.
Proof. by destruct pc. Qed.

Section Serial.
Variable p : string -> Z.
Implicit Types (pc : Pc) (s : @Account Z) (c : Cfg) (h : list (nat * Op)).

(** The calls of a history run one after the other: each thread's
    outcome, and the object at the end. *)
Fixpoint seq_run h s : list (nat * outcome bool) * @Account Z :=
  match h with
  | [] => ([], s)
  | (i, o) :: h' =>
      let '(r, s1) := py_run (method p o) s in
      let '(rs, s2) := seq_run h' s1 in
      ((i, r) :: rs, s2)
  end.

(** The locked scheduler, recording which thread takes the lock with
    which call. *)
Definition hstep (i : nat) (ch : Cfg * list (nat * Op)) : Cfg * list (nat * Op) :=
  let '(c, h) := ch in
  (locked_step p i c,
   match c.(threads) !! i with
   | Some pc =>
       match entry_op pc with
       | Some o => if forallb (fun pc' => negb (started pc')) c.(threads) then h ++ [(i, o)] else h
       | None => h
       end
   | None => h
   end).

Definition run_hist (sched : list nat) (ch : Cfg * list (nat * Op)) : Cfg * list (nat * Op) :=
  fold_left (fun ch i => hstep i ch) sched ch.

(** The configuration with the call in progress, if any, run to its end. *)
Definition complete c : Cfg :=
  match list_find (fun pc => started pc = true) c.(threads) with
  | Some (i, pc) => let '(pc', s') := run_alone p 7 pc c.(shared) in mkCfg s' (<[i := pc']> c.(threads))
  | None => c
  end.

Lemma run_hist_fst sched c h : (run_hist sched (c, h)).1 = run_locked p sched c.
Proof.
  unfold run_hist, run_locked. revert c h. induction sched as [|i sched IH]; intros c h; [done|].
  cbn. apply IH.
Qed.

Lemma seq_run_snoc h i o s :
  seq_run (h ++ [(i, o)]) s =
  ((seq_run h s).1 ++ [(i, (py_run (method p o) (seq_run h s).2).1)],
   (py_run (method p o) (seq_run h s).2).2).
Proof.
  revert s. induction h as [|[j o'] h IH]; intros s; cbn.
  - by destruct (py_run (method p o) s).
  - destruct (py_run (method p o') s) as [r s1]. rewrite IH.
    by destruct (seq_run h s1).
Qed.

Lemma seq_run_fst h s : (seq_run h s).1.*1 = h.*1.
Proof.
  revert s. induction h as [|[j o] h IH]; intros s; cbn; [done|].
  destruct (py_run (method p o) s) as [r s1]. specialize (IH s1).
  destruct (seq_run h s1). cbn in *. by f_equal.
Qed.

(** No call in progress: completing changes nothing. *)
Lemma complete_none c :
  (forall i pc, c.(threads) !! i = Some pc -> started pc = false) -> complete c = c.
Proof.
  intros Hn. unfold complete.
  replace (list_find _ _) with (@None (nat * Pc)); [done|]. symmetry.
  apply list_find_None, Forall_lookup. intros i pc Hl. rewrite (Hn i pc Hl). done.
Qed.

(** One call in progress: completing runs it to its end. *)
Lemma complete_one c i pc :
  c.(threads) !! i = Some pc -> started pc = true ->
  (forall j pj, j <> i -> c.(threads) !! j = Some pj -> started pj = false) ->
  complete c = mkCfg (run_alone p 7 pc c.(shared)).2 (<[i := (run_alone p 7 pc c.(shared)).1]> c.(threads)).
Proof.
  intros Hi Hs Hoth. unfold complete.
  replace (list_find _ _) with (Some (i, pc)); [destruct (run_alone p 7 pc (shared c)); reflexivity|].
  symmetry.
  apply list_find_Some. split_and!; [done|done|].
  intros j y Hj Hlt Hy. rewrite (Hoth j y) in Hy by (done || lia). discriminate.
Qed.

(** A statement of the only call that may run leaves the completed
    configuration as it was, the call's entry included. *)
Lemma complete_after_step c i pc :
  c.(threads) !! i = Some pc -> is_done pc = false ->
  (forall j pj, j <> i -> c.(threads) !! j = Some pj -> started pj = false) ->
  complete (mkCfg (step1 p pc c.(shared)).2 (<[i := (step1 p pc c.(shared)).1]> c.(threads))) =
  mkCfg (run_alone p 7 pc c.(shared)).2 (<[i := (run_alone p 7 pc c.(shared)).1]> c.(threads)).
Proof.
  intros Hi Hd Hoth. rewrite <- (run_alone7_step p pc _ Hd).
  pose proof (step1_not_entry p pc c.(shared) Hd) as Hne.
  destruct (step1 p pc c.(shared)) as [pc' s'] eqn:E. cbn [fst snd] in *.
  assert (Hlt : (i < length (threads c))%nat) by (eapply lookup_lt_Some; eauto).
  assert (Hoth' : forall j pj, j <> i -> <[i:=pc']> (threads c) !! j = Some pj -> started pj = false)
    by (intros j pj Hj Hl; rewrite list_lookup_insert_ne in Hl by congruence; eauto).
  destruct (started pc') eqn:Hs.
  - rewrite (complete_one _ i pc'); cbn [shared threads]; [|by rewrite list_lookup_insert_eq|done|done].
    by rewrite list_insert_insert_eq.
  - rewrite complete_none.
    + destruct pc'; try discriminate. reflexivity.
    + intros j pj Hl. cbn [threads] in Hl. destruct (decide (j = i)) as [->|Hj]; [|eauto].
      rewrite list_lookup_insert_eq in Hl by done. by simplify_eq.
Qed.

(** The history [h] of the calls that took the lock, from the idle
    configuration [c0]: distinct threads, each running the call it held
    in [c0]; the others untouched; and the configuration, completed,
    is the sequential run of [h]. *)
Record serial_inv (c0 c : Cfg) h : Prop := {
  si_one : one_started c;
  si_nodup : NoDup h.*1;
  si_entry : forall i o, (i, o) ∈ h -> c0.(threads) !! i = Some (entry o);
  si_untouched : forall i, i ∉ h.*1 -> c.(threads) !! i = c0.(threads) !! i;
  si_shared : (seq_run h c0.(shared)).2 = (complete c).(shared);
  si_results : Forall (fun ir => (complete c).(threads) !! ir.1 = Some (Done ir.2)) (seq_run h c0.(shared)).1;
}.

Lemma sched_step_eq c i pc :
  c.(threads) !! i = Some pc -> is_done pc = false ->
  sched_step p i c = mkCfg (step1 p pc c.(shared)).2 (<[i := (step1 p pc c.(shared)).1]> c.(threads)).
Proof. intros Hi Hd. unfold sched_step. rewrite Hi, Hd. by destruct (step1 p pc c.(shared)). Qed.

(** A statement of the call holding the lock. *)
Lemma serial_inv_busy c0 c h i pc :
  idle c0 -> serial_inv c0 c h -> c.(threads) !! i = Some pc -> started pc = true ->
  serial_inv c0 (sched_step p i c) h.
Proof.
  intros Hidle0 Hs Hi Hst.
  assert (Hd : is_done pc = false) by (unfold started in Hst; by destruct (is_done pc), (is_entry pc)).
  pose proof (others_not_started c i pc (si_one _ _ _ Hs) Hi (orb_true_intro _ _ (or_introl Hst))) as Hoth.
  assert (Hin : i ∈ h.*1).
  { destruct (decide (i ∈ h.*1)) as [|Hn]; [done|]. rewrite (si_untouched _ _ _ Hs i Hn) in Hi.
    by rewrite (Forall_lookup_1 _ _ _ _ Hidle0 Hi) in Hst. }
  assert (Hc : complete (sched_step p i c) = complete c).
  { rewrite (sched_step_eq c i pc), (complete_after_step c i pc) by done.
    symmetry. by apply (complete_one c i pc). }
  rewrite (sched_step_eq c i pc) in Hc |- * by done.
  constructor; [by apply one_started_insert|apply (si_nodup _ _ _ Hs)|apply (si_entry _ _ _ Hs)| | |].
  - intros j Hj. cbn [threads]. rewrite list_lookup_insert_ne by (intros ->; contradiction).
    by apply (si_untouched _ _ _ Hs).
  - rewrite Hc. apply (si_shared _ _ _ Hs).
  - rewrite Hc. apply (si_results _ _ _ Hs).
Qed.

(** A thread taking the lock, from an idle configuration: the history
    grows by its call. *)
Lemma serial_inv_start c0 c h i o :
  serial_inv c0 c h -> idle c -> c.(threads) !! i = Some (entry o) ->
  serial_inv c0 (sched_step p i c) (h ++ [(i, o)]).
Proof.
  intros Hs Hidle Hi.
  assert (Hd : is_done (entry o) = false) by (by destruct o).
  assert (Hoth : forall j pj, j <> i -> c.(threads) !! j = Some pj -> started pj = false)
    by (intros j pj _ Hj; exact (Forall_lookup_1 _ _ _ _ Hidle Hj)).
  assert (Hcc : complete c = c)
    by (apply complete_none; intros j pj Hj; exact (Forall_lookup_1 _ _ _ _ Hidle Hj)).
  assert (Hlt : (i < length c.(threads))%nat) by (eapply lookup_lt_Some; eauto).
  pose proof (si_shared _ _ _ Hs) as Hsh. pose proof (si_results _ _ _ Hs) as Hres.
  rewrite Hcc in Hsh, Hres.
  assert (Hni : i ∉ h.*1).
  { rewrite <- (seq_run_fst h c0.(shared)). intros ([j r] & Heq & Hin)%list_elem_of_fmap.
    cbn in Heq. subst j. rewrite Forall_forall in Hres. specialize (Hres _ Hin). cbn in Hres.
    rewrite Hi in Hres. by destruct o. }
  assert (Hc : complete (sched_step p i c) =
    mkCfg (py_run (method p o) c.(shared)).2
      (<[i := Done (py_run (method p o) c.(shared)).1]> c.(threads))).
  { by rewrite (sched_step_eq c i (entry o)), (complete_after_step c i (entry o)), run_alone7_entry. }
  rewrite (sched_step_eq c i (entry o)) in Hc |- * by done.
  constructor.
  - by apply one_started_insert.
  - rewrite fmap_app. cbn. apply NoDup_app. split_and!; [apply (si_nodup _ _ _ Hs)| |apply NoDup_singleton].
    intros x Hx ->%list_elem_of_singleton. contradiction.
  - intros j o' [Hin|Hin%list_elem_of_singleton]%elem_of_app; [by apply (si_entry _ _ _ Hs)|].
    simplify_eq. by rewrite <- (si_untouched _ _ _ Hs).
  - intros j Hj. rewrite fmap_app in Hj. cbn in Hj. rewrite elem_of_app, list_elem_of_singleton in Hj.
    cbn [threads].
    rewrite list_lookup_insert_ne by naive_solver. apply (si_untouched _ _ _ Hs). naive_solver.
  - rewrite Hc, seq_run_snoc. cbn. by rewrite Hsh.
  - rewrite Hc, seq_run_snoc. cbn [fst threads]. apply Forall_app. split.
    + rewrite Forall_forall in Hres |- *. intros [j r] Hin. cbn.
      assert (j <> i).
      { intros ->. apply Hni. rewrite <- (seq_run_fst h c0.(shared)).
        apply list_elem_of_fmap. by exists (i, r). }
      rewrite list_lookup_insert_ne by congruence. exact (Hres _ Hin).
    + constructor; [|constructor]. cbn. rewrite list_lookup_insert_eq by done. by rewrite Hsh.
Qed.

Lemma serial_inv_hstep c0 c h i :
  idle c0 -> serial_inv c0 c h -> serial_inv c0 (hstep i (c, h)).1 (hstep i (c, h)).2.
Proof.
  intros Hidle0 Hs. unfold hstep. cbn [fst snd]. unfold locked_step.
  destruct (threads c !! i) as [pc|] eqn:Hi; [|done].
  destruct (started pc) eqn:Hst; cbn [orb].
  - replace (entry_op pc) with (@None Op) by (destruct pc; done).
    by eapply serial_inv_busy.
  - destruct (forallb _ _) eqn:Hf; [|by destruct (entry_op pc)].
    destruct (is_done pc) eqn:Hd.
    + destruct pc; try discriminate. unfold sched_step. rewrite Hi. exact Hs.
    + destruct (is_entry_entry pc) as [o ->]; [unfold started in Hst; by destruct (is_entry pc), (is_done pc)|].
      replace (entry_op (entry o)) with (Some o) by (by destruct o).
      apply serial_inv_start; [done|by apply forallb_idle|done].
Qed.

Lemma run_hist_inv c0 sched c h :
  idle c0 -> serial_inv c0 c h -> serial_inv c0 (run_hist sched (c, h)).1 (run_hist sched (c, h)).2.
Proof.
  intros Hidle0. unfold run_hist. revert c h. induction sched as [|i sched IH]; intros c h Hs; [done|].
  cbn. destruct (hstep i (c, h)) as [c1 h1] eqn:E.
  apply IH. replace c1 with (hstep i (c, h)).1 by (by rewrite E).
  replace h1 with (hstep i (c, h)).2 by (by rewrite E). by apply serial_inv_hstep.
Qed.
End Serial.

(** with the spec's lock, every schedule of [deposit], [withdraw],
    [buy_shares] and [sell_shares] calls by any number of threads that
    starts and ends idle is serializable: there is an order of the
    threads that took the lock, each once and with the call it was given,
    such that running their methods one after the other from the initial
    object yields the final object and each thread's outcome (returned
    boolean or raised exception); threads that never ran are untouched. *)
Theorem locked_schedules_serializable p sched c :
  idle c -> idle (run_locked p sched c) ->
  exists h, NoDup h.*1 /\
    (forall i o, (i, o) ∈ h -> c.(threads) !! i = Some (entry o)) /\
    (forall i, i ∉ h.*1 -> (run_locked p sched c).(threads) !! i = c.(threads) !! i) /\
    (seq_run p h c.(shared)).2 = (run_locked p sched c).(shared) /\
    Forall (fun ir => (run_locked p sched c).(threads) !! ir.1 = Some (Done ir.2)) (seq_run p h c.(shared)).1.
Proof.
  intros Hidle Hend. rewrite <- (run_hist_fst p sched c []) in Hend |- *.
  assert (Hs : serial_inv p c c []).
  { constructor; [intros ? ? ? ? H1 _ Hs1 _; by rewrite (Forall_lookup_1 _ _ _ _ Hidle H1) in Hs1
      |constructor|by intros ? ? ?%elem_of_nil|done| |constructor].
    cbn. rewrite complete_none; [done|]. intros j pj Hj. exact (Forall_lookup_1 _ _ _ _ Hidle Hj). }
  pose proof (run_hist_inv p c sched c [] Hidle Hs) as Hf.
  assert (Hcc : complete p (run_hist p sched (c, [])).1 = (run_hist p sched (c, [])).1)
    by (apply complete_none; intros j pj Hj; exact (Forall_lookup_1 _ _ _ _ Hend Hj)).
  exists (run_hist p sched (c, [])).2.
  split_and!; [apply (si_nodup _ _ _ _ Hf)|apply (si_entry _ _ _ _ Hf)|apply (si_untouched _ _ _ _ Hf)| |].
  - rewrite <- Hcc. apply (si_shared _ _ _ _ Hf).
  - rewrite <- Hcc. apply (si_results _ _ _ _ Hf).
Qed.

Lemma locked_schedules_serializable_witness :
  idle two_buys /\
  idle (run_locked get_share_price [0; 1; 0; 1; 0; 1; 0; 1; 0; 1; 1]%nat two_buys) /\
  exists h, NoDup h.*1 /\
    (forall i o, (i, o) ∈ h -> two_buys.(threads) !! i = Some (entry o)) /\
    (forall i, i ∉ h.*1 ->
      (run_locked get_share_price [0; 1; 0; 1; 0; 1; 0; 1; 0; 1; 1]%nat two_buys).(threads) !! i =
      two_buys.(threads) !! i) /\
    (seq_run get_share_price h two_buys.(shared)).2 =
      (run_locked get_share_price [0; 1; 0; 1; 0; 1; 0; 1; 0; 1; 1]%nat two_buys).(shared) /\
    Forall (fun ir =>
      (run_locked get_share_price [0; 1; 0; 1; 0; 1; 0; 1; 0; 1; 1]%nat two_buys).(threads) !! ir.1 =
      Some (Done ir.2)) (seq_run get_share_price h two_buys.(shared)).1.
Proof.
  assert (Hi : idle two_buys) by (repeat constructor).
  assert (He : idle (run_locked get_share_price [0; 1; 0; 1; 0; 1; 0; 1; 0; 1; 1]%nat two_buys))
    by (vm_compute; repeat constructor).
  split_and!; [exact Hi|exact He|]. exact (locked_schedules_serializable get_share_price _ two_buys Hi He).
Defined.

(** ** Liveness of the locked round robin *)

(** The statements the calls still have to run. *)
Definition pending_steps (c : Cfg) : nat := sum_list_with steps_left c.(threads).

(** [k] rounds in which the scheduler offers every one of [n] threads a
    statement, in order. *)
Definition round_robin (n k : nat) : list nat := concat (replicate k (seq 0 n)).

Lemma sum_list_with_insert {A} (f : A -> nat) l i x y :
  l !! i = Some y -> (sum_list_with f (<[i:=x]> l) + f y = sum_list_with f l + f x)%nat.
Proof.
  intros Hl. pose proof (lookup_lt_Some _ _ _ Hl) as Hlt.
  pose proof (f_equal (sum_list_with f) (take_drop_middle l i y Hl)) as E.
  rewrite sum_list_with_app in E. simpl in E.
  rewrite insert_take_drop, sum_list_with_app by done. simpl. lia.
Qed.

Section Live.
Variable p : string -> Z.
Implicit Types (c : Cfg).

Definition all_done c : Prop := Forall (fun pc => is_done pc = true) c.(threads).

Lemma locked_step_length i c : length (locked_step p i c).(threads) = length c.(threads).
Proof.
  unfold locked_step, sched_step. destruct (threads c !! i) as [pc|]; [|done].
  repeat case_match; cbn; rewrite ?length_insert; done.
Qed.

(** A locked step either does nothing or runs a statement, which lowers
    the pending statements. *)
Lemma locked_step_progress i c :
  locked_step p i c = c \/ (pending_steps (locked_step p i c) < pending_steps c)%nat.
Proof.
  unfold locked_step. destruct (threads c !! i) as [pc|] eqn:Hi; [|by left].
  destruct (started pc || _); [|by left].
  destruct (is_done pc) eqn:Hd; [left; unfold sched_step; by rewrite Hi, Hd|right].
  rewrite (sched_step_eq p c i pc Hi Hd). unfold pending_steps. cbn [threads].
  pose proof (sum_list_with_insert steps_left _ _ (step1 p pc c.(shared)).1 _ Hi).
  pose proof (step1_progress p pc c.(shared) Hd). lia.
Qed.

Lemma run_locked_mono l c : (pending_steps (run_locked p l c) <= pending_steps c)%nat.
Proof.
  unfold run_locked. revert c. induction l as [|i l IH]; intros c; cbn [fold_left]; [lia|].
  specialize (IH (locked_step p i c)).
  destruct (locked_step_progress i c) as [E|]; [rewrite E in IH |- *|]; lia.
Qed.

Lemma run_locked_strict l c i :
  i ∈ l -> (pending_steps (locked_step p i c) < pending_steps c)%nat ->
  (pending_steps (run_locked p l c) < pending_steps c)%nat.
Proof.
  unfold run_locked. revert c. induction l as [|j l IH]; intros c Hin Hlt; [by apply elem_of_nil in Hin|].
  cbn [fold_left]. destruct (locked_step_progress j c) as [Heq|Hj].
  - rewrite Heq. apply elem_of_cons in Hin as [->|Hin]; [rewrite Heq in Hlt; lia|]. by apply IH.
  - pose proof (run_locked_mono l (locked_step p j c)). unfold run_locked in *. lia.
Qed.
Lemma sched_step_pending c i pc :
  c.(threads) !! i = Some pc -> is_done pc = false ->
  (pending_steps (sched_step p i c) < pending_steps c)%nat.
Proof.
  intros Hi Hd. rewrite (sched_step_eq p c i pc Hi Hd). unfold pending_steps. cbn [threads].
  pose proof (sum_list_with_insert steps_left _ _ (step1 p pc c.(shared)).1 _ Hi).
  pose proof (step1_progress p pc c.(shared) Hd). lia.
Qed.

(** While some call has not returned, some thread can run a statement:
    the one holding the lock, or, when none does, any unfinished one. *)
Lemma some_progress c :
  ~ all_done c ->
  exists i, (i < length c.(threads))%nat /\ (pending_steps (locked_step p i c) < pending_steps c)%nat.
Proof.
  intros Hnd. unfold locked_step.
  destruct (list_find (fun pc => started pc = true) c.(threads)) as [[j pc]|] eqn:Ef.
  - apply list_find_Some in Ef as (Hj & Hst & _). exists j.
    split; [by eapply lookup_lt_Some|]. rewrite Hj, Hst. cbn [orb].
    apply (sched_step_pending c j pc Hj). unfold started in Hst. by destruct (is_done pc), (is_entry pc).
  - apply list_find_None in Ef.
    destruct (list_find (fun pc => is_done pc = false) c.(threads)) as [[j pc]|] eqn:Ed.
    + apply list_find_Some in Ed as (Hj & Hd & _). exists j.
      split; [by eapply lookup_lt_Some|]. rewrite Hj.
      replace (forallb _ _) with true; [rewrite orb_true_r; by apply (sched_step_pending c j pc)|].
      symmetry. apply forallb_forall. intros x Hx%list_elem_of_In.
      rewrite Forall_forall in Ef. specialize (Ef x Hx). by destruct (started x).
    + exfalso. apply Hnd. apply list_find_None in Ed. eapply Forall_impl; [exact Ed|].
      intros x Hx. cbv beta in Hx. destruct (is_done x); [done|exfalso; apply Hx; reflexivity].
Qed.

Lemma all_done_locked_step i c : all_done c -> locked_step p i c = c.
Proof.
  intros Ha. unfold locked_step, sched_step. destruct (threads c !! i) as [pc|] eqn:Hi; [|done].
  rewrite (Forall_lookup_1 _ _ _ _ Ha Hi). by destruct (_ || _).
Qed.

Lemma all_done_run_locked l c : all_done c -> run_locked p l c = c.
Proof.
  unfold run_locked. revert c. induction l as [|i l IH]; intros c Ha; [done|].
  cbn [fold_left]. rewrite all_done_locked_step by done. by apply IH.
Qed.

Lemma run_locked_length l c : length (run_locked p l c).(threads) = length c.(threads).
Proof.
  unfold run_locked. revert c. induction l as [|i l IH]; intros c; [done|].
  cbn [fold_left]. by rewrite IH, locked_step_length.
Qed.

Lemma pending_zero c : pending_steps c = 0%nat -> all_done c.
Proof.
  unfold pending_steps, all_done. rewrite sum_list_with_foldr.
  induction (threads c) as [|pc l IH]; intros H; constructor; cbn in H.
  - destruct pc; cbn in H; done || lia.
  - apply IH. lia.
Qed.

Lemma pending_bound c : (pending_steps c <= 7 * length c.(threads))%nat.
Proof.
  unfold pending_steps. rewrite sum_list_with_foldr.
  induction (threads c) as [|pc l IH]; cbn; [lia|]. destruct pc; cbn; lia.
Qed.

(** One round in which some call can progress runs a statement. *)
Lemma round_progress c :
  ~ all_done c -> (pending_steps (run_locked p (seq 0 (length c.(threads))) c) < pending_steps c)%nat.
Proof.
  intros Hnd. destruct (some_progress c Hnd) as (i & Hlt & Hi).
  apply (run_locked_strict _ _ i); [apply elem_of_seq; lia|done].
Qed.

Lemma round_robin_done k c :
  (pending_steps c <= k)%nat -> all_done (run_locked p (round_robin (length c.(threads)) k) c).
Proof.
  revert c. induction k as [|k IH]; intros c Hk.
  - apply pending_zero. cbn. lia.
  - destruct (decide (all_done c)) as [Ha|Hnd]; [by rewrite all_done_run_locked|].
    unfold round_robin. cbn [replicate concat]. unfold run_locked. rewrite fold_left_app.
    fold (run_locked p (seq 0 (length c.(threads))) c).
    fold (round_robin (length c.(threads)) k).
    pose proof (round_progress c Hnd).
    set (c1 := run_locked p (seq 0 (length c.(threads))) c) in *.
    assert (Hlen : length c1.(threads) = length c.(threads)) by apply run_locked_length.
    rewrite <- Hlen. apply IH. lia.
Qed.
End Live.

(** with the spec's lock, the round-robin scheduler that offers
    each of [n] threads one statement per round finishes every call
    within [7 * n] rounds, whatever calls the threads were given and
    however far they had run: the lock never blocks a thread forever,
    and every [deposit], [withdraw], [buy_shares] or [sell_shares]
    returns or raises. *)
Theorem locked_round_robin_finishes p c :
  all_done (run_locked p (round_robin (length c.(threads)) (7 * length c.(threads))) c).
Proof. apply round_robin_done, pending_bound. Qed.

End LockedSchedules.
