(* ===== verification/FloatBehaviour.v ===== *)
(** * The accounts at Python's [float]

    The account files model every method over a [PyNum] instance and
    prove their properties at exact integers ([pynum_Z]).  CPython runs
    them on IEEE-754 doubles, which [pynum_float] models with the
    kernel's primitive floats.  This file states what changes there:
    - a NaN amount passes the [amount <= 0] guards of the [4o] account,
      so [deposit(nan)] and [withdraw(nan)] succeed on every account and
      turn its balance into NaN (the [mini] and [new] accounts test
      [amount > 0] and ignore it);
    - no variant bounds amounts: an infinite deposit followed by an
      infinite withdrawal leaves a NaN balance in all three;
    - the spec's conservation law (buying then selling the same quantity
      at the same price restores the balance exactly) holds at exact
      integers (claim [buy_then_sell_restores]) but not at doubles.

    The general facts about NaN come from the specification of the
    primitive operations ([FloatAxioms]): the IEEE result of an addition,
    subtraction or comparison with a NaN operand. *)

From Stdlib Require Import ZArith String Floats.
From stdpp Require Import base list strings gmap.
From S2P Require Import Prelude PyNum PyDict PyStr Session Account4o AccountMini AccountNew.

#[local] Set Warnings "-inexact-float".

Module FloatBehaviour.

(** ** NaN operands *)

Lemma float_add_nan_r x : is_nan (x + nan)%float = true.
Proof.
  unfold is_nan. rewrite FloatAxioms.eqb_spec, FloatAxioms.add_spec.
  destruct (Prim2SF x) as [[]|[]| |[] ? ?]; reflexivity.
Qed.

Lemma float_sub_nan_r x : is_nan (x - nan)%float = true.
Proof.
  unfold is_nan. rewrite FloatAxioms.eqb_spec, FloatAxioms.sub_spec.
  destruct (Prim2SF x) as [[]|[]| |[] ? ?]; reflexivity.
Qed.

Lemma float_ltb_nan_r x : (x <? nan)%float = false.
Proof. rewrite FloatAxioms.ltb_spec. destruct (Prim2SF x) as [[]|[]| |[] ? ?]; reflexivity. Qed.


(** ** NaN amounts *)

(** [math.isnan(self.balance)] *)
Definition balance_is_nan (s : @Account4o.Account float) : bool := is_nan (Account4o.balance s).

(** C21: [float('nan')] passes the guards [amount <= 0] and
    [amount > self.balance] of the [4o] account, both false on a NaN: on
    every account, [deposit(nan)] and [withdraw(nan)] return [True] and
    leave a NaN balance and net deposit, after which no comparison of the
    balance holds and the ledger invariant [balance >= 0] is lost.  The
    [mini] and [new] accounts guard with [amount > 0] and ignore a NaN
    deposit. *)
Theorem float4o_nan_accepted (s : @Account4o.Account float)
    (m : @AccountMini.Account float) (w : @AccountNew.World float) :
  ((py_run (Account4o.deposit nan) s).1 = Return true) /\
  (balance_is_nan (py_run (Account4o.deposit nan) s).2 = true) /\
  (is_nan (Account4o.net_deposits (py_run (Account4o.deposit nan) s).2) = true) /\
  ((py_run (Account4o.withdraw nan) s).1 = Return true) /\
  (balance_is_nan (py_run (Account4o.withdraw nan) s).2 = true) /\
  ((py_run (AccountMini.deposit nan) m).2 = m) /\
  ((py_run (AccountNew.deposit_funds nan) w).2 = w).
Proof.
  unfold Account4o.deposit, Account4o.withdraw, balance_is_nan. cbn.
  rewrite float_ltb_nan_r. cbn.
  split_and!; auto using float_add_nan_r, float_sub_nan_r.
Qed.

(** [math.isnan(self.balance)] for the other two variants. *)
Definition mini_balance_is_nan (s : @AccountMini.Account float) : bool := is_nan (AccountMini.balance s).
Definition new_balance_is_nan (w : @AccountNew.World float) : bool :=
  is_nan (AccountNew.balance (AccountNew.acct w)).

(** [math.isfinite(x)]: a zero or a finite nonzero double. *)
Definition is_finite_float (x : float) : bool :=
  match Prim2SF x with S754_zero _ | S754_finite _ _ _ => true | _ => false end.

(** A finite double plus [inf] is [inf]. *)
Lemma float_add_inf_r x : is_finite_float x = true -> (x + infinity)%float = infinity.
Proof.
  unfold is_finite_float. intros Hx. apply FloatAxioms.Prim2SF_inj. rewrite FloatAxioms.add_spec.
  destruct (Prim2SF x) as [[]|[]| |[] ? ?]; try discriminate; reflexivity.
Qed.

(** C25: no variant bounds the amounts.  On every account whose balance
    is a finite double, [deposit(float('inf'))] succeeds and makes the
    balance [inf], and then [withdraw(float('inf'))] passes
    [amount > self.balance] (false for [inf > inf]), succeeds and leaves
    the balance [inf - inf], a NaN, in all three variants. *)
Theorem float_infinite_withdraw_nan (s : @Account4o.Account float)
    (m : @AccountMini.Account float) (w : @AccountNew.World float) :
  is_finite_float (Account4o.balance s) = true ->
  is_finite_float (AccountMini.balance m) = true ->
  is_finite_float (AccountNew.balance (AccountNew.acct w)) = true ->
  let s1 := (py_run (Account4o.deposit infinity) s).2 in
  let m1 := (py_run (AccountMini.deposit infinity) m).2 in
  let w1 := (py_run (AccountNew.deposit_funds infinity) w).2 in
  (py_run (Account4o.deposit infinity) s).1 = Return true /\
  (py_run (Account4o.withdraw infinity) s1).1 = Return true /\
  balance_is_nan (py_run (Account4o.withdraw infinity) s1).2 = true /\
  (py_run (AccountMini.withdraw infinity) m1).1 = Return tt /\
  mini_balance_is_nan (py_run (AccountMini.withdraw infinity) m1).2 = true /\
  (py_run (AccountNew.withdraw_funds infinity) w1).1 = Return true /\
  new_balance_is_nan (py_run (AccountNew.withdraw_funds infinity) w1).2 = true.
Proof.
  intros Hs Hm Hw. cbv zeta.
  unfold Account4o.deposit, Account4o.withdraw, AccountMini.deposit, AccountMini.withdraw,
    AccountNew.deposit_funds, AccountNew.withdraw_funds,
    balance_is_nan, mini_balance_is_nan, new_balance_is_nan. cbn.
  rewrite ?(float_add_inf_r _ Hs), ?(float_add_inf_r _ Hm), ?(float_add_inf_r _ Hw).
  split_and!; reflexivity.
Qed.

Lemma float_infinite_withdraw_nan_witness :
  is_finite_float (Account4o.balance (Account4o.init "a" 1000%float)) = true /\
  is_finite_float (AccountMini.balance (AccountMini.init "a" 1000%float)) = true /\
  is_finite_float (AccountNew.balance (AccountNew.acct (AccountNew.init "a" 1000%float ∅ 1%positive))) = true /\
  (py_run (Account4o.withdraw infinity)
     (py_run (Account4o.deposit infinity) (Account4o.init "a" 1000%float)).2).1 = Return true.
Proof.
  assert (Hs : is_finite_float (Account4o.balance (Account4o.init "a" 1000%float)) = true)
    by (vm_compute; reflexivity).
  assert (Hm : is_finite_float (AccountMini.balance (AccountMini.init "a" 1000%float)) = true)
    by (vm_compute; reflexivity).
  assert (Hw : is_finite_float (AccountNew.balance (AccountNew.acct
    (AccountNew.init "a" 1000%float ∅ 1%positive))) = true) by (vm_compute; reflexivity).
  refine (conj Hs (conj Hm (conj Hw _))).
  exact (proj1 (proj2 (float_infinite_withdraw_nan _ _ _ Hs Hm Hw))).
Defined.

(** ** The conservation law at doubles *)

(** A [price_lookup] quoting 150.3 for every symbol. *)
Definition quote_150_3 (_ : string) : float := 150.3%float.

(** At doubles the [4o] account does not restore the balance after
    buying and selling the same quantity at the same price: from
    [Account("a", 1000.1)], [buy_shares("AAPL", 1, q)] and
    [sell_shares("AAPL", 1, q)] with [q] quoting 150.3 both return [True]
    and restore the holdings, but the balance ends at
    1000.0999999999999, not 1000.1.  The spec's conservation law (section
    8) says the balance returns to its pre-trade value exactly, which the
    exact model proves. *)
Example float4o_round_trip_inexact :
  let s0 := Account4o.init "a" 1000.1%float in
  let r1 := py_run (Account4o.buy_shares quote_150_3 "AAPL" 1) s0 in
  let r2 := py_run (Account4o.sell_shares quote_150_3 "AAPL" 1) r1.2 in
  r1.1 = Return true /\ r2.1 = Return true /\
  Account4o.holdings r2.2 = Account4o.holdings s0 /\
  PrimFloat.eqb (Account4o.balance r2.2) (Account4o.balance s0) = false.
Proof. vm_compute. split_and!; reflexivity. Qed.

End FloatBehaviour.
