(* ===== verification/PyProcess.v ===== *)
(** * The process the entry-point scripts run in

    [equity_analyst/main.py] and [deep_research/deep_research.py] do
    not hold state of their own: at import time they read [.env] files
    into [os.environ] with [load_dotenv(..., override=True)], and they
    print.  This file models that process: its environment, the [.env]
    files that exist (as the key/value pairs python-dotenv parses from
    them; a key without [=] has no value), and what it has printed;
    [pathlib]'s [parents] and [/]; [print]; and [load_dotenv] with
    [override=True], which sets every key of the file that has a value,
    a later binding of a key in the file replacing an earlier one.
    Variable interpolation ([${VAR}]) is taken as done by the parser. *)

From Stdlib Require Import String List Ascii.
From stdpp Require Import base list strings gmap sets pretty.
From S2P Require Import Prelude PyDict.

(** An absolute path, as its components below the root
    ([Path(__file__).resolve()]). *)
Definition Path := list string.

(** What python-dotenv parses from a file: keys with their optional
    values, in file order. *)
Definition Dotenv := list (string * option string).

Record Proc := mkProc {
  environ : gmap string string;
  files : Path -> option Dotenv;
  stdout : string;
}.

Definition set_environ (e : gmap string string) (s : Proc) : Proc := mkProc e s.(files) s.(stdout).

(** [p / name] *)
Definition path_div (p : Path) (name : string) : Path := p ++ [name].

(** [p.parents[i]]: the [i]-th ancestor, [IndexError] past the root. *)
Definition parents_getitem {St} (p : Path) (i : nat) : Py St Path :=
  if decide (i < length p)%nat then mret (take (length p - S i) p)
  else py_raise (IndexError (pretty i)).

Definition newline : string := String (ascii_of_nat 10) EmptyString.

(** [print(x)] *)
Definition print (x : string) : Py Proc unit :=
  py_modify (fun s => mkProc s.(environ) s.(files) (s.(stdout) +:+ x +:+ newline)).

(** [dotenv_values]: the pairs of a file as a dict. *)
Definition dotenv_dict (kvs : Dotenv) : dict string (option string) :=
  fold_left (fun d kv => dict_setitem d kv.1 kv.2) kvs [].

(** [set_as_environment_variables] with [override=True]. *)
Definition set_as_environment_variables (d : dict string (option string)) (e : gmap string string)
    : gmap string string :=
  fold_left (fun e kv => match kv.2 with Some v => <[kv.1 := v]> e | None => e end) d e.

(** [load_dotenv(path, override=True)] on a file that exists. *)
Definition load_dotenv (kvs : Dotenv) : Py Proc unit :=
  py_modify (fun s => set_environ (set_as_environment_variables (dotenv_dict kvs) s.(environ)) s).

(** The value a file gives a key. *)
Definition dotenv_get (kvs : Dotenv) (k : string) : option string :=
  dict_lookup (dotenv_dict kvs) k ≫= id.

Lemma dotenv_dict_wf kvs : dict_wf (dotenv_dict kvs).
Proof.
  unfold dotenv_dict. generalize (@dict_wf_nil string (option string)).
  generalize (@nil (string * option string)).
  induction kvs as [|kv kvs IH]; intros d Hd; cbn; [done|]. apply IH, dict_setitem_wf, Hd.
Qed.

Lemma set_as_env_notin d e k :
  k ∉ dict_keys d -> set_as_environment_variables d e !! k = e !! k.
Proof.
  revert e. induction d as [|[k' v] d IH]; intros e Hk; cbn; [done|].
  cbn in Hk. apply not_elem_of_cons in Hk as [Hne Hk].
  rewrite IH by done. destruct v; [rewrite lookup_insert_ne; set_solver|done].
Qed.

(** A key the file gives a value takes it; any other keeps its value. *)
Lemma set_as_env_lookup d e k :
  dict_wf d ->
  set_as_environment_variables d e !! k =
  match dict_lookup d k with Some (Some v) => Some v | _ => e !! k end.
Proof.
  unfold dict_wf. revert e. induction d as [|[k' v] d IH]; intros e Hwf; cbn; [done|].
  cbn in Hwf. apply NoDup_cons in Hwf as [Hnin Hwf].
  case_decide as Hk; [subst k'|].
  - rewrite set_as_env_notin by done. destruct v; [by rewrite lookup_insert_eq|done].
  - rewrite IH by done.
    destruct (dict_lookup d k) as [[]|], v; try done; rewrite lookup_insert_ne; congruence.
Qed.

Lemma load_dotenv_lookup kvs s k :
  (py_run (load_dotenv kvs) s).2.(environ) !! k =
  match dotenv_get kvs k with Some v => Some v | None => s.(environ) !! k end.
Proof.
  cbn. rewrite set_as_env_lookup by apply dotenv_dict_wf. unfold dotenv_get.
  by destruct (dict_lookup (dotenv_dict kvs) k) as [[]|].
Qed.
