(* ===== verification/EquityAnalystCrew.v ===== *)
(** * [equity_analyst/crew.py]: the EquityAnalyst crew as data

    The file declares four pydantic output schemas and a [@CrewBase]
    class whose [@agent] and [@task] methods build crewai [Agent] and
    [Task] objects from the YAML configuration ([agents_config],
    [tasks_config]), and whose [@crew] method builds a hierarchical
    [Crew] with a manager agent and three memories.  What the framework
    and the LLM then do with these objects is not in the sources.

    [Module EquityAnalystCrew] models
    - each schema as the list of its fields with their annotation, their
      [description] and the extra keyword arguments of [Field(...)];
    - the constructor arguments of [Agent], [Task], the storages, the
      memories and [Crew] as records, a keyword the code does not pass
      as [None];
    - each method as a [Py] computation over the instance's two config
      dicts: [self.agents_config[key]] raises [KeyError] when the key is
      missing;
    - [self.agents] and [self.tasks] as the [@crew] wrapper fills them:
      every [@task] method, then every [@agent] method, in declaration
      order.
    Proved: [crew()] builds its crew exactly when every key it indexes is
    present, and raises [KeyError] on a missing one otherwise; the crew's
    entity memory and short-term memory use the same storage. *)

From Stdlib Require Import String List.
From stdpp Require Import base list strings sets.
From S2P Require Import Prelude PyDict.
Import ListNotations.

Module EquityAnalystCrew.

(** ** The pydantic output schemas *)

(** A field: its name, its annotation, [Field(description=...)], and
    the other keyword arguments given to [Field]. *)
Record FieldInfo := mkField {
  field_name : string;
  field_type : string;
  field_description : option string;
  field_extra : list (string * string);
}.

Inductive Schema :=
| TrendingCompany
| TrendingCompanyList
| TrendingCompanyResearch
| TrendingCompanyResearchList.

#[export] Instance Schema_eq_dec : EqDecision Schema.
Proof. solve_decision. Defined.

Definition schema_fields (m : Schema) : list FieldInfo :=
  match m with
  | TrendingCompany =>
      [mkField "name" "str" (Some "Company Name") [];
       mkField "ticker" "str" (Some "Stock ticker symbol") [];
       mkField "reason" "str" (Some "Reason this company is trending in the news") []]
  | TrendingCompanyList =>
      [mkField "companies" "List[TrendingCompany]" (Some "List of companies trending in the news") []]
  | TrendingCompanyResearch =>
      [mkField "name" "str" (Some "Company name") [];
       mkField "market_position" "str" (Some "Current market position and competitive analysis") [];
       mkField "future_outlook" "str" (Some "Future outlook and growth prospects") [];
       mkField "investment_potential" "str" (Some "Investment potential and suitability for investment") []]
  | TrendingCompanyResearchList =>
      (* [Field(descripttion=...)]: an unknown keyword, not a description *)
      [mkField "companies" "List[TrendingCompanyResearch]" None
         [("descripttion", "Comprehensive research on all trending companies")]]
  end.

(** ** Constructor arguments *)

Section Objects.
(** One entry of a YAML configuration file. *)
Context {Cfg : Type}.

Inductive Tool := SerperDevTool.

Record Agent := mkAgent {
  agent_config : Cfg;
  agent_tools : option (list Tool);
  agent_memory : option bool;
  agent_allow_delegation : option bool;
  agent_tracing : option bool;
}.

Record Task := mkTask { task_config : Cfg; output_pydantic : Schema }.

Inductive Storage :=
| RAGStorage (provider model type path : string)
| LTMSQLiteStorage (db_path : string).

Inductive Memory :=
| ShortTermMemory (storage : Storage)
| LongTermMemory (storage : Storage)
| EntityMemory (storage : Storage).

Definition memory_storage (m : Memory) : Storage :=
  match m with ShortTermMemory s | LongTermMemory s | EntityMemory s => s end.

Inductive Process := Sequential | Hierarchical.

Record Crew := mkCrew {
  crew_agents : list Agent;
  crew_tasks : list Task;
  process : Process;
  verbose : bool;
  manager_agent : Agent;
  crew_memory : bool;
  long_term_memory : Memory;
  short_term_memory : Memory;
  entity_memory : Memory;
}.

(** The instance: the dicts [CrewBase] loads from [config/agents.yaml]
    and [config/tasks.yaml]. *)
Record EquityAnalyst := mkEquityAnalyst {
  agents_config : dict string Cfg;
  tasks_config : dict string Cfg;
}.
End Objects.
Arguments EquityAnalyst : clear implicits.

(** ** The methods *)

Section Methods.
Context {Cfg : Type}.

(** [d[key]] on a dict: [KeyError] when the key is missing. *)
Definition getitem (d : dict string Cfg) (key : string) : Py (EquityAnalyst Cfg) Cfg :=
  match dict_lookup d key with Some c => mret c | None => py_raise (KeyError key) end.

Definition agents_getitem (key : string) : Py (EquityAnalyst Cfg) Cfg :=
  s ← py_get; getitem s.(agents_config) key.
Definition tasks_getitem (key : string) : Py (EquityAnalyst Cfg) Cfg :=
  s ← py_get; getitem s.(tasks_config) key.

Definition trending_company_finder : Py (EquityAnalyst Cfg) (@Agent Cfg) :=
  c ← agents_getitem "trending_company_finder";
  mret (mkAgent c (Some [SerperDevTool]) None None None).

Definition financial_researcher : Py (EquityAnalyst Cfg) (@Agent Cfg) :=
  c ← agents_getitem "financial_researcher";
  mret (mkAgent c (Some [SerperDevTool]) None None None).

Definition stock_picker : Py (EquityAnalyst Cfg) (@Agent Cfg) :=
  c ← agents_getitem "stock_picker";
  mret (mkAgent c None (Some true) None None).

Definition find_trending_companies : Py (EquityAnalyst Cfg) (@Task Cfg) :=
  c ← tasks_getitem "find_trending_companies"; mret (mkTask c TrendingCompanyList).

Definition research_trending_companies : Py (EquityAnalyst Cfg) (@Task Cfg) :=
  c ← tasks_getitem "research_trending_companies"; mret (mkTask c TrendingCompanyResearchList).

(** The config key is [pick_best_company], not the method's name. *)
Definition pick_best_companies : Py (EquityAnalyst Cfg) (@Task Cfg) :=
  c ← tasks_getitem "pick_best_company"; mret (mkTask c TrendingCompanyResearch).

(** [self.tasks] and [self.agents] as the [@crew] wrapper fills them
    before running [crew]: the [@task] methods, then the [@agent]
    methods, each in declaration order. *)
Definition crew_members : Py (EquityAnalyst Cfg) (list (@Task Cfg) * list (@Agent Cfg)) :=
  t1 ← find_trending_companies; t2 ← research_trending_companies; t3 ← pick_best_companies;
  a1 ← trending_company_finder; a2 ← financial_researcher; a3 ← stock_picker;
  mret ([t1; t2; t3], [a1; a2; a3]).

Definition openai_small_rag (type path : string) : Storage :=
  RAGStorage "openai" "text-embedding-3-small" type path.

(** [crew(self)] *)
Definition crew : Py (EquityAnalyst Cfg) (@Crew Cfg) :=
  '(tasks, agents) ← crew_members;
  m ← agents_getitem "manager";
  let manager := mkAgent m None None (Some true) (Some true) in
  let short_term := ShortTermMemory (openai_small_rag "short_term" "./memory/") in
  let long_term := LongTermMemory (LTMSQLiteStorage "./memory/long_term_memory_storage.db") in
  let entity := EntityMemory (openai_small_rag "short_term" "./memory/") in
  mret (mkCrew agents tasks Hierarchical true manager true long_term short_term entity).
End Methods.

(** ** What [crew()] needs and builds *)

Section CrewSpec.
Context {Cfg : Type}.
Implicit Types (ea : EquityAnalyst Cfg).

(** The two YAML files. *)
Inductive ConfigFile := AgentsYaml | TasksYaml.

Definition config_of ea (f : ConfigFile) : dict string Cfg :=
  match f with AgentsYaml => ea.(agents_config) | TasksYaml => ea.(tasks_config) end.

(** Every key [crew()] indexes, in the order it indexes them. *)
Definition crew_keys : list (ConfigFile * string) :=
  [(TasksYaml, "find_trending_companies"); (TasksYaml, "research_trending_companies");
   (TasksYaml, "pick_best_company"); (AgentsYaml, "trending_company_finder");
   (AgentsYaml, "financial_researcher"); (AgentsYaml, "stock_picker"); (AgentsYaml, "manager")].

Definition key_present ea (fk : ConfigFile * string) : Prop :=
  is_Some (dict_lookup (config_of ea fk.1) fk.2).

(** An absent key is reported missing, a present one present. *)
Lemma key_present_lookup ea f k c :
  dict_lookup (config_of ea f) k = Some c -> key_present ea (f, k).
Proof. intros E. unfold key_present. cbn. rewrite E. by eexists. Qed.

Lemma key_absent_lookup ea f k :
  dict_lookup (config_of ea f) k = None -> ~ key_present ea (f, k).
Proof. intros E. unfold key_present. cbn. rewrite E. by intros [? ?]. Qed.
End CrewSpec.

(** A missing key [crew()] indexes: the file it belongs to, the key, and
    the [KeyError] it raises. *)
Ltac crew_missing :=
  match goal with
  | E : dict_lookup (tasks_config ?ea) ?k = None |- _ =>
      exists (TasksYaml, k); split_and!;
      [reflexivity | cbn; repeat (apply list_elem_of_here || apply list_elem_of_further)
      | by apply (key_absent_lookup ea TasksYaml k)]
  | E : dict_lookup (agents_config ?ea) ?k = None |- _ =>
      exists (AgentsYaml, k); split_and!;
      [reflexivity | cbn; repeat (apply list_elem_of_here || apply list_elem_of_further)
      | by apply (key_absent_lookup ea AgentsYaml k)]
  end.

Ltac crew_present :=
  repeat constructor;
  match goal with
  | |- key_present ?ea (TasksYaml, ?k) => eapply (key_present_lookup ea TasksYaml k); eassumption
  | |- key_present ?ea (AgentsYaml, ?k) => eapply (key_present_lookup ea AgentsYaml k); eassumption
  end.

(** C34: [crew()] on an [EquityAnalyst] instance builds its crew exactly
    when both YAML dicts hold every key the [@agent], [@task] and [@crew]
    methods index; otherwise it raises [KeyError] for a key it indexes
    that is missing.  The crew it builds gives its entity memory the
    very storage of its short-term memory (a [RAGStorage] of type
    [short_term] at [./memory/]). *)
Theorem crew_outcome {Cfg} (ea : EquityAnalyst Cfg) :
  match (py_run crew ea).1 with
  | Return c => Forall (key_present ea) crew_keys /\
                memory_storage c.(entity_memory) = memory_storage c.(short_term_memory)
  | Raise e => exists fk, e = KeyError fk.2 /\ fk ∈ crew_keys /\ ~ key_present ea fk
  end.
Proof.
  unfold crew, crew_members, trending_company_finder, financial_researcher, stock_picker,
    find_trending_companies, research_trending_companies, pick_best_companies,
    agents_getitem, tasks_getitem, getitem.
  unfold mret, mbind, py_ret, py_bind, py_raise, py_get. cbn.
  repeat (match goal with |- context [dict_lookup ?d ?k] => destruct (dict_lookup d k) eqn:?; cbn end).
  all: first [crew_missing | split; [crew_present | reflexivity]].
Qed.

End EquityAnalystCrew.
