(* ===== verification/EquityAnalystMain.v ===== *)
(** * [equity_analyst/main.py]: the crew's entry point

    At import, [main.py] resolves its own path, takes the [.env] of the
    repository root ([parents[4]]) and of the project ([parents[2]]),
    and loads each that exists, in that order, with [override=True].
    [run()] builds the crew of [crew.py], kicks it off on the input
    [{'sector': 'Technology'}], and prints a banner and the result's
    [raw] text.

    [Module EquityAnalystMain] models the import ([module_init]) and
    [run] over the process of [PyProcess.v]; the crew is built by
    [EquityAnalystCrew.crew], and what [kickoff] returns (the LLM's
    work) is a parameter.  Proved: after the import, a key takes the
    project [.env]'s value if it gives one, else the root [.env]'s, else
    keeps the value the process had: the project file wins. *)

From Stdlib Require Import String List Lia.
From stdpp Require Import base list strings gmap pretty.
From S2P Require Import Prelude PyDict PyProcess EquityAnalystCrew.
Import EquityAnalystCrew.

Module EquityAnalystMain.

(** [if env_file.exists(): load_dotenv(env_file, override=True)] *)
Definition load_if_exists (env_file : Path) (s : Proc) : Py Proc unit :=
  match s.(files) env_file with Some kvs => load_dotenv kvs | None => mret tt end.

(** [for env_file in (...): ...] *)
Fixpoint load_env_files (env_files : list Path) : Py Proc unit :=
  match env_files with
  | [] => mret tt
  | env_file :: rest => s ← py_get; load_if_exists env_file s;; load_env_files rest
  end.

(** The module's top level, from the resolved path of [main.py]; it
    returns [_ROOT_ENV] and [_PROJECT_ENV]. *)
Definition module_init (current_file : Path) : Py Proc (Path * Path) :=
  root ← parents_getitem current_file 4;
  let root_env := path_div root ".env" in
  project ← parents_getitem current_file 2;
  let project_env := path_div project ".env" in
  load_env_files [root_env; project_env];;
  mret (root_env, project_env).

Definition banner : string := newline +:+ newline +:+ "=== FINAL DECISION===" +:+ newline +:+ newline.

Section Run.
Context {Cfg : Type}.
(** [crew.kickoff(inputs=inputs).raw]: the framework's and the LLM's. *)
Variable kickoff_raw : @Crew Cfg -> list (string * string) -> string.

(** [run()], with the instance [EquityAnalyst()] builds from its YAML files. *)
Definition run (ea : EquityAnalyst Cfg) : Py Proc unit :=
  let inputs := [("sector", "Technology")] in
  match (py_run crew ea).1 with
  | Return c =>
      let result := kickoff_raw c inputs in
      print banner;;
      print result
  | Raise e => py_raise e
  end.

(** [python main.py]: the module's top level, then
    [if __name__ == "__main__": run()]; an import runs the top level only. *)
Definition main (is_main : bool) (current_file : Path) (ea : EquityAnalyst Cfg) : Py Proc unit :=
  module_init current_file;;
  if is_main then run ea else mret tt.
End Run.

(** ** The order of the [.env] files *)

(** A file's value for a key, if the file exists and gives one. *)
Definition file_value (s : Proc) (p : Path) (k : string) : option string :=
  s.(files) p ≫= fun kvs => dotenv_get kvs k.

(** The value a key has after loading [env_files] in order. *)
Definition loaded_value (s : Proc) (env_files : list Path) (k : string) : option string :=
  foldr (fun f acc => match file_value s f k with Some v => Some v | None => acc end)
    (s.(environ) !! k) (reverse env_files).

Lemma load_if_exists_run f s :
  exists s1, py_run (load_if_exists f s) s = (Return tt, s1) /\ s1.(files) = s.(files) /\
    forall k, s1.(environ) !! k = match file_value s f k with Some v => Some v | None => s.(environ) !! k end.
Proof.
  unfold load_if_exists, file_value. destruct (files s f) as [kvs|]; cbn [mbind option_bind].
  - eexists; split_and!; [reflexivity|reflexivity|]. intros k. apply (load_dotenv_lookup kvs s k).
  - by eexists.
Qed.

Lemma load_env_files_step f fs s :
  py_run (load_env_files (f :: fs)) s = py_run (load_env_files fs) (py_run (load_if_exists f s) s).2.
Proof.
  cbn [load_env_files]. rewrite py_run_bind, py_run_get, py_run_bind.
  destruct (load_if_exists_run f s) as (s1 & E & _). by rewrite E.
Qed.

Lemma load_env_files_run env_files s :
  (py_run (load_env_files env_files) s).1 = Return tt /\
  (py_run (load_env_files env_files) s).2.(files) = s.(files) /\
  forall k, (py_run (load_env_files env_files) s).2.(environ) !! k = loaded_value s env_files k.
Proof.
  unfold loaded_value. revert s. induction env_files as [|f fs IH]; intros s; [done|].
  rewrite load_env_files_step.
  destruct (load_if_exists_run f s) as (s1 & -> & Hf & Hk). cbn [snd].
  destruct (IH s1) as (Hr & Hf' & Hk'). split_and!; [done|congruence|].
  intros k. rewrite Hk', reverse_cons, foldr_app. cbn [foldr]. rewrite Hk.
  unfold file_value. by rewrite Hf.
Qed.
Lemma parents_getitem_run {St} (p : Path) i (s : St) :
  py_run (parents_getitem p i) s =
  if decide (i < length p)%nat then (Return (take (length p - S i) p), s)
  else (Raise (IndexError (pretty i)), s).
Proof. unfold parents_getitem. by case_decide. Qed.

(** A path with fewer than five components has no [parents[4]]: the
    import raises [IndexError] before it reads any file. *)
Lemma module_init_short file s :
  (length file < 5)%nat -> py_run (module_init file) s = (Raise (IndexError (pretty 4%nat)), s).
Proof.
  intros Hl. unfold module_init. rewrite py_run_bind, parents_getitem_run.
  by rewrite decide_False by lia.
Qed.

(** C33: importing [main.py] from a resolved path with at least five
    components names [parents[4] / ".env"] (the repository root's) and
    [parents[2] / ".env"] (the project's), and leaves every environment
    variable with the project file's value if it gives one, else the
    root file's, else the value the process had: the later, project
    file wins over the root file, and both over the process. *)
Theorem main_env_project_wins (file : Path) (s : Proc) (k : string) :
  (5 <= length file)%nat ->
  let root_env := take (length file - 5) file ++ [".env"] in
  let project_env := take (length file - 3) file ++ [".env"] in
  (py_run (module_init file) s).1 = Return (root_env, project_env) /\
  (py_run (module_init file) s).2.(environ) !! k =
    match file_value s project_env k with
    | Some v => Some v
    | None => match file_value s root_env k with Some v => Some v | None => s.(environ) !! k end
    end.
Proof.
  intros Hl. unfold module_init. rewrite py_run_bind, parents_getitem_run, decide_True by lia.
  rewrite py_run_bind, parents_getitem_run, decide_True by lia.
  rewrite py_run_bind. destruct (load_env_files_run [path_div (take (length file - 5) file) ".env";
    path_div (take (length file - 3) file) ".env"] s) as (Hr & _ & Hk).
  destruct (py_run (load_env_files _) s) as [o s1]. cbn in Hr |- *. subst o.
  split; [done|]. rewrite Hk. reflexivity.
Qed.

(** The repository's layout: [main.py] five levels below the root. *)
Definition main_py : Path :=
  ["repo"; "src"; "3_crew"; "equity_analyst"; "src"; "equity_analyst"; "main.py"].

Definition two_env_files : Proc :=
  mkProc {[ "OPENAI_API_KEY" := "old" ]}
    (fun p => if decide (p = ["repo"; "src"; ".env"]) then
                Some [("OPENAI_API_KEY", Some "root"); ("SERPER_API_KEY", Some "serper")]
              else if decide (p = ["repo"; "src"; "3_crew"; "equity_analyst"; ".env"]) then
                Some [("OPENAI_API_KEY", Some "project")]
              else None) "".

Lemma main_env_project_wins_witness :
  (5 <= length main_py)%nat /\
  (py_run (module_init main_py) two_env_files).1 =
    Return (["repo"; "src"; ".env"], ["repo"; "src"; "3_crew"; "equity_analyst"; ".env"]) /\
  (py_run (module_init main_py) two_env_files).2.(environ) !! "OPENAI_API_KEY" = Some "project".
Proof.
  assert (Hl : (5 <= length main_py)%nat) by (cbn; lia).
  destruct (main_env_project_wins main_py two_env_files "OPENAI_API_KEY" Hl) as [H1 H2].
  split_and!; [exact Hl | exact H1 | rewrite H2; reflexivity].
Defined.
End EquityAnalystMain.
