(* ===== verification/DeepResearch.v ===== *)
(** * [deep_research/deep_research.py]: the Gradio front end

    At import the script tries [gradio], imports [ResearchManager] (its
    module is not in the sources), loads the first [.env] found walking
    up from the script's directory with [override=True], raises
    [RuntimeError] if [gradio] was missing, and otherwise builds a page
    with a text box, a button and a report, binds the button's [click]
    and the box's [submit] to [run], and launches it.  [run(query)]
    yields every chunk [ResearchManager().run(query)] yields.

    [Module DeepResearch] models the import as a [Py] computation over
    the process of [PyProcess.v] and the page it launches, with the
    modules present and the research manager's stream as parameters;
    [find_dotenv] walks up from the script's directory as python-dotenv
    does.  Gradio shows the last value a generator yields. *)

From Stdlib Require Import String List Lia.
From stdpp Require Import base list strings gmap.
From S2P Require Import Prelude PyDict PyProcess.

Module DeepResearch.

(** The page: its components, in order, and the events bound to [run]. *)
Inductive Component :=
| Markdown (value : string)
| Textbox (label : string)
| Button (value variant : string)
| ReportMarkdown (label : string).

Inductive Event := Click | Submit.

#[export] Instance Event_eq_dec : EqDecision Event.
Proof. solve_decision. Defined.

(** [component.event(fn=run, inputs=..., outputs=...)], by the
    components' positions on the page. *)
Record Binding := mkBinding { source : nat; event : Event; inputs : nat; outputs : nat }.

Record Blocks := mkBlocks {
  primary_hue : string;
  components : list Component;
  bindings : list Binding;
}.

(** The process, and the page launched (with [inbrowser]), if any. *)
Record DR := mkDR { proc : Proc; launched : option (Blocks * bool) }.

Definition on_proc {A} (m : Py Proc A) : Py DR A :=
  MkPy (fun s => let '(o, p) := py_run m s.(proc) in (o, mkDR p s.(launched))).

(** [find_dotenv()]: the first [.env] file in the script's directory or
    an ancestor, nearest first. *)
Definition find_dotenv (script_dir : Path) (s : Proc) : option Path :=
  head (omap (fun n => let p := take n script_dir ++ [".env"] in
                       if s.(files) p is Some _ then Some p else None)
    (reverse (seq 0 (S (length script_dir))))).

(** [load_dotenv(override=True)]: nothing when no file is found. *)
Definition load_dotenv_found (script_dir : Path) : Py Proc unit :=
  s ← py_get;
  match find_dotenv script_dir s ≫= s.(files) with
  | Some kvs => load_dotenv kvs
  | None => mret tt
  end.

Definition gradio_missing_message : string :=
  "gradio is required to launch the UI. Install it with `pip install gradio` in the project environment.".

(** The page of lines 25-32. *)
Definition ui : Blocks :=
  mkBlocks "sky"
    [Markdown "# Deep Research"; Textbox "What topic would you like to research?";
     Button "Run" "primary"; ReportMarkdown "Report"]
    [mkBinding 2 Click 1 3; mkBinding 1 Submit 1 3].

(** The module's top level, given whether [gradio] and [research_manager]
    can be imported and the script's directory. *)
Definition module_init (has_gradio has_research_manager : bool) (script_dir : Path) : Py DR unit :=
  if negb has_research_manager then py_raise (ImportError "research_manager") else
  on_proc (load_dotenv_found script_dir);;
  if negb has_gradio then py_raise (RuntimeError gradio_missing_message) else
  py_modify (fun s => mkDR s.(proc) (Some (ui, true))).

Section Run.
(** [ResearchManager().run(query)]: the chunks it yields. *)
Variable manager_run : string -> list string.

(** [async for chunk in ResearchManager().run(query): yield chunk] *)
Definition run (query : string) : list string :=
  foldr (fun chunk rest => chunk :: rest) [] (manager_run query).

(** An event on the launched page: the box's text goes to [run], and
    the report shows the last chunk it yields. *)
Definition fire (b : Blocks) (ev : Event) (src : nat) (text : string) : option (option string) :=
  (fun _ => last (run text)) <$> list_find (fun bd => bd.(source) = src /\ bd.(event) = ev) b.(bindings).
End Run.

(** [run] forwards the manager's stream unchanged. *)
Lemma run_forwards manager_run q : run manager_run q = manager_run q.
Proof. unfold run. induction (manager_run q) as [|c l IH]; cbn; congruence. Qed.

Lemma load_dotenv_found_returns script_dir s :
  (py_run (load_dotenv_found script_dir) s).1 = Return tt.
Proof.
  unfold load_dotenv_found. rewrite py_run_bind, py_run_get.
  by destruct (find_dotenv script_dir s ≫= files s).
Qed.

(** Without [gradio] the import raises [RuntimeError] after loading the
    [.env] file, and launches nothing. *)
Lemma module_init_no_gradio script_dir s :
  py_run (module_init false true script_dir) s =
  (Raise (RuntimeError gradio_missing_message),
   mkDR (py_run (load_dotenv_found script_dir) s.(proc)).2 s.(launched)).
Proof.
  unfold module_init. cbn [negb]. rewrite py_run_bind. unfold on_proc. cbn [py_run].
  pose proof (load_dotenv_found_returns script_dir (proc s)) as Hr.
  destruct (py_run (load_dotenv_found script_dir) (proc s)) as [o p]. cbn in Hr. by subst o.
Qed.
End DeepResearch.
